(** * Polymarket smart-money analyzer: credibility scoring, signal generation
      and the analysis pipeline, embedded from the TypeScript sources.

    Number models.  A JavaScript [number] is an IEEE 754 double.  Two
    embeddings of it are used, each where it can carry the proofs.

    - Exact rationals ([Q], module [JS]): every finite double is a rational,
      and the arithmetic of the sources ([+], [*], [/], comparisons,
      [Math.round], [Math.min], ...) is taken at its exact value.  [NaN] and
      the infinities have no counterpart, so a definition over [Q] speaks of
      inputs whose figures are finite numbers, and its results are those of
      the sources up to the rounding of each operation.  Ranges,
      monotonicity, orderings and everything that does not depend on a
      figure at all are stated in this model.

    - Doubles ([F64], the standard library's [SpecFloat] at binary64, and
      the definitions of module [Double]): every operation is rounded as the
      sources round it, and [NaN], the infinities and the two zeros are
      there.  What depends on the last bit of a figure or on [NaN] is stated
      in this model: the thresholds of the signal generator, the running sum
      of the realized profits, the figures read off a leaderboard entry, the
      scores of a profile that is not a number, the dollar sizes of the
      position mapper.

    Strings are sequences of code units below 256 (Latin-1).

    Host functions whose values are not determined by the program
    ([Math.log10], [parseFloat], [parseInt], number formatting, the wall
    clock, the remote services) are parameters of the definitions that use
    them. *)

From Stdlib Require Import ZArith QArith Qround Qabs Lia Lqa Bool.
From Stdlib Require Import List Ascii String DecimalString.
From Stdlib Require Import Sorted Permutation.
From Stdlib Require Import Floats.SpecFloat.
From stdpp Require Import gmap strings.

Import ListNotations.

(* ===================================================================== *)
(** ** JavaScript primitives on exact rationals                          *)
(* ===================================================================== *)

Module JS.

Local Open Scope Q_scope.

(** [x <= y], [x < y], [x === y] on numbers. *)
Definition leb (x y : Q) : bool := Qle_bool x y.
Definition ltb (x y : Q) : bool := negb (Qle_bool y x).
Definition eqb (x y : Q) : bool := Qeq_bool x y.

(** [Math.min], [Math.max], [Math.abs]. *)
Definition min (x y : Q) : Q := if leb x y then x else y.
Definition max (x y : Q) : Q := if leb x y then y else x.
Definition abs (x : Q) : Q := Qabs x.

(** [Math.round] rounds halves towards plus infinity: it is
    [floor (x + 1/2)]. *)
Definition round (x : Q) : Z := Qfloor (x + (1 # 2)).

(** [x || 0] on a number that may be missing ([undefined]); [0 || 0] is
    [0] as well. *)
Definition orZero (x : option Q) : Q :=
  match x with Some v => v | None => 0 end.

(** The idiom [Math.round(x * 100) / 100] of the sources. *)
Definition round2 (x : Q) : Q := inject_Z (round (x * 100)) / 100.

End JS.

(* ===================================================================== *)
(** ** JavaScript primitives on doubles                                  *)
(* ===================================================================== *)

Module F64.

(** Binary64: 53 bits of precision, infinities at exponent 1024. *)
Definition prec : Z := 53.
Definition emax : Z := 1024.

Definition number : Type := spec_float.

Definition NaN : number := S754_nan.
Definition zero : number := S754_zero false.

(** [x + y], [x - y], [x * y], [x / y], each rounded to nearest, ties to
    even. *)
Definition add : number -> number -> number := SFadd prec emax.
Definition sub : number -> number -> number := SFsub prec emax.
Definition mul : number -> number -> number := SFmul prec emax.
Definition div : number -> number -> number := SFdiv prec emax.

(** [x < y], [x <= y], [x === y]; [x > y] is [ltb y x] and [x >= y] is
    [leb y x].  Each is false as soon as an operand is [NaN]. *)
Definition ltb : number -> number -> bool := SFltb.
Definition leb : number -> number -> bool := SFleb.
Definition eqb : number -> number -> bool := SFeqb.

(** An integer literal, and an integer-valued number such as a length. *)
Definition ofZ (z : Z) : number := binary_normalize prec emax z 0 false.
Definition ofNat (n : nat) : number := ofZ (Z.of_nat n).

(** A decimal literal of value [n / d], such as [0.65] ([lit 65 100]): it
    denotes the double nearest to that value, which is the rounded quotient
    of the two integers. *)
Definition lit (n d : Z) : number := div (ofZ n) (ofZ d).

Definition isNaN (x : number) : bool :=
  match x with S754_nan => true | _ => false end.

(** Truthiness of a number: neither a zero nor [NaN]. *)
Definition truthy (x : number) : bool :=
  match x with S754_nan | S754_zero _ => false | _ => true end.

(** [x || 0] on a number that may be missing ([undefined]). *)
Definition orZero (x : option number) : number :=
  match x with
  | Some v => if truthy v then v else zero
  | None => zero
  end.

(** [Math.abs]. *)
Definition abs : number -> number := SFabs.

(** [Math.max] and [Math.min]: [NaN] if an argument is; [+0] counts as
    larger than [-0]. *)
Definition max (x y : number) : number :=
  if isNaN x || isNaN y then NaN
  else if ltb x y then y
  else if ltb y x then x
  else match x with S754_zero true => y | _ => x end.

Definition min (x y : number) : number :=
  if isNaN x || isNaN y then NaN
  else if ltb x y then x
  else if ltb y x then y
  else match y with S754_zero true => y | _ => x end.

(** [Math.round]: the integer nearest to [x], the larger one on a tie,
    computed on the exact value of [x]; a result of zero keeps the sign of
    [x].  A double with a non-negative exponent is an integer already. *)
Definition round (x : number) : number :=
  match x with
  | S754_finite s m (Zneg k) =>
      let n :=
        ((cond_Zopp s (2 * Zpos m) + 2 ^ Zpos k) / 2 ^ (Zpos k + 1))%Z in
      match n with
      | Z0 => S754_zero s
      | _ => ofZ n
      end
  | _ => x
  end.

(** The idiom [Math.round(x * 100) / 100] of the sources. *)
Definition round2 (x : number) : number :=
  div (round (mul x (ofZ 100))) (ofZ 100).

(** The exact value of a finite double. *)
Definition toQ (x : number) : option Q :=
  match x with
  | S754_zero _ => Some 0%Q
  | S754_finite s m (Zneg k) => Some (cond_Zopp s (Zpos m) # 2 ^ k)%Q
  | S754_finite s m e => Some (inject_Z (cond_Zopp s (Zpos m) * 2 ^ e))
  | _ => None
  end.

End F64.

(* ===================================================================== *)
(** ** Domain types ([types.ts])                                         *)
(* ===================================================================== *)

Inductive Position := YES | NO.

Definition Position_eqb (a b : Position) : bool :=
  match a, b with
  | YES, YES | NO, NO => true
  | _, _ => false
  end.

(** A [Date] is its time value: milliseconds since the epoch, or [None]
    for an invalid date (whose [getTime()] is [NaN]). *)
Definition Date := option Z.

Record Holder := mkHolder {
  address : string;
  username : option string;
  totalProfit : Q;
  totalVolume : Q;
  totalMarkets : Q;
  winRate : Q;
  positionsSampled : nat;
  lastTradeDate : Date;
  avgPositionSize : Q;
  currentPosition : Position;
  currentPositionSize : Q;
  shares : Q
}.

(** [winRateScore] is the field [winRate] of the source's breakdown. *)
Record ScoreBreakdown := mkBreakdown {
  profit : Q;
  winRateScore : Q;
  volume : Q;
  recency : Q;
  conviction : Q
}.

Record CredibilityScore := mkScore {
  total : Q;
  breakdown : ScoreBreakdown
}.

Record ScoredHolder := mkScored {
  holder : Holder;
  credibilityScore : CredibilityScore
}.

(* ===================================================================== *)
(** ** Credibility scoring ([scoring.ts])                                *)
(* ===================================================================== *)

Module Scoring.

Local Open Scope Q_scope.

Section WithHost.

(** [Math.log10]. *)
Variable log10 : Q -> Q.

(** [Date.now()], read once per call of [calcRecencyScore]. *)
Variable now : Z.

Definition calcProfitScore (totalProfit : Q) : Q :=
  if JS.leb totalProfit 0 then 0
  else
    let raw := log10 (totalProfit / 1000) * 13 in
    inject_Z (JS.round (JS.min 40 (JS.max 0 raw) * 100)) / 100.

Definition calcWinRateScore (winRate totalMarkets : Q) : Q :=
  if JS.eqb totalMarkets 0 then 0
  else
    let sampleWeight := JS.min 1 (totalMarkets / 20) in
    let raw := (winRate / 100) * 25 * sampleWeight in
    inject_Z (JS.round (JS.max 0 raw * 100)) / 100.

Definition calcVolumeScore (totalMarkets : Q) : Q :=
  if JS.leb totalMarkets 0 then 0
  else if JS.leb 20 totalMarkets && JS.leb totalMarkets 200 then 15
  else if JS.ltb totalMarkets 20
       then inject_Z (JS.round ((totalMarkets / 20) * 15 * 100)) / 100
  else 12.

(** Milliseconds per day, [1000 * 60 * 60 * 24].  Time values are integers,
    so [Math.floor((now - last) / msPerDay)] is the integer quotient. *)
Definition msPerDay : Z := (1000 * 60 * 60 * 24)%Z.

Definition calcRecencyScore (lastTradeDate : Date) : Q :=
  match lastTradeDate with
  | None => 10
  | Some last =>
      if (now <? last)%Z then 10
      else
        let daysSince := ((now - last) / msPerDay)%Z in
        if (daysSince <=? 7)%Z then 10
        else if (daysSince <=? 30)%Z then 7
        else if (daysSince <=? 90)%Z then 4
        else 0
  end.

Definition calcConvictionScore (currentSize avgSize : Q) : Q :=
  if JS.leb avgSize 0 || JS.leb currentSize 0 then 0
  else
    let ratio := currentSize / avgSize in
    inject_Z (JS.round (JS.min 10 (ratio * 5) * 100)) / 100.

Definition calculateCredibilityScore (h : Holder) : CredibilityScore :=
  let breakdown :=
    {| profit := calcProfitScore (totalProfit h);
       winRateScore := calcWinRateScore (winRate h) (totalMarkets h);
       volume := calcVolumeScore (totalMarkets h);
       recency := calcRecencyScore (lastTradeDate h);
       conviction :=
         calcConvictionScore (currentPositionSize h) (avgPositionSize h) |} in
  let total :=
    profit breakdown + winRateScore breakdown + volume breakdown +
    recency breakdown + conviction breakdown in
  {| total := inject_Z (JS.round (total * 100)) / 100;
     breakdown := breakdown |}.

End WithHost.

End Scoring.

(* ===================================================================== *)
(** ** Number formatting used in the reasoning strings                   *)
(* ===================================================================== *)

Module Fmt.

Local Open Scope string_scope.

(** [String(n)] for a non-negative integer and for an integer. *)
Definition ofNat (n : nat) : string := NilZero.string_of_uint (Nat.to_uint n).
Definition ofZ (z : Z) : string := NilZero.string_of_int (Z.to_int z).

Fixpoint zeros (n : nat) : string :=
  match n with O => "" | S k => "0" ++ zeros k end.

(** [x.toFixed(f)]: the integer [n] closest to [|x| * 10^f] (the larger
    one on a tie), printed with [f] fractional digits and the sign of [x].
    The exponential form JavaScript uses from [1e21] on is not modelled. *)
Definition toFixed (f : nat) (x : Q) : string :=
  let n := Qfloor (Qabs x * inject_Z (10 ^ Z.of_nat f) + (1 # 2))%Q in
  let m := ofZ n in
  let m := if (String.length m <=? f)%nat
           then zeros (f + 1 - String.length m) ++ m else m in
  let k := String.length m in
  let body := match f with
              | O => m
              | _ => substring 0 (k - f) m ++ "." ++ substring (k - f) f m
              end in
  (if JS.ltb x 0 then "-" else "") ++ body.

Definition formatDollars (n : Q) : string :=
  if JS.leb 1000000 n then toFixed 1 (n / 1000000)%Q ++ "M"
  else if JS.leb 1000 n then toFixed 1 (n / 1000)%Q ++ "K"
  else toFixed 0 n.

Definition shortenAddress (addr : string) : string :=
  if (String.length addr <? 10)%nat then addr
  else substring 0 6 addr ++ "..." ++ substring (String.length addr - 4) 4 addr.

End Fmt.

(* ===================================================================== *)
(** ** Trading signal ([signal.ts])                                      *)
(* ===================================================================== *)

Inductive Signal := BUY_YES | BUY_NO | INCONCLUSIVE.

Record HolderSummary := mkSummary {
  hs_address : string;
  hs_username : option string;
  hs_score : Q;
  hs_scoreBreakdown : ScoreBreakdown;
  hs_position : Position;
  hs_size : Q;
  hs_profit : Q;
  hs_winRate : Q;
  hs_totalMarkets : Q
}.

Record SignalData := mkSignalData {
  yesHolders : nat;
  noHolders : nat;
  yesValue : Q;
  noValue : Q;
  yesPercentage : Q;
  whaleDetected : bool;
  topHolders : list HolderSummary
}.

Record TradingSignal := mkSignal {
  signal : Signal;
  confidence : Z;
  reasoning : string;
  data : option SignalData
}.

Module SignalGen.

Local Open Scope Q_scope.

(** The locals of [generateTradingSignal], each as a function of its
    argument, under the name it has in the source; [yesValueW], [noValueW]
    and [yesPercentageOf] stand for the locals [yesValue], [noValue] and
    [yesPercentage], names taken here by the fields of the result.  The
    weights, sums and quotients are exact here; what the rounding of
    [Double.SignalGen] decides at a threshold is stated there. *)

Definition holdsPosition (p : Position) (h : ScoredHolder) : bool :=
  Position_eqb (currentPosition (holder h)) p.

Definition yesList (topHolders : list ScoredHolder) : list ScoredHolder :=
  List.filter (holdsPosition YES) topHolders.

Definition noList (topHolders : list ScoredHolder) : list ScoredHolder :=
  List.filter (holdsPosition NO) topHolders.

Definition weightedValue (h : ScoredHolder) : Q :=
  currentPositionSize (holder h) * (total (credibilityScore h) / 100).

(** [list.reduce((sum, h) => sum + f(h), 0)]. *)
Definition sumBy {A} (f : A -> Q) (l : list A) : Q :=
  fold_left (fun sum h => sum + f h) l 0.

Definition yesValueW (topHolders : list ScoredHolder) : Q :=
  sumBy weightedValue (yesList topHolders).

Definition noValueW (topHolders : list ScoredHolder) : Q :=
  sumBy weightedValue (noList topHolders).

Definition totalValue (topHolders : list ScoredHolder) : Q :=
  yesValueW topHolders + noValueW topHolders.

Definition yesValueRaw (topHolders : list ScoredHolder) : Q :=
  sumBy (fun h => currentPositionSize (holder h)) (yesList topHolders).

Definition noValueRaw (topHolders : list ScoredHolder) : Q :=
  sumBy (fun h => currentPositionSize (holder h)) (noList topHolders).

Definition yesPercentageOf (topHolders : list ScoredHolder) : Q :=
  yesValueW topHolders / totalValue topHolders.

Definition whaleThreshold (topHolders : list ScoredHolder) : Q :=
  totalValue topHolders * (4 # 10).

Definition whale (topHolders : list ScoredHolder) : option ScoredHolder :=
  List.find (fun h => JS.ltb (whaleThreshold topHolders) (weightedValue h))
            topHolders.

Definition dominance (topHolders : list ScoredHolder) : Q :=
  JS.max (yesPercentageOf topHolders) (1 - yesPercentageOf topHolders).

(** The confidence right after the dominance brackets. *)
Definition baseConfidence (topHolders : list ScoredHolder) : Z :=
  let dominance := dominance topHolders in
  if JS.ltb (80 # 100) dominance then 9%Z
  else if JS.ltb (70 # 100) dominance then 7%Z
  else if JS.ltb (60 # 100) dominance then 5%Z
  else 3%Z.

(** ... after the whale adjustment. *)
Definition whaleConfidence (topHolders : list ScoredHolder) : Z :=
  let confidence := baseConfidence topHolders in
  match whale topHolders with
  | Some _ => Z.max 1 (confidence - 3)
  | None => confidence
  end.

Definition dominantCount (topHolders : list ScoredHolder) : nat :=
  Nat.max (List.length (yesList topHolders)) (List.length (noList topHolders)).

Definition countRatio (topHolders : list ScoredHolder) : Q :=
  inject_Z (Z.of_nat (dominantCount topHolders)) /
  inject_Z (Z.of_nat (List.length topHolders)).

(** The condition of the count-agreement boost. *)
Definition countBoost (topHolders : list ScoredHolder) : bool :=
  JS.leb (80 # 100) (countRatio topHolders) &&
  (5 <=? List.length topHolders)%nat.

(** ... and after the count-agreement boost: the returned confidence. *)
Definition finalConfidence (topHolders : list ScoredHolder) : Z :=
  let confidence := whaleConfidence topHolders in
  if countBoost topHolders
  then Z.min 10 (confidence + 1)
  else confidence.

Definition decideSignal (yesPercentage : Q) (confidence : Z) : Signal :=
  if JS.leb (65 # 100) yesPercentage && (5 <=? confidence)%Z then BUY_YES
  else if JS.leb yesPercentage (35 # 100) && (5 <=? confidence)%Z then BUY_NO
  else INCONCLUSIVE.

Definition Signal_eqb (a b : Signal) : bool :=
  match a, b with
  | BUY_YES, BUY_YES | BUY_NO, BUY_NO | INCONCLUSIVE, INCONCLUSIVE => true
  | _, _ => false
  end.

Definition summary (h : ScoredHolder) : HolderSummary :=
  {| hs_address := Fmt.shortenAddress (address (holder h));
     hs_username := username (holder h);
     hs_score := total (credibilityScore h);
     hs_scoreBreakdown := breakdown (credibilityScore h);
     hs_position := currentPosition (holder h);
     hs_size := inject_Z (JS.round (currentPositionSize (holder h) * 100)) / 100;
     hs_profit := inject_Z (JS.round (totalProfit (holder h) * 100)) / 100;
     hs_winRate := inject_Z (JS.round (winRate (holder h) * 10)) / 10;
     hs_totalMarkets := totalMarkets (holder h) |}.

Definition reasoningText (topHolders : list ScoredHolder) (signal : Signal)
  : string :=
  let yesPercentage := yesPercentageOf topHolders in
  let totalValue := totalValue topHolders in
  (Fmt.ofNat (List.length (yesList topHolders)) ++ " of " ++
   Fmt.ofNat (List.length topHolders) ++ " top holders " ++
   "(" ++ Fmt.ofZ (JS.round (yesPercentage * 100)) ++
   "% by credibility-weighted value) are in YES, " ++
   "with $" ++ Fmt.formatDollars (yesValueRaw topHolders) ++
   " in YES positions vs $" ++ Fmt.formatDollars (noValueRaw topHolders) ++
   " in NO positions. " ++
   match whale topHolders with
   | Some w =>
       let whalePct := JS.round ((weightedValue w / totalValue) * 100) in
       "⚠️ Whale Alert: One holder controls " ++ Fmt.ofZ whalePct ++
       "% of analyzed value — confidence reduced. "
   | None => ""
   end ++
   if Signal_eqb signal INCONCLUSIVE then
     if JS.ltb (dominance topHolders) (60 # 100)
     then "The market is split among smart money — no clear directional edge."
     else "Leaning signal detected but confidence threshold not met."
   else "")%string.

Definition generateTradingSignal (topHolders : list ScoredHolder)
  : TradingSignal :=
  if (List.length topHolders <? 3)%nat then
    {| signal := INCONCLUSIVE;
       confidence := 0;
       reasoning := ("Only " ++ Fmt.ofNat (List.length topHolders) ++
         " holder(s) meet the criteria. Need at least 3 for a meaningful signal.")%string;
       data := None |}
  else if JS.eqb (totalValue topHolders) 0 then
    {| signal := INCONCLUSIVE;
       confidence := 0;
       reasoning := "Total position value is $0. Cannot generate signal.";
       data := None |}
  else
    let yesPercentage := yesPercentageOf topHolders in
    let confidence := finalConfidence topHolders in
    let signal := decideSignal yesPercentage confidence in
    {| signal := signal;
       confidence := confidence;
       reasoning := reasoningText topHolders signal;
       data := Some
         {| yesHolders := List.length (yesList topHolders);
            noHolders := List.length (noList topHolders);
            yesValue := inject_Z (JS.round (yesValueRaw topHolders * 100)) / 100;
            noValue := inject_Z (JS.round (noValueRaw topHolders * 100)) / 100;
            yesPercentage := inject_Z (JS.round (yesPercentage * 1000)) / 1000;
            whaleDetected :=
              match whale topHolders with Some _ => true | None => false end;
            topHolders := List.map summary topHolders |} |}.

End SignalGen.

(* ===================================================================== *)
(** ** Strings                                                           *)
(* ===================================================================== *)

Module Str.

(** [toLowerCase] / [toUpperCase], code unit by code unit.  Below 256 the
    upper-case letters are A to Z and, in the Latin-1 range, the code units
    192 to 222 other than 215 (the multiplication sign); each is 32 below
    its lower-case letter.  Three lower-case characters have no upper case
    below 256 (223, 255 and 181: [toUpperCase] gives "SS" and two
    characters beyond Latin-1) and are left as they are: the sources
    compare an upper-cased string with "YES" only, which no string holding
    one of the three upper-cases to. *)
Definition isUpper (n : nat) : bool :=
  ((65 <=? n) && (n <=? 90) ||
   (192 <=? n) && (n <=? 222) && negb (n =? 215))%nat.

Definition isLower (n : nat) : bool :=
  ((97 <=? n) && (n <=? 122) ||
   (224 <=? n) && (n <=? 254) && negb (n =? 247))%nat.

Definition lowerAscii (c : ascii) : ascii :=
  let n := nat_of_ascii c in
  if isUpper n then ascii_of_nat (n + 32) else c.

Definition upperAscii (c : ascii) : ascii :=
  let n := nat_of_ascii c in
  if isLower n then ascii_of_nat (n - 32) else c.

Fixpoint mapAscii (f : ascii -> ascii) (s : string) : string :=
  match s with
  | EmptyString => EmptyString
  | String c r => String (f c) (mapAscii f r)
  end.

Definition toLowerCase : string -> string := mapAscii lowerAscii.
Definition toUpperCase : string -> string := mapAscii upperAscii.

(** Truthiness of a string: non-empty. *)
Definition truthy (s : string) : bool := negb (String.eqb s "").

End Str.

(* ===================================================================== *)
(** ** Data API responses ([types.ts], [polymarket-api.ts])              *)
(* ===================================================================== *)

Record RawHolder := mkRawHolder {
  proxyWallet : string;
  amount : option Q;              (* [undefined] when the field is absent *)
  rh_username : option string
}.

Record HolderResponse := mkHolderResponse {
  token : string;
  holders : list RawHolder
}.

Record UserPosition := mkUserPosition {
  size : option Q;
  initialValue : option Q;
  cashPnl : option Q
}.

Record MarketInfo := mkMarketInfo {
  m_id : string;
  question : string;
  conditionId : string;
  slug : string;
  outcomes : list string;
  outcomePrices : list Q;
  clobTokenIds : list string;
  outcomeForToken : gmap string string;
  m_volume : Q;
  liquidity : Q;
  active : bool;
  closed : bool;
  endDate : string
}.

Record GammaMarket := mkGammaMarket {
  gm_slug : string;
  gm_conditionId : string;
  gm_outcomes : string;
  gm_outcomePrices : string;
  gm_clobTokenIds : string
}.

Record GammaEvent := mkGammaEvent {
  markets : option (list GammaMarket)
}.

(** An entry of the leaderboard response; every field may be absent. *)
Record LeaderboardEntry := mkEntry {
  e_proxyWallet : option string;
  e_pnl : option Q;
  e_profit : option Q;
  e_vol : option Q;
  e_volume : option Q;
  e_marketsTraded : option Q;
  e_markets : option Q
}.

(** The body of the leaderboard response: an array of entries, or an
    object whose [leaderboard] field may hold them. *)
Inductive LeaderboardData :=
| LBArray (entries : list LeaderboardEntry)
| LBObject (leaderboard : option (list LeaderboardEntry)).

Record LeaderboardStats := mkStats {
  pnl : Q;
  lb_volume : Q;
  marketsTraded : Z
}.

(** The [timestamp] of an activity event: a number or a string. *)
Inductive Timestamp :=
| TsNumber (n : Z)
| TsString (s : string).

Record Activity := mkActivity {
  timestamp : option Timestamp
}.

(** A thrown [Error] carries its message. *)
Inductive Result (A : Type) :=
| Ok (value : A)
| Throw (message : string).

Arguments Ok {A} value.
Arguments Throw {A} message.

Module Api.

Local Open Scope Q_scope.

(** [parseFloat(a ?? b ?? 0)] on optional numeric fields.  The fields of
    an entry are taken to be finite numbers when present, which
    [parseFloat] returns as they are; [Double.Api] has the entries whose
    fields hold any value. *)
Definition coalesce (a b : option Q) : Q :=
  match a, b with
  | Some x, _ => x
  | None, Some y => y
  | None, None => 0
  end.

(** [parseInt(x, 10)] of a number that prints without an exponent (zero,
    or of magnitude from [1e-6] up to [1e21]): its integer part. *)
Definition parseInt (x : Q) : Z := Z.quot (Qnum x) (Zpos (Qden x)).

(** [fetchUserLeaderboard], given what the cache holds under the user's key
    ([cached]) and what the HTTP request yields ([response], [None] when it
    throws).  Returns the result together with the value written to the
    cache, if any. *)
Definition fetchUserLeaderboard
    (cached : option LeaderboardStats) (response : option LeaderboardData)
    (userAddress : string)
  : option LeaderboardStats * option LeaderboardStats :=
  match cached with
  | Some c => (Some c, None)
  | None =>
      match response with
      | None => (None, None)
      | Some data =>
          let entries :=
            match data with
            | LBArray es => es
            | LBObject (Some es) => es
            | LBObject None => []
            end in
          match entries with
          | [] => (None, None)
          | entry :: _ =>
              let returnedWallet :=
                Str.toLowerCase (default ""%string (e_proxyWallet entry)) in
              if Str.truthy returnedWallet &&
                 negb (String.eqb returnedWallet (Str.toLowerCase userAddress))
              then (None, None)
              else
                let result :=
                  {| pnl := coalesce (e_pnl entry) (e_profit entry);
                     lb_volume := coalesce (e_vol entry) (e_volume entry);
                     marketsTraded :=
                       parseInt (coalesce (e_marketsTraded entry)
                                          (e_markets entry)) |} in
                (Some result, Some result)
          end
      end
  end.

End Api.

(* ===================================================================== *)
(** ** The analysis pipeline ([analyze.ts])                              *)
(* ===================================================================== *)

(** The records [mapHoldersToPositions] produces ([Partial<Holder>] with
    exactly these five fields set). *)
Record PartialHolder := mkPartial {
  p_address : string;
  p_username : option string;
  p_currentPosition : Position;
  p_currentPositionSize : Q;
  p_shares : Q
}.

Record AnalysisResult := mkResult {
  market : MarketInfo;
  ar_signal : TradingSignal;
  warnings : list string
}.

Module Analyze.

Local Open Scope Q_scope.

(** *** mapHoldersToPositions *)

(** The loop that fills [priceForOutcome]: entry [i] of [outcomes] gets
    [outcomePrices[i] ?? 0.5]; a later duplicate label overwrites. *)
Fixpoint buildPrices (outcomes : list string) (prices : list Q)
    (priceForOutcome : gmap string Q) : gmap string Q :=
  match outcomes with
  | [] => priceForOutcome
  | o :: os =>
      buildPrices os (List.tl prices)
        (<[o := default (1 # 2) (List.hd_error prices)]> priceForOutcome)
  end.

Definition priceForOutcome (market : MarketInfo) : gmap string Q :=
  buildPrices (outcomes market) (outcomePrices market) ∅.

(** Position, outcome name and "fallback used" for the listing at [index].
    The token map is read as a finite map of its own properties: a token
    named like a member of [Object.prototype] is left to
    [Double.Analyze.resolveOutcome]. *)
Definition resolveOutcome (market : MarketInfo) (index : nat)
    (resp : HolderResponse) : Position * string * bool :=
  match outcomeForToken market !! token resp with
  | Some outcomeName =>
      if Str.truthy outcomeName then
        (if String.eqb (Str.toUpperCase outcomeName) "YES" then YES else NO,
         outcomeName, false)
      else
        (if (index =? 0)%nat then YES else NO,
         default (if (index =? 0)%nat then "Yes" else "No")%string
                 (List.nth_error (outcomes market) index),
         true)
  | None =>
      (if (index =? 0)%nat then YES else NO,
       default (if (index =? 0)%nat then "Yes" else "No")%string
               (List.nth_error (outcomes market) index),
       true)
  end.

Definition priceOf (market : MarketInfo) (outcomeName : string) : Q :=
  default (1 # 2) (priceForOutcome market !! outcomeName).

(** The record pushed for one raw holder. *)
Definition toPartial (position : Position) (price : Q) (rawHolder : RawHolder)
  : PartialHolder :=
  let shareCount := JS.orZero (amount rawHolder) in
  {| p_address := proxyWallet rawHolder;
     p_username := rh_username rawHolder;
     p_currentPosition := position;
     p_currentPositionSize := shareCount * price;
     p_shares := shareCount |}.

(** The inner [for ... of resp.holders] loop, threading the array
    [holders] of the source (here [acc]) and [seenAddresses]. *)
Fixpoint pushHolders (position : Position) (price : Q)
    (raws : list RawHolder)
    (st : list PartialHolder * gset string)
  : list PartialHolder * gset string :=
  match raws with
  | [] => st
  | rawHolder :: rest =>
      let '(acc, seenAddresses) := st in
      if bool_decide (proxyWallet rawHolder ∈ seenAddresses)
      then pushHolders position price rest st
      else pushHolders position price rest
             (acc ++ [toPartial position price rawHolder],
              {[proxyWallet rawHolder]} ∪ seenAddresses)
  end.

(** The outer [responses.forEach((resp, index) => ...)]. *)
Fixpoint forEachResponse (market : MarketInfo) (index : nat)
    (responses : list HolderResponse)
    (st : list PartialHolder * gset string * bool)
  : list PartialHolder * gset string * bool :=
  match responses with
  | [] => st
  | resp :: rest =>
      let '(acc, seenAddresses, usedFallback) := st in
      let '(position, outcomeName, fallback) :=
        resolveOutcome market index resp in
      let price := priceOf market outcomeName in
      let '(acc', seen') :=
        pushHolders position price (holders resp) (acc, seenAddresses) in
      forEachResponse market (S index) rest
        (acc', seen', usedFallback || fallback)
  end.

Definition mapHoldersToPositions (responses : list HolderResponse)
    (market : MarketInfo) : list PartialHolder * list string :=
  let '(acc, _, usedFallback) :=
    forEachResponse market 0 responses ([], ∅, false) in
  (acc,
   if usedFallback
   then ["Position mapping used index-based fallback for some tokens — YES/NO detection may be less accurate."%string]
   else []).

(** *** enrichSingleHolder *)

(** [a || b || 0] on optional numbers: the first one present and non-zero. *)
Definition firstTruthy (a b : option Q) : Q :=
  match a with
  | Some x => if JS.eqb x 0 then JS.orZero b else x
  | None => JS.orZero b
  end.

(** [positions.reduce((sum, p) => sum + (p.cashPnl || 0), 0)], as an exact
    sum. *)
Definition rawPnlOf (positions : list UserPosition) : Q :=
  fold_left (fun sum p => sum + JS.orZero (cashPnl p)) positions 0.

Definition natQ (n : nat) : Q := inject_Z (Z.of_nat n).

(** The largest time value a [Date] can hold. *)
Definition maxTime : Z := 8640000000000000%Z.

(** [new Date(t)] for a number [t]. *)
Definition dateOfNumber (t : Z) : Date :=
  if (Z.abs t <=? maxTime)%Z then Some t else None.

Section Enrich.

(** Collaborators, per wallet address: the cache entry and the HTTP reply
    behind [fetchUserLeaderboard], the results of [fetchUserPositions] and
    [fetchUserActivity] (neither throws), the host's date parser and the
    reading of the clock when [new Date()] runs for that wallet. *)
Variable leaderboardCache : string -> option LeaderboardStats.
Variable leaderboardApi : string -> option LeaderboardData.
Variable fetchUserPositions : string -> nat -> list UserPosition.
Variable fetchUserActivity : string -> list Activity.
Variable parseDate : string -> Date.
Variable clock : string -> Z.

Definition lastTradeDateOf (now : Z) (positions : list UserPosition)
    (activity : list Activity) : Date :=
  let fallback :=
    match positions with
    | [] => Some 0%Z
    | _ :: _ => Some now
    end in
  match activity with
  | [] => fallback
  | a :: _ =>
      match timestamp a with
      | None => fallback
      | Some (TsNumber ts) =>
          if (ts =? 0)%Z then fallback
          else
            match dateOfNumber
                    (if (1000000000000 <? ts)%Z then ts else ts * 1000)%Z with
            | Some t => Some t
            | None => Some 0%Z
            end
      | Some (TsString ts) =>
          if Str.truthy ts then
            match parseDate ts with
            | Some t => Some t
            | None => Some 0%Z
            end
          else fallback
      end
  end.

Definition enrichSingleHolder (partial : PartialHolder) : Holder :=
  let address := p_address partial in
  let leaderboard :=
    fst (Api.fetchUserLeaderboard (leaderboardCache address)
                                  (leaderboardApi address) address) in
  let positions := fetchUserPositions address 50 in
  let activity := fetchUserActivity address in
  let totalProfit :=
    match leaderboard with
    | Some lb => pnl lb
    | None =>
        if (0 <? List.length positions)%nat then
          let rawPnl := rawPnlOf positions in
          if JS.ltb (JS.abs rawPnl) 50000000 then rawPnl else 0
        else 0
    end in
  let totalMarkets :=
    match leaderboard with
    | Some lb =>
        if (marketsTraded lb =? 0)%Z then natQ (List.length positions)
        else inject_Z (marketsTraded lb)
    | None => natQ (List.length positions)
    end in
  let winRate :=
    if (0 <? List.length positions)%nat then
      let wins :=
        List.length
          (List.filter (fun p => JS.ltb 0 (JS.orZero (cashPnl p))) positions) in
      (natQ wins / natQ (List.length positions)) * 100
    else 0 in
  let avgPositionSize :=
    if (0 <? List.length positions)%nat then
      let totalSize :=
        fold_left
          (fun sum p => sum + JS.abs (firstTruthy (initialValue p) (size p)))
          positions 0 in
      let avg := totalSize / natQ (List.length positions) in
      if JS.ltb 10000000 avg then 0 else avg
    else 0 in
  let totalVolume :=
    match leaderboard with
    | Some lb => lb_volume lb
    | None => 0
    end in
  {| address := address;
     username := p_username partial;
     totalProfit := totalProfit;
     totalVolume := totalVolume;
     totalMarkets := totalMarkets;
     winRate := winRate;
     positionsSampled := List.length positions;
     lastTradeDate := lastTradeDateOf (clock address) positions activity;
     avgPositionSize := avgPositionSize;
     currentPosition := p_currentPosition partial;
     currentPositionSize := p_currentPositionSize partial;
     shares := p_shares partial |}.

Definition isIncomplete (h : Holder) : bool :=
  JS.eqb (totalMarkets h) 0 && JS.eqb (totalProfit h) 0.

(** The batch loop of [enrichHolders]: [CONCURRENCY] wallets at a time,
    results appended in input order.  [fuel] bounds the number of batches. *)
Definition CONCURRENCY : nat := 10.

Fixpoint enrichBatches (fuel : nat) (rest : list PartialHolder)
    (results : list Holder) (incompleteProfiles : nat)
  : list Holder * nat :=
  match fuel with
  | O => (results, incompleteProfiles)
  | S fuel' =>
      match rest with
      | [] => (results, incompleteProfiles)
      | _ :: _ =>
          let batch := List.firstn CONCURRENCY rest in
          let enriched := List.map enrichSingleHolder batch in
          enrichBatches fuel' (List.skipn CONCURRENCY rest)
            (results ++ enriched)
            (incompleteProfiles +
             List.length (List.filter isIncomplete enriched))
      end
  end.

Definition enrichHolders (partialHolders : list PartialHolder)
  : list Holder * list string :=
  let '(results, incompleteProfiles) :=
    enrichBatches (List.length partialHolders) partialHolders [] 0 in
  (results,
   if (0 <? incompleteProfiles)%nat
   then [(Fmt.ofNat incompleteProfiles ++ " of " ++
          Fmt.ofNat (List.length partialHolders) ++
          " holders had incomplete profile data.")%string]
   else []).

End Enrich.

(** *** analyzeMarket *)

Definition MIN_POSITION_SIZE : Q := 100.
Definition MIN_PROFIT_ALT : Q := 1000.

Definition qualifies (h : Holder) : bool :=
  JS.leb MIN_POSITION_SIZE (currentPositionSize h) ||
  JS.leb MIN_PROFIT_ALT (totalProfit h).

Definition hasNoData (h : Holder) : bool :=
  JS.eqb (totalProfit h) 0 && JS.eqb (totalMarkets h) 0.

Definition inconclusive (reasoning : string) : TradingSignal :=
  {| signal := INCONCLUSIVE;
     confidence := 0;
     reasoning := reasoning;
     data := None |}.

(** [scored.sort((a, b) => b.total - a.total)]: a stable sort, highest
    total first. *)
Fixpoint insertByScore (x : ScoredHolder) (l : list ScoredHolder)
  : list ScoredHolder :=
  match l with
  | [] => [x]
  | y :: l' =>
      if JS.ltb (total (credibilityScore y)) (total (credibilityScore x))
      then x :: y :: l'
      else y :: insertByScore x l'
  end.

Definition sortByScore (l : list ScoredHolder) : list ScoredHolder :=
  fold_left (fun acc x => insertByScore x acc) l [].

(** [event.markets.find(m => m.slug === marketSlug)], defaulting to the
    first market. *)
Definition selectMarket (marketSlug : option string)
    (first : GammaMarket) (rest : list GammaMarket) : GammaMarket :=
  match marketSlug with
  | Some s =>
      if Str.truthy s then
        match List.find (fun m => String.eqb (gm_slug m) s) (first :: rest) with
        | Some matched => matched
        | None => first
        end
      else first
  | None => first
  end.

Definition priceWarning (market : MarketInfo) : list string :=
  match outcomePrices market with
  | p0 :: p1 :: _ =>
      if JS.eqb p0 (1 # 2) && JS.eqb p1 (1 # 2)
      then ["Market prices show 50/50 — this may indicate price data could not be parsed."%string]
      else []
  | _ => []
  end.

Section Pipeline.

Variable log10 : Q -> Q.
Variable extractEventSlug : string -> Result string.
Variable extractMarketSlug : string -> option string.
Variable fetchEventBySlug : string -> Result GammaEvent.
Variable parseMarket : GammaMarket -> MarketInfo.
(** [fetchHolders]: throws, or yields the listings ([None]: no value). *)
Variable fetchHolders : string -> Result (option (list HolderResponse)).
Variable leaderboardCache : string -> option LeaderboardStats.
Variable leaderboardApi : string -> option LeaderboardData.
Variable fetchUserPositions : string -> nat -> list UserPosition.
Variable fetchUserActivity : string -> list Activity.
Variable parseDate : string -> Date.
Variable clock : string -> Z.
(** The reading of [Date.now()] while the holder at a given index of
    [qualifiedHolders] is scored. *)
Variable scoreClock : nat -> Z.

Fixpoint scoreFrom (i : nat) (qualifiedHolders : list Holder)
  : list ScoredHolder :=
  match qualifiedHolders with
  | [] => []
  | h :: rest =>
      {| holder := h;
         credibilityScore :=
           Scoring.calculateCredibilityScore log10 (scoreClock i) h |}
      :: scoreFrom (S i) rest
  end.

(** Steps 7 to 10: filter, score, rank, signal. *)
Definition analyzeEnriched (market : MarketInfo) (warnings : list string)
    (enriched : list Holder) : AnalysisResult :=
  let qualifiedHolders := List.filter qualifies enriched in
  let holdersWithNoData := List.length (List.filter hasNoData enriched) in
  let warnings :=
    if JS.ltb (natQ (List.length enriched) * (1 # 2)) (natQ holdersWithNoData)
    then warnings ++
         [(Fmt.ofNat holdersWithNoData ++ " of " ++
           Fmt.ofNat (List.length enriched) ++
           " holders had no historical data — scores are based primarily on position size.")%string]
    else warnings in
  if (List.length qualifiedHolders =? 0)%nat then
    {| market := market;
       warnings := warnings;
       ar_signal := inconclusive
         ("No holders have sufficient position size or profit in this market. "
          ++ Fmt.ofNat (List.length enriched) ++ " holders were analyzed.")%string |}
  else
    let scoredHolders := scoreFrom 0 qualifiedHolders in
    let topHolders := List.firstn 20 (sortByScore scoredHolders) in
    {| market := market;
       ar_signal := SignalGen.generateTradingSignal topHolders;
       warnings := warnings |}.

(** Steps 1 to 6: either an early result, or the market, the warnings so
    far and the enriched holders. *)
Definition upToEnrichment (url : string)
  : Result (AnalysisResult + MarketInfo * list string * list Holder) :=
  match extractEventSlug url with
  | Throw e => Throw e
  | Ok eventSlug =>
  let marketSlug := extractMarketSlug url in
  match fetchEventBySlug eventSlug with
  | Throw e => Throw e
  | Ok event =>
  match markets event with
  | None | Some [] => Throw "No markets found for this event."
  | Some (first :: rest) =>
  let market := parseMarket (selectMarket marketSlug first rest) in
  let warnings := priceWarning market in
  match fetchHolders (conditionId market) with
  | Throw e => Throw e
  | Ok None | Ok (Some []) =>
      Ok (inl {| market := market;
                 warnings := ["No holder data available from the API."%string];
                 ar_signal :=
                   inconclusive "No holder data available for this market." |})
  | Ok (Some holderResponses) =>
  let '(partials, mappingWarnings) :=
    mapHoldersToPositions holderResponses market in
  let warnings := warnings ++ mappingWarnings in
  if (List.length partials =? 0)%nat then
    Ok (inl {| market := market;
               warnings := warnings;
               ar_signal := inconclusive "No holders found for this market." |})
  else
    let '(enriched, enrichmentWarnings) :=
      enrichHolders leaderboardCache leaderboardApi fetchUserPositions
                    fetchUserActivity parseDate clock partials in
    Ok (inr (market, warnings ++ enrichmentWarnings, enriched))
  end end end end.

Definition analyzeMarket (url : string) : Result AnalysisResult :=
  match upToEnrichment url with
  | Throw e => Throw e
  | Ok (inl early) => Ok early
  | Ok (inr (market, warnings, enriched)) =>
      Ok (analyzeEnriched market warnings enriched)
  end.

End Pipeline.

End Analyze.

(* ===================================================================== *)
(** ** The TTL cache ([cache.ts])                                        *)
(* ===================================================================== *)

Module Cache.

Record CacheEntry (A : Type) := mkCacheEntry {
  ce_data : A;
  expiresAt : Z
}.

Arguments mkCacheEntry {A} ce_data expiresAt.
Arguments ce_data {A} _.
Arguments expiresAt {A} _.

(** [get(key)] at clock reading [now]: the data and the store afterwards
    (an expired entry is deleted). *)
Definition get {A} (now : Z) (key : string)
    (store : gmap string (CacheEntry A))
  : option A * gmap string (CacheEntry A) :=
  match store !! key with
  | None => (None, store)
  | Some entry =>
      if (expiresAt entry <? now)%Z then (None, delete key store)
      else (Some (ce_data entry), store)
  end.

(** [set(key, data, ttlMs)] at clock reading [now]. *)
Definition put {A} (now : Z) (key : string) (data : A) (ttlMs : Z)
    (store : gmap string (CacheEntry A)) : gmap string (CacheEntry A) :=
  <[key := {| ce_data := data; expiresAt := (now + ttlMs)%Z |}]> store.

Definition clear {A} (store : gmap string (CacheEntry A))
  : gmap string (CacheEntry A) := ∅.

(** [CACHE_TTL], in milliseconds. *)
Definition MARKET_DATA : Z := (30 * 60 * 1000)%Z.
Definition HOLDER_DATA : Z := (10 * 60 * 1000)%Z.
Definition USER_PROFILE : Z := (10 * 60 * 1000)%Z.
Definition PRICE_DATA : Z := (2 * 60 * 1000)%Z.

End Cache.

(* ===================================================================== *)
(** ** The URL parser ([url-parser.ts])                                  *)
(* ===================================================================== *)

Module Url.

Local Open Scope string_scope.

(** The characters [trim] removes, among the code units below 256: tab to
    carriage return, the space and the no-break space. *)
Definition isSpace (c : ascii) : bool :=
  let n := nat_of_ascii c in
  ((9 <=? n) && (n <=? 13) || (n =? 32) || (n =? 160))%nat.

Fixpoint trimStart (s : string) : string :=
  match s with
  | EmptyString => EmptyString
  | String c r => if isSpace c then trimStart r else s
  end.

Fixpoint trimEnd (s : string) : string :=
  match s with
  | EmptyString => EmptyString
  | String c r =>
      match trimEnd r with
      | EmptyString => if isSpace c then EmptyString else String c EmptyString
      | r' => String c r'
      end
  end.

Definition trim (s : string) : string := trimEnd (trimStart s).

(** [s] with the prefix [p] removed, when it starts with [p]. *)
Fixpoint stripPrefix (p s : string) : option string :=
  match p, s with
  | EmptyString, _ => Some s
  | String a p', String b s' =>
      if Ascii.eqb a b then stripPrefix p' s' else None
  | String _ _, EmptyString => None
  end.

(** [s.includes(sub)]. *)
Fixpoint includes (sub s : string) : bool :=
  match stripPrefix sub s with
  | Some _ => true
  | None =>
      match s with
      | EmptyString => false
      | String _ r => includes sub r
      end
  end.

(** The class [[^/?#]]. *)
Definition notSeparator (c : ascii) : bool :=
  negb (Ascii.eqb c "/" || Ascii.eqb c "?" || Ascii.eqb c "#").

(** The longest run of [[^/?#]] at the head of [s], and what follows. *)
Fixpoint takeRun (s : string) : string * string :=
  match s with
  | EmptyString => (EmptyString, EmptyString)
  | String c r =>
      if notSeparator c
      then let '(run, rest) := takeRun r in (String c run, rest)
      else (EmptyString, s)
  end.

(** The first capture of the leftmost match of
    [/polymarket\.com\/event\/([^/?#]+)/]. *)
Fixpoint matchEvent (s : string) : option string :=
  match s with
  | EmptyString => None
  | String _ r =>
      match stripPrefix "polymarket.com/event/" s with
      | Some after =>
          match takeRun after with
          | (EmptyString, _) => matchEvent r
          | (slug, _) => Some slug
          end
      | None => matchEvent r
      end
  end.

(** The first capture of the leftmost match of
    [/polymarket\.com\/event\/[^/?#]+\/([^/?#]+)/]. *)
Fixpoint matchMarket (s : string) : option string :=
  match s with
  | EmptyString => None
  | String _ r =>
      match stripPrefix "polymarket.com/event/" s with
      | Some after =>
          match takeRun after with
          | (String _ _, String "/" after') =>
              match takeRun after' with
              | (EmptyString, _) => matchMarket r
              | (slug, _) => Some slug
              end
          | _ => matchMarket r
          end
      | None => matchMarket r
      end
  end.

Definition extractEventSlug (url : string) : Result string :=
  let trimmed := trim url in
  if negb (includes "polymarket.com" trimmed) then
    Throw "Invalid URL: Please enter a valid Polymarket URL (e.g. https://polymarket.com/event/...)"
  else
    match matchEvent trimmed with
    | None =>
        Throw "Could not extract event slug from URL. Expected format: https://polymarket.com/event/{slug}"
    | Some slug => Ok slug
    end.

Definition extractMarketSlug (url : string) : option string :=
  matchMarket (trim url).

End Url.

(* ===================================================================== *)
(** ** The request handler ([app/api/analyze/route.ts])                  *)
(* ===================================================================== *)

Module Route.

Local Open Scope string_scope.

(** The double quote character. *)
Definition quote : string := String (ascii_of_nat 34) EmptyString.

(** The status of an error response, from the error's message. *)
Definition statusOf (message : string) : nat :=
  if Url.includes "not found" message then 404
  else if Url.includes "Rate limited" message then 429
  else if Url.includes "Invalid" message then 400
  else 500.

(** A JSON response: its status and either the analysis or an error
    message. *)
Record Response := mkResponse {
  status : nat;
  body : AnalysisResult + string
}.

(** What [await request.json()] and the destructuring
    [const { url } = body] come to: the parsing throws (an [Error], with its
    message); the body is [null], on which the destructuring throws a
    [TypeError] (the message is the engine's); or the body is any other JSON
    value, of which [url] is the string its [url] field holds ([None] when
    there is no such field or it holds no string). *)
Inductive RequestBody :=
| Unparsed (message : string)
| NullBody (message : string)
| Body (url : option string).

(** [POST], given what the request's body comes to and the pipeline. *)
Definition POST (analyzeMarket : string -> Result AnalysisResult)
    (request : RequestBody) : Response :=
  match request with
  | Unparsed message | NullBody message =>
      {| status := statusOf message; body := inr message |}
  | Body None =>
      {| status := 400;
         body := inr ("Missing or invalid " ++ quote ++ "url" ++ quote ++
                      " field. Please provide a Polymarket URL.") |}
  | Body (Some url) =>
      if negb (Str.truthy url) then
        {| status := 400;
           body := inr ("Missing or invalid " ++ quote ++ "url" ++ quote ++
                        " field. Please provide a Polymarket URL.") |}
      else if negb (Url.includes "polymarket.com" url) then
        {| status := 400;
           body := inr "Invalid URL. Please enter a valid Polymarket URL (e.g. https://polymarket.com/event/...)" |}
      else
        match analyzeMarket url with
        | Ok result => {| status := 200; body := inl result |}
        | Throw message =>
            {| status := statusOf message; body := inr message |}
        end
  end.

(** The messages of the errors [fetchEventBySlug] and [fetchHolders]
    throw. *)
Definition eventNotFound (slug : string) : string :=
  "Event not found: " ++ quote ++ slug ++ quote ++ ". Please check the URL.".

Definition rateLimited : string :=
  "Rate limited by Polymarket API. Please wait 1 minute and try again.".

End Route.

(* ===================================================================== *)
(** ** Fetching the event and the holders ([polymarket-api.ts])          *)
(* ===================================================================== *)

(** What an HTTP request comes to: a reply with data, or an error with the
    status of the response, if there was one, and a message. *)
Inductive HttpReply (A : Type) :=
| Replied (data : A)
| Failed (httpStatus : option nat) (message : string).

Arguments Replied {A} data.
Arguments Failed {A} httpStatus message.

Module Fetch.

Local Open Scope string_scope.

(** [fetchEventBySlug], given what the cache holds under the slug's key and
    what the request comes to.  Returns the outcome and the value written to
    the cache, if any. *)
Definition fetchEventBySlug (cached : option GammaEvent)
    (reply : HttpReply GammaEvent) (slug : string)
  : Result GammaEvent * option GammaEvent :=
  match cached with
  | Some c => (Ok c, None)
  | None =>
      match reply with
      | Replied data => (Ok data, Some data)
      | Failed (Some 404%nat) _ => (Throw (Route.eventNotFound slug), None)
      | Failed _ message =>
          (Throw ("Failed to fetch event data: " ++ message), None)
      end
  end.

(** [fetchHolders]; the reply's data is [None] when it is not an array. *)
Definition fetchHolders (cached : option (list HolderResponse))
    (reply : HttpReply (option (list HolderResponse)))
  : Result (list HolderResponse) * option (list HolderResponse) :=
  match cached with
  | Some c => (Ok c, None)
  | None =>
      match reply with
      | Replied data =>
          let result := default [] data in (Ok result, Some result)
      | Failed (Some 429%nat) _ => (Throw Route.rateLimited, None)
      | Failed _ message =>
          (Throw ("Failed to fetch holders: " ++ message), None)
      end
  end.

(** [fetchUserPositions]: never throws; a failed request gives no
    positions and writes nothing to the cache. *)
Definition fetchUserPositions (cached : option (list UserPosition))
    (reply : HttpReply (option (list UserPosition)))
  : list UserPosition * option (list UserPosition) :=
  match cached with
  | Some c => (c, None)
  | None =>
      match reply with
      | Replied data =>
          let positions := default [] data in (positions, Some positions)
      | Failed _ _ => ([], None)
      end
  end.

(** The pipeline's view of [fetchHolders]. *)
Definition holdersFor (cached : option (list HolderResponse))
    (reply : HttpReply (option (list HolderResponse)))
  : Result (option (list HolderResponse)) :=
  match fst (fetchHolders cached reply) with
  | Ok l => Ok (Some l)
  | Throw e => Throw e
  end.

End Fetch.

(* ===================================================================== *)
(** ** The holder table's distribution bar ([HolderTable.tsx])           *)
(* ===================================================================== *)

Module HolderTable.

Local Open Scope Q_scope.

(** [yesPercent], the width of the YES part of the bar; the NO part gets
    [100 - yesPercent]. *)
Definition yesPercent (yesValue noValue : Q) : Z :=
  let totalValue := yesValue + noValue in
  if JS.ltb 0 totalValue then JS.round ((yesValue / totalValue) * 100)
  else 50%Z.

End HolderTable.

(* ===================================================================== *)
(** ** Plain objects used as maps                                        *)
(* ===================================================================== *)

Module Obj.

Local Open Scope string_scope.

(** The properties every object created by [{}] inherits from
    [Object.prototype]. *)
Definition prototypeKeys : list string :=
  [ "constructor"; "__proto__"; "hasOwnProperty"; "isPrototypeOf";
    "propertyIsEnumerable"; "toLocaleString"; "toString"; "valueOf";
    "__defineGetter__"; "__defineSetter__"; "__lookupGetter__";
    "__lookupSetter__" ].

Definition inherited (key : string) : bool :=
  List.existsb (String.eqb key) prototypeKeys.

(** What [o[key]] finds: an own property, a member of the prototype (a
    function, or the prototype itself for [__proto__]), or nothing
    ([undefined]).  The finite map holds the own properties. *)
Inductive Lookup (A : Type) :=
| Own (value : A)
| Inherited
| Missing.

Arguments Own {A} value.
Arguments Inherited {A}.
Arguments Missing {A}.

Definition get {A} (o : gmap string A) (key : string) : Lookup A :=
  match o !! key with
  | Some value => Own value
  | None => if inherited key then Inherited else Missing
  end.

(** [o[key] = value] for a string or a number: it creates or overwrites an
    own property, except that assigning a primitive to an inherited
    [__proto__] does nothing. *)
Definition set {A} (o : gmap string A) (key : string) (value : A)
  : gmap string A :=
  match o !! key with
  | None => if String.eqb key "__proto__" then o else <[key := value]> o
  | Some _ => <[key := value]> o
  end.

End Obj.

(* ===================================================================== *)
(** ** The sources on doubles                                            *)
(* ===================================================================== *)

(** The definitions of this module are those of the sources once more,
    with every [number] a double and every operation rounded ([F64]). *)
Module Double.

Local Open Scope string_scope.

(** *** Domain types ([types.ts]) *)

Record Holder := mkHolder {
  address : string;
  username : option string;
  totalProfit : F64.number;
  totalVolume : F64.number;
  totalMarkets : F64.number;
  winRate : F64.number;
  positionsSampled : nat;
  lastTradeDate : Date;
  avgPositionSize : F64.number;
  currentPosition : Position;
  currentPositionSize : F64.number;
  shares : F64.number
}.

(** [winRateScore] is the field [winRate] of the source's breakdown. *)
Record ScoreBreakdown := mkBreakdown {
  profit : F64.number;
  winRateScore : F64.number;
  volume : F64.number;
  recency : F64.number;
  conviction : F64.number
}.

Record CredibilityScore := mkScore {
  total : F64.number;
  breakdown : ScoreBreakdown
}.

Record ScoredHolder := mkScored {
  holder : Holder;
  credibilityScore : CredibilityScore
}.

Record HolderSummary := mkSummary {
  hs_address : string;
  hs_username : option string;
  hs_score : F64.number;
  hs_scoreBreakdown : ScoreBreakdown;
  hs_position : Position;
  hs_size : F64.number;
  hs_profit : F64.number;
  hs_winRate : F64.number;
  hs_totalMarkets : F64.number
}.

Record SignalData := mkSignalData {
  yesHolders : nat;
  noHolders : nat;
  yesValue : F64.number;
  noValue : F64.number;
  yesPercentage : F64.number;
  whaleDetected : bool;
  topHolders : list HolderSummary
}.

(** The confidence only ever holds one of the integers 0 to 10. *)
Record TradingSignal := mkSignal {
  signal : Signal;
  confidence : Z;
  reasoning : string;
  data : option SignalData
}.

(** *** Credibility scoring ([scoring.ts]) *)

Module Scoring.

Section WithHost.

(** [Math.log10]. *)
Variable log10 : F64.number -> F64.number.

(** [Date.now()], read once per call of [calcRecencyScore]. *)
Variable now : Z.

Definition calcProfitScore (totalProfit : F64.number) : F64.number :=
  if F64.leb totalProfit F64.zero then F64.zero
  else
    let raw :=
      F64.mul (log10 (F64.div totalProfit (F64.ofZ 1000))) (F64.ofZ 13) in
    F64.div
      (F64.round
         (F64.mul (F64.min (F64.ofZ 40) (F64.max F64.zero raw)) (F64.ofZ 100)))
      (F64.ofZ 100).

Definition calcWinRateScore (winRate totalMarkets : F64.number)
  : F64.number :=
  if F64.eqb totalMarkets F64.zero then F64.zero
  else
    let sampleWeight :=
      F64.min (F64.ofZ 1) (F64.div totalMarkets (F64.ofZ 20)) in
    let raw :=
      F64.mul (F64.mul (F64.div winRate (F64.ofZ 100)) (F64.ofZ 25))
              sampleWeight in
    F64.div (F64.round (F64.mul (F64.max F64.zero raw) (F64.ofZ 100)))
            (F64.ofZ 100).

Definition calcVolumeScore (totalMarkets : F64.number) : F64.number :=
  if F64.leb totalMarkets F64.zero then F64.zero
  else if F64.leb (F64.ofZ 20) totalMarkets &&
          F64.leb totalMarkets (F64.ofZ 200) then F64.ofZ 15
  else if F64.ltb totalMarkets (F64.ofZ 20) then
    F64.div
      (F64.round
         (F64.mul (F64.mul (F64.div totalMarkets (F64.ofZ 20)) (F64.ofZ 15))
                  (F64.ofZ 100)))
      (F64.ofZ 100)
  else F64.ofZ 12.

(** Time values are integers below [2^53], so the day count is computed
    on integers, as in the exact model. *)
Definition calcRecencyScore (lastTradeDate : Date) : F64.number :=
  match lastTradeDate with
  | None => F64.ofZ 10
  | Some last =>
      if (now <? last)%Z then F64.ofZ 10
      else
        let daysSince := ((now - last) / (1000 * 60 * 60 * 24))%Z in
        if (daysSince <=? 7)%Z then F64.ofZ 10
        else if (daysSince <=? 30)%Z then F64.ofZ 7
        else if (daysSince <=? 90)%Z then F64.ofZ 4
        else F64.zero
  end.

Definition calcConvictionScore (currentSize avgSize : F64.number)
  : F64.number :=
  if F64.leb avgSize F64.zero || F64.leb currentSize F64.zero then F64.zero
  else
    let ratio := F64.div currentSize avgSize in
    F64.div
      (F64.round
         (F64.mul (F64.min (F64.ofZ 10) (F64.mul ratio (F64.ofZ 5)))
                  (F64.ofZ 100)))
      (F64.ofZ 100).

Definition calculateCredibilityScore (h : Holder) : CredibilityScore :=
  let breakdown :=
    {| profit := calcProfitScore (totalProfit h);
       winRateScore := calcWinRateScore (winRate h) (totalMarkets h);
       volume := calcVolumeScore (totalMarkets h);
       recency := calcRecencyScore (lastTradeDate h);
       conviction :=
         calcConvictionScore (currentPositionSize h) (avgPositionSize h) |} in
  let total :=
    F64.add
      (F64.add
         (F64.add (F64.add (profit breakdown) (winRateScore breakdown))
                  (volume breakdown))
         (recency breakdown))
      (conviction breakdown) in
  {| total := F64.div (F64.round (F64.mul total (F64.ofZ 100))) (F64.ofZ 100);
     breakdown := breakdown |}.

End WithHost.

End Scoring.

(** *** Trading signal ([signal.ts]) *)

Module SignalGen.

Definition holdsPosition (p : Position) (h : ScoredHolder) : bool :=
  Position_eqb (currentPosition (holder h)) p.

Definition yesList (topHolders : list ScoredHolder) : list ScoredHolder :=
  List.filter (holdsPosition YES) topHolders.

Definition noList (topHolders : list ScoredHolder) : list ScoredHolder :=
  List.filter (holdsPosition NO) topHolders.

Definition weightedValue (h : ScoredHolder) : F64.number :=
  F64.mul (currentPositionSize (holder h))
          (F64.div (total (credibilityScore h)) (F64.ofZ 100)).

(** [list.reduce((sum, h) => sum + f(h), 0)]. *)
Definition sumBy {A} (f : A -> F64.number) (l : list A) : F64.number :=
  fold_left (fun sum h => F64.add sum (f h)) l F64.zero.

Definition yesValueW (topHolders : list ScoredHolder) : F64.number :=
  sumBy weightedValue (yesList topHolders).

Definition noValueW (topHolders : list ScoredHolder) : F64.number :=
  sumBy weightedValue (noList topHolders).

Definition totalValue (topHolders : list ScoredHolder) : F64.number :=
  F64.add (yesValueW topHolders) (noValueW topHolders).

Definition yesValueRaw (topHolders : list ScoredHolder) : F64.number :=
  sumBy (fun h => currentPositionSize (holder h)) (yesList topHolders).

Definition noValueRaw (topHolders : list ScoredHolder) : F64.number :=
  sumBy (fun h => currentPositionSize (holder h)) (noList topHolders).

Definition yesPercentageOf (topHolders : list ScoredHolder) : F64.number :=
  F64.div (yesValueW topHolders) (totalValue topHolders).

Definition whaleThreshold (topHolders : list ScoredHolder) : F64.number :=
  F64.mul (totalValue topHolders) (F64.lit 4 10).

Definition whale (topHolders : list ScoredHolder) : option ScoredHolder :=
  List.find (fun h => F64.ltb (whaleThreshold topHolders) (weightedValue h))
            topHolders.

Definition dominance (topHolders : list ScoredHolder) : F64.number :=
  F64.max (yesPercentageOf topHolders)
          (F64.sub (F64.ofZ 1) (yesPercentageOf topHolders)).

(** The confidence right after the dominance brackets. *)
Definition baseConfidence (topHolders : list ScoredHolder) : Z :=
  let dominance := dominance topHolders in
  if F64.ltb (F64.lit 80 100) dominance then 9%Z
  else if F64.ltb (F64.lit 70 100) dominance then 7%Z
  else if F64.ltb (F64.lit 60 100) dominance then 5%Z
  else 3%Z.

(** ... after the whale adjustment. *)
Definition whaleConfidence (topHolders : list ScoredHolder) : Z :=
  let confidence := baseConfidence topHolders in
  match whale topHolders with
  | Some _ => Z.max 1 (confidence - 3)
  | None => confidence
  end.

Definition dominantCount (topHolders : list ScoredHolder) : nat :=
  Nat.max (List.length (yesList topHolders)) (List.length (noList topHolders)).

Definition countRatio (topHolders : list ScoredHolder) : F64.number :=
  F64.div (F64.ofNat (dominantCount topHolders))
          (F64.ofNat (List.length topHolders)).

(** The condition of the count-agreement boost. *)
Definition countBoost (topHolders : list ScoredHolder) : bool :=
  F64.leb (F64.lit 80 100) (countRatio topHolders) &&
  (5 <=? List.length topHolders)%nat.

(** ... and after the count-agreement boost: the returned confidence. *)
Definition finalConfidence (topHolders : list ScoredHolder) : Z :=
  let confidence := whaleConfidence topHolders in
  if countBoost topHolders
  then Z.min 10 (confidence + 1)
  else confidence.

Definition decideSignal (yesPercentage : F64.number) (confidence : Z)
  : Signal :=
  if F64.leb (F64.lit 65 100) yesPercentage && (5 <=? confidence)%Z
  then BUY_YES
  else if F64.leb yesPercentage (F64.lit 35 100) && (5 <=? confidence)%Z
  then BUY_NO
  else INCONCLUSIVE.

Definition summary (h : ScoredHolder) : HolderSummary :=
  {| hs_address := Fmt.shortenAddress (address (holder h));
     hs_username := username (holder h);
     hs_score := total (credibilityScore h);
     hs_scoreBreakdown := breakdown (credibilityScore h);
     hs_position := currentPosition (holder h);
     hs_size := F64.round2 (currentPositionSize (holder h));
     hs_profit := F64.round2 (totalProfit (holder h));
     hs_winRate :=
       F64.div (F64.round (F64.mul (winRate (holder h)) (F64.ofZ 10)))
               (F64.ofZ 10);
     hs_totalMarkets := totalMarkets (holder h) |}.

Section WithHost.

(** [x.toFixed(digits)] and the conversion of a number to a string in a
    template literal. *)
Variable toFixed : F64.number -> nat -> string.
Variable toText : F64.number -> string.

Definition formatDollars (n : F64.number) : string :=
  if F64.leb (F64.ofZ 1000000) n
  then toFixed (F64.div n (F64.ofZ 1000000)) 1 ++ "M"
  else if F64.leb (F64.ofZ 1000) n
  then toFixed (F64.div n (F64.ofZ 1000)) 1 ++ "K"
  else toFixed n 0.

Definition reasoningText (topHolders : list ScoredHolder) (signal : Signal)
  : string :=
  let yesPercentage := yesPercentageOf topHolders in
  let totalValue := totalValue topHolders in
  Fmt.ofNat (List.length (yesList topHolders)) ++ " of " ++
  Fmt.ofNat (List.length topHolders) ++ " top holders " ++
  "(" ++ toText (F64.round (F64.mul yesPercentage (F64.ofZ 100))) ++
  "% by credibility-weighted value) are in YES, " ++
  "with $" ++ formatDollars (yesValueRaw topHolders) ++
  " in YES positions vs $" ++ formatDollars (noValueRaw topHolders) ++
  " in NO positions. " ++
  match whale topHolders with
  | Some w =>
      let whalePct :=
        F64.round (F64.mul (F64.div (weightedValue w) totalValue)
                           (F64.ofZ 100)) in
      "⚠️ Whale Alert: One holder controls " ++ toText whalePct ++
      "% of analyzed value — confidence reduced. "
  | None => ""
  end ++
  match signal with
  | INCONCLUSIVE =>
      if F64.ltb (dominance topHolders) (F64.lit 60 100)
      then "The market is split among smart money — no clear directional edge."
      else "Leaning signal detected but confidence threshold not met."
  | _ => ""
  end.

Definition generateTradingSignal (topHolders : list ScoredHolder)
  : TradingSignal :=
  if (List.length topHolders <? 3)%nat then
    {| signal := INCONCLUSIVE;
       confidence := 0;
       reasoning := "Only " ++ Fmt.ofNat (List.length topHolders) ++
         " holder(s) meet the criteria. Need at least 3 for a meaningful signal.";
       data := None |}
  else if F64.eqb (totalValue topHolders) F64.zero then
    {| signal := INCONCLUSIVE;
       confidence := 0;
       reasoning := "Total position value is $0. Cannot generate signal.";
       data := None |}
  else
    let yesPercentage := yesPercentageOf topHolders in
    let confidence := finalConfidence topHolders in
    let signal := decideSignal yesPercentage confidence in
    {| signal := signal;
       confidence := confidence;
       reasoning := reasoningText topHolders signal;
       data := Some
         {| yesHolders := List.length (yesList topHolders);
            noHolders := List.length (noList topHolders);
            yesValue := F64.round2 (yesValueRaw topHolders);
            noValue := F64.round2 (noValueRaw topHolders);
            yesPercentage :=
              F64.div (F64.round (F64.mul yesPercentage (F64.ofZ 1000)))
                      (F64.ofZ 1000);
            whaleDetected :=
              match whale topHolders with Some _ => true | None => false end;
            topHolders := List.map summary topHolders |} |}.

End WithHost.

End SignalGen.

(** *** Data API responses ([types.ts], [polymarket-api.ts]) *)

(** A value as a field of a JSON response may hold it; [JAbsent] is a
    field that is not there ([undefined]), [JCompound] an array or an
    object. *)
Inductive Json :=
| JAbsent
| JNull
| JBool (b : bool)
| JNum (x : F64.number)
| JStr (s : string)
| JCompound.

(** [v == null]: what [??] skips. *)
Definition nullish (v : Json) : bool :=
  match v with JAbsent | JNull => true | _ => false end.

(** Truthiness: what [||] skips is what is not truthy. *)
Definition truthy (v : Json) : bool :=
  match v with
  | JAbsent | JNull => false
  | JBool b => b
  | JNum x => F64.truthy x
  | JStr s => Str.truthy s
  | JCompound => true
  end.

Record RawHolder := mkRawHolder {
  proxyWallet : string;
  amount : option F64.number;     (* [undefined] when the field is absent *)
  rh_username : option string
}.

Record HolderResponse := mkHolderResponse {
  token : string;
  holders : list RawHolder
}.

(** [outcomeForToken] holds the own properties of the object. *)
Record MarketInfo := mkMarketInfo {
  m_id : string;
  question : string;
  conditionId : string;
  slug : string;
  outcomes : list string;
  outcomePrices : list F64.number;
  clobTokenIds : list string;
  outcomeForToken : gmap string string;
  m_volume : F64.number;
  liquidity : F64.number;
  active : bool;
  closed : bool;
  endDate : string
}.

Record UserPosition := mkUserPosition {
  size : option F64.number;
  initialValue : option F64.number;
  cashPnl : option F64.number
}.

(** An entry of the leaderboard response; the response is untyped, so a
    field may hold any value. *)
Record LeaderboardEntry := mkEntry {
  e_proxyWallet : Json;
  e_pnl : Json;
  e_profit : Json;
  e_vol : Json;
  e_volume : Json;
  e_marketsTraded : Json;
  e_markets : Json
}.

(** The body of the leaderboard response: an array of entries, or an
    object whose [leaderboard] field may hold them. *)
Inductive LeaderboardData :=
| LBArray (entries : list LeaderboardEntry)
| LBObject (leaderboard : option (list LeaderboardEntry)).

Record LeaderboardStats := mkStats {
  pnl : F64.number;
  lb_volume : F64.number;
  marketsTraded : F64.number
}.

(** The [timestamp] of an activity event: a number or a string. *)
Inductive Timestamp :=
| TsNumber (n : F64.number)
| TsString (s : string).

Record Activity := mkActivity {
  timestamp : option Timestamp
}.

(** The records [mapHoldersToPositions] produces. *)
Record PartialHolder := mkPartial {
  p_address : string;
  p_username : option string;
  p_currentPosition : Position;
  p_currentPositionSize : F64.number;
  p_shares : F64.number
}.

Module Api.

Section WithHost.

(** [parseFloat(v)] and [parseInt(v, 10)]. *)
Variable parseFloat : Json -> F64.number.
Variable parseInt : Json -> F64.number.

(** [a ?? b ?? 0]. *)
Definition coalesce (a b : Json) : Json :=
  if nullish a then (if nullish b then JNum F64.zero else b) else a.

(** [fetchUserLeaderboard], given what the cache holds under the user's key
    ([cached]) and what the HTTP request yields ([response], [None] when it
    throws).  Returns the result together with the value written to the
    cache, if any.  A truthy wallet field that is not a string has no
    [toLowerCase]: the [TypeError] is caught and the result is [null]. *)
Definition fetchUserLeaderboard
    (cached : option LeaderboardStats) (response : option LeaderboardData)
    (userAddress : string)
  : option LeaderboardStats * option LeaderboardStats :=
  match cached with
  | Some c => (Some c, None)
  | None =>
      match response with
      | None => (None, None)
      | Some data =>
          let entries :=
            match data with
            | LBArray es => es
            | LBObject (Some es) => es
            | LBObject None => []
            end in
          match entries with
          | [] => (None, None)
          | entry :: _ =>
              match (if truthy (e_proxyWallet entry)
                     then e_proxyWallet entry else JStr "") with
              | JStr wallet =>
                  let returnedWallet := Str.toLowerCase wallet in
                  if Str.truthy returnedWallet &&
                     negb (String.eqb returnedWallet
                                      (Str.toLowerCase userAddress))
                  then (None, None)
                  else
                    let result :=
                      {| pnl := parseFloat (coalesce (e_pnl entry)
                                                     (e_profit entry));
                         lb_volume := parseFloat (coalesce (e_vol entry)
                                                           (e_volume entry));
                         marketsTraded :=
                           parseInt (coalesce (e_marketsTraded entry)
                                              (e_markets entry)) |} in
                    (Some result, Some result)
              | _ => (None, None)
              end
          end
      end
  end.

End WithHost.

End Api.

(** *** The position mapper and the enricher ([analyze.ts]) *)

Module Analyze.

(** *** mapHoldersToPositions *)

(** The loop that fills [priceForOutcome]: entry [i] of [outcomes] gets
    [outcomePrices[i] ?? 0.5]. *)
Fixpoint buildPrices (outcomes : list string) (prices : list F64.number)
    (priceForOutcome : gmap string F64.number) : gmap string F64.number :=
  match outcomes with
  | [] => priceForOutcome
  | o :: os =>
      buildPrices os (List.tl prices)
        (Obj.set priceForOutcome o
                 (default (F64.lit 5 10) (List.hd_error prices)))
  end.

Definition priceForOutcome (market : MarketInfo) : gmap string F64.number :=
  buildPrices (outcomes market) (outcomePrices market) ∅.

(** Position, outcome name and "fallback used" for the listing at [index].
    When the token names a member of [Object.prototype] that the map does
    not shadow, [outcomeName] is truthy and has no [toUpperCase]: the call
    throws a [TypeError] (the message is the engine's). *)
Definition resolveOutcome (market : MarketInfo) (index : nat)
    (resp : HolderResponse) : Result (Position * string * bool) :=
  let fallback :=
    Ok (if (index =? 0)%nat then YES else NO,
        default (if (index =? 0)%nat then "Yes" else "No")
                (List.nth_error (outcomes market) index),
        true) in
  match Obj.get (outcomeForToken market) (token resp) with
  | Obj.Own outcomeName =>
      if Str.truthy outcomeName then
        Ok (if String.eqb (Str.toUpperCase outcomeName) "YES" then YES else NO,
            outcomeName, false)
      else fallback
  | Obj.Inherited => Throw "outcomeName.toUpperCase is not a function"
  | Obj.Missing => fallback
  end.

(** [priceForOutcome[outcomeName] ?? 0.5] as it enters the product
    [shareCount * price]: a member of [Object.prototype] is not nullish and
    counts as [NaN] there. *)
Definition priceOf (market : MarketInfo) (outcomeName : string)
  : F64.number :=
  match Obj.get (priceForOutcome market) outcomeName with
  | Obj.Own price => price
  | Obj.Inherited => F64.NaN
  | Obj.Missing => F64.lit 5 10
  end.

(** The record pushed for one raw holder. *)
Definition toPartial (position : Position) (price : F64.number)
    (rawHolder : RawHolder) : PartialHolder :=
  let shareCount := F64.orZero (amount rawHolder) in
  {| p_address := proxyWallet rawHolder;
     p_username := rh_username rawHolder;
     p_currentPosition := position;
     p_currentPositionSize := F64.mul shareCount price;
     p_shares := shareCount |}.

(** The inner [for ... of resp.holders] loop, threading the array
    [holders] of the source (here [acc]) and [seenAddresses]. *)
Fixpoint pushHolders (position : Position) (price : F64.number)
    (raws : list RawHolder)
    (st : list PartialHolder * gset string)
  : list PartialHolder * gset string :=
  match raws with
  | [] => st
  | rawHolder :: rest =>
      let '(acc, seenAddresses) := st in
      if bool_decide (proxyWallet rawHolder ∈ seenAddresses)
      then pushHolders position price rest st
      else pushHolders position price rest
             ((acc ++ [toPartial position price rawHolder])%list,
              {[proxyWallet rawHolder]} ∪ seenAddresses)
  end.

(** The outer [responses.forEach((resp, index) => ...)]; a throw ends
    it. *)
Fixpoint forEachResponse (market : MarketInfo) (index : nat)
    (responses : list HolderResponse)
    (st : list PartialHolder * gset string * bool)
  : Result (list PartialHolder * gset string * bool) :=
  match responses with
  | [] => Ok st
  | resp :: rest =>
      let '(acc, seenAddresses, usedFallback) := st in
      match resolveOutcome market index resp with
      | Throw e => Throw e
      | Ok (position, outcomeName, fallback) =>
          let price := priceOf market outcomeName in
          let '(acc', seen') :=
            pushHolders position price (holders resp) (acc, seenAddresses) in
          forEachResponse market (S index) rest
            (acc', seen', usedFallback || fallback)
      end
  end.

Definition mapHoldersToPositions (responses : list HolderResponse)
    (market : MarketInfo) : Result (list PartialHolder * list string) :=
  match forEachResponse market 0 responses ([], ∅, false) with
  | Throw e => Throw e
  | Ok (acc, _, usedFallback) =>
      Ok (acc,
          if usedFallback
          then ["Position mapping used index-based fallback for some tokens — YES/NO detection may be less accurate."]
          else [])
  end.

(** *** enrichSingleHolder *)

(** [a || b || 0] on optional numbers. *)
Definition firstTruthy (a b : option F64.number) : F64.number :=
  match a with
  | Some x => if F64.truthy x then x else F64.orZero b
  | None => F64.orZero b
  end.

(** [positions.reduce((sum, p) => sum + (p.cashPnl || 0), 0)]. *)
Definition rawPnlOf (positions : list UserPosition) : F64.number :=
  fold_left (fun sum p => F64.add sum (F64.orZero (cashPnl p)))
            positions F64.zero.

(** The integer part of a finite double. *)
Definition truncate (x : F64.number) : option Z :=
  match x with
  | S754_zero _ => Some 0%Z
  | S754_finite s m (Zneg k) => Some (cond_Zopp s (Zpos m / 2 ^ Zpos k))%Z
  | S754_finite s m e => Some (cond_Zopp s (Zpos m * 2 ^ e))%Z
  | _ => None
  end.

(** [new Date(t)] for a number [t]: its integer part, when [t] is finite
    and within the range of time values. *)
Definition dateOfNumber (t : F64.number) : Date :=
  match truncate t with
  | Some z => if (Z.abs z <=? 8640000000000000)%Z then Some z else None
  | None => None
  end.

Section Enrich.

Variable parseFloat : Json -> F64.number.
Variable parseInt : Json -> F64.number.
(** Collaborators, per wallet address, as in the exact model. *)
Variable leaderboardCache : string -> option LeaderboardStats.
Variable leaderboardApi : string -> option LeaderboardData.
Variable fetchUserPositions : string -> nat -> list UserPosition.
Variable fetchUserActivity : string -> list Activity.
Variable parseDate : string -> Date.
Variable clock : string -> Z.

Definition lastTradeDateOf (now : Z) (positions : list UserPosition)
    (activity : list Activity) : Date :=
  let fallback :=
    match positions with
    | [] => Some 0%Z
    | _ :: _ => Some now
    end in
  match activity with
  | [] => fallback
  | a :: _ =>
      match timestamp a with
      | None => fallback
      | Some (TsNumber ts) =>
          if F64.truthy ts then
            match dateOfNumber
                    (if F64.ltb (F64.ofZ 1000000000000) ts then ts
                     else F64.mul ts (F64.ofZ 1000)) with
            | Some t => Some t
            | None => Some 0%Z
            end
          else fallback
      | Some (TsString ts) =>
          if Str.truthy ts then
            match parseDate ts with
            | Some t => Some t
            | None => Some 0%Z
            end
          else fallback
      end
  end.

Definition enrichSingleHolder (partial : PartialHolder) : Holder :=
  let address := p_address partial in
  let leaderboard :=
    fst (Api.fetchUserLeaderboard parseFloat parseInt
           (leaderboardCache address) (leaderboardApi address) address) in
  let positions := fetchUserPositions address 50 in
  let activity := fetchUserActivity address in
  let totalProfit :=
    match leaderboard with
    | Some lb => pnl lb
    | None =>
        if (0 <? List.length positions)%nat then
          let rawPnl := rawPnlOf positions in
          if F64.ltb (F64.abs rawPnl) (F64.ofZ 50000000) then rawPnl
          else F64.zero
        else F64.zero
    end in
  let totalMarkets :=
    match leaderboard with
    | Some lb =>
        if F64.truthy (marketsTraded lb) then marketsTraded lb
        else F64.ofNat (List.length positions)
    | None => F64.ofNat (List.length positions)
    end in
  let winRate :=
    if (0 <? List.length positions)%nat then
      let wins :=
        List.length
          (List.filter (fun p => F64.ltb F64.zero (F64.orZero (cashPnl p)))
                       positions) in
      F64.mul (F64.div (F64.ofNat wins) (F64.ofNat (List.length positions)))
              (F64.ofZ 100)
    else F64.zero in
  let avgPositionSize :=
    if (0 <? List.length positions)%nat then
      let totalSize :=
        fold_left
          (fun sum p =>
             F64.add sum (F64.abs (firstTruthy (initialValue p) (size p))))
          positions F64.zero in
      let avg := F64.div totalSize (F64.ofNat (List.length positions)) in
      if F64.ltb (F64.ofZ 10000000) avg then F64.zero else avg
    else F64.zero in
  let totalVolume :=
    match leaderboard with
    | Some lb => F64.orZero (Some (lb_volume lb))
    | None => F64.zero
    end in
  {| address := address;
     username := p_username partial;
     totalProfit := totalProfit;
     totalVolume := totalVolume;
     totalMarkets := totalMarkets;
     winRate := winRate;
     positionsSampled := List.length positions;
     lastTradeDate := lastTradeDateOf (clock address) positions activity;
     avgPositionSize := avgPositionSize;
     currentPosition := p_currentPosition partial;
     currentPositionSize := F64.orZero (Some (p_currentPositionSize partial));
     shares := F64.orZero (Some (p_shares partial)) |}.

End Enrich.

End Analyze.

(** *** The token map of [parseMarket] ([polymarket-api.ts]) *)

Module Gamma.

(** The loop of [parseMarket] that fills [outcomeForToken]: for every [i]
    below both lengths, [outcomeForToken[clobTokenIds[i]] = outcomes[i]]. *)
Fixpoint buildOutcomeForToken (outcomes clobTokenIds : list string)
    (outcomeForToken : gmap string string) : gmap string string :=
  match outcomes, clobTokenIds with
  | o :: os, t :: ts =>
      buildOutcomeForToken os ts (Obj.set outcomeForToken t o)
  | _, _ => outcomeForToken
  end.

End Gamma.

End Double.

(* ===================================================================== *)
(** ** Vocabulary of the statements                                      *)
(* ===================================================================== *)

(** A value with at most two decimals. *)
Definition hundredth (q : Q) : Prop :=
  exists z : Z, (q == inject_Z z / 100)%Q.

(** The first entry of a leaderboard response, when it has one. *)
Definition firstEntry (data : LeaderboardData) : option LeaderboardEntry :=
  match data with
  | LBArray (entry :: _) | LBObject (Some (entry :: _)) => Some entry
  | _ => None
  end.

(** The exact value of a wallet's credibility weight, of the combined
    weight of a list of wallets, and of the YES share of a list: what the
    doubles of [Double.SignalGen] approximate.  Defined when every figure
    involved is finite. *)
Definition realWeight (h : Double.ScoredHolder) : option Q :=
  match F64.toQ (Double.currentPositionSize (Double.holder h)),
        F64.toQ (Double.total (Double.credibilityScore h)) with
  | Some size, Some score => Some (size * (score / 100))%Q
  | _, _ => None
  end.

Fixpoint realSum (l : list Double.ScoredHolder) : option Q :=
  match l with
  | [] => Some 0%Q
  | h :: rest =>
      match realWeight h, realSum rest with
      | Some w, Some s => Some (w + s)%Q
      | _, _ => None
      end
  end.

Definition realShare (l : list Double.ScoredHolder) : option Q :=
  match realSum
          (List.filter
             (fun h =>
                Position_eqb (Double.currentPosition (Double.holder h)) YES) l),
        realSum l with
  | Some yes, Some all => Some (yes / all)%Q
  | _, _ => None
  end.

(** Two code units that are the same letter in either case: equal, or one
    an upper-case letter and the other 32 above it. *)
Definition sameLetter (c d : ascii) : bool :=
  let n := nat_of_ascii c in
  let m := nat_of_ascii d in
  ((n =? m) ||
   ((65 <=? n) && (n <=? 90) ||
    (192 <=? n) && (n <=? 222) && negb (n =? 215)) && (m =? n + 32) ||
   ((65 <=? m) && (m <=? 90) ||
    (192 <=? m) && (m <=? 222) && negb (m =? 215)) && (n =? m + 32))%nat.

(** Two strings that are equal when letter case is ignored. *)
Fixpoint sameIgnoringCase (a b : string) : bool :=
  match a, b with
  | EmptyString, EmptyString => true
  | String c a', String d b' => sameLetter c d && sameIgnoringCase a' b'
  | _, _ => false
  end.

(** The first entry of a leaderboard response whose fields may hold any
    value. *)
Definition firstEntryOf (data : Double.LeaderboardData)
  : option Double.LeaderboardEntry :=
  match data with
  | Double.LBArray (entry :: _)
  | Double.LBObject (Some (entry :: _)) => Some entry
  | _ => None
  end.

(** What the listings offer to the position mapper. *)
Module Offered.

Import Double Double.Analyze.

(** The records on offer, one per raw holder, in listing order (nothing for
    a listing whose resolution throws). *)
Fixpoint candidatesFrom (market : MarketInfo) (index : nat)
    (responses : list HolderResponse) : list PartialHolder :=
  match responses with
  | [] => []
  | resp :: rest =>
      match resolveOutcome market index resp with
      | Ok (position, outcomeName, _) =>
          List.map (toPartial position (priceOf market outcomeName))
                   (holders resp)
      | Throw _ => []
      end ++ candidatesFrom market (S index) rest
  end.

(** Keeping, of a list of records, the first one of each address not in
    [seen]. *)
Fixpoint keepFirst (seen : gset string) (l : list PartialHolder)
  : list PartialHolder :=
  match l with
  | [] => []
  | c :: rest =>
      if bool_decide (p_address c ∈ seen) then keepFirst seen rest
      else c :: keepFirst ({[p_address c]} ∪ seen) rest
  end.

(** The addresses of a list of records, as a set. *)
Definition addressSet (l : list PartialHolder) : gset string :=
  list_to_set (List.map p_address l).

End Offered.

(* ===================================================================== *)
(** ** Concrete inputs                                                   *)
(* ===================================================================== *)

Module Examples.

Local Open Scope Q_scope.

(** A stand-in for [Math.log10] on concrete inputs: the number of decimal
    digits of the integer part, minus one (the floor of the logarithm, for
    arguments from 1 on). *)
Definition floorLog10 (x : Q) : Q :=
  Analyze.natQ (String.length (Fmt.ofZ (Qfloor x)) - 1).

Definition day : Z := Scoring.msPerDay.

(** A wallet that last traded at the epoch. *)
Definition trader : Holder :=
  {| address := "0x1111111111111111111111111111111111111111";
     username := Some "alice"%string;
     totalProfit := 10000;
     totalVolume := 250000;
     totalMarkets := 10;
     winRate := 80;
     positionsSampled := 10;
     lastTradeDate := Some 0%Z;
     avgPositionSize := 400;
     currentPosition := YES;
     currentPositionSize := 200;
     shares := 400 |}.

(** A scored wallet with total score 50, holding [size] dollars of
    [position]. *)
Definition scored (addr : string) (position : Position) (size : Q)
  : ScoredHolder :=
  {| holder :=
       {| address := addr;
          username := None;
          totalProfit := 100000;
          totalVolume := 0;
          totalMarkets := 40;
          winRate := 40;
          positionsSampled := 40;
          lastTradeDate := Some 0%Z;
          avgPositionSize := 10 * size;
          currentPosition := position;
          currentPositionSize := size;
          shares := 2 * size |};
     credibilityScore :=
       {| total := 50;
          breakdown := {| profit := 26; winRateScore := 10; volume := 15;
                          recency := 0; conviction := (1 # 2) |} |} |}.

(** Five wallets whose weighted values are 400, 200, 150, 150 and 100,
    the first three in YES and the last two in NO. *)
Definition fiveWallets : list ScoredHolder :=
  [ scored "0xa1" YES 800; scored "0xa2" YES 400; scored "0xa3" YES 300;
    scored "0xa4" NO 300; scored "0xa5" NO 200 ].

(** Collaborators of the enricher for a wallet the leaderboard does not
    know: nothing cached, the leaderboard request fails, no activity, and
    the given positions. *)
Definition noCache (_ : string) : option LeaderboardStats := None.
Definition noLeaderboard (_ : string) : option LeaderboardData := None.
Definition noActivity (_ : string) : list Activity := [].
Definition noDates (_ : string) : Date := None.
Definition noon (_ : string) : Z := (20000 * day)%Z.

Definition positionWith (pnl : Q) : UserPosition :=
  {| size := Some 100; initialValue := Some 80; cashPnl := Some pnl |}.

Definition partialOf (addr : string) : PartialHolder :=
  {| p_address := addr; p_username := None; p_currentPosition := YES;
     p_currentPositionSize := 50; p_shares := 100 |}.

(** A leaderboard entry without a wallet field. *)
Definition anonymousEntry : LeaderboardEntry :=
  {| e_proxyWallet := None; e_pnl := Some 2000000; e_profit := None;
     e_vol := Some 9000000; e_volume := None;
     e_marketsTraded := Some 300; e_markets := None |}.

(** A two-outcome market at 60/40 whose tokens [tokYes] and [tokNo] map
    to its outcomes. *)
Definition yesNoMarket : MarketInfo :=
  {| m_id := "512";
     question := "Will it rain tomorrow?";
     m_volume := 125000;
     liquidity := 8000;
     active := true;
     closed := false;
     endDate := "2026-12-31T00:00:00Z";
     conditionId := "0xc0ffee";
     slug := "will-it-rain";
     outcomes := ["Yes"; "No"]%string;
     outcomePrices := [(6 # 10); (4 # 10)];
     clobTokenIds := ["tokYes"; "tokNo"]%string;
     outcomeForToken :=
       <["tokYes"%string := "Yes"%string]>
         (<["tokNo"%string := "No"%string]> ∅) |}.

Definition rawHolder (addr : string) (shareCount : Q) : RawHolder :=
  {| proxyWallet := addr; amount := Some shareCount; rh_username := None |}.

(** Listings in which one wallet shows up under both tokens, spelled with
    different letter case. *)
Definition mixedCaseListings : list HolderResponse :=
  [ {| token := "tokYes"; holders := [rawHolder "0xABCDEF" 10] |};
    {| token := "tokNo"; holders := [rawHolder "0xabcdef" 30] |} ].

(** Listings in which one wallet shows up under both tokens, spelled the
    same. *)
Definition repeatedListings : list HolderResponse :=
  [ {| token := "tokYes";
       holders := [rawHolder "0xabcdef" 10; rawHolder "0x123456" 2000] |};
    {| token := "tokNo"; holders := [rawHolder "0xabcdef" 30] |} ].

(** Collaborators of the pipeline for one event with one market. *)
Definition rainMarket : GammaMarket :=
  {| gm_slug := "will-it-rain"; gm_conditionId := "0xc0ffee";
     gm_outcomes := "[Yes,No]"; gm_outcomePrices := "[0.6,0.4]";
     gm_clobTokenIds := "[tokYes,tokNo]" |}.

Definition eventSlugOf (_ : string) : Result string := Ok "rain"%string.
Definition noMarketSlug (_ : string) : option string := None.
Definition rainEvent (_ : string) : Result GammaEvent :=
  Ok {| markets := Some [rainMarket] |}.
Definition parseRain (_ : GammaMarket) : MarketInfo := yesNoMarket.
Definition noPositions (_ : string) (_ : nat) : list UserPosition := [].
Definition scoredAtNoon (_ : nat) : Z := (20000 * day)%Z.

(** The provider has no listings for the market ... *)
Definition emptyListings (_ : string)
  : Result (option (list HolderResponse)) := Ok (Some []).

(** ... or only small ones: positions worth $6 and $12. *)
Definition smallListings (_ : string)
  : Result (option (list HolderResponse)) := Ok (Some mixedCaseListings).

Definition rainUrl : string := "https://polymarket.com/event/rain".

End Examples.

(* ===================================================================== *)
(** ** More concrete inputs                                              *)
(* ===================================================================== *)

Module MoreExamples.

Local Open Scope Q_scope.

(** Five wallets with positions worth $600, $1,200 and $300 in YES and
    $400 and $240 in NO. *)
Definition bigListings (_ : string)
  : Result (option (list HolderResponse)) :=
  Ok (Some
    [ {| token := "tokYes";
         holders := [Examples.rawHolder "0xb1" 1000;
                     Examples.rawHolder "0xb2" 2000;
                     Examples.rawHolder "0xb3" 500] |};
      {| token := "tokNo";
         holders := [Examples.rawHolder "0xb4" 1000;
                     Examples.rawHolder "0xb5" 600] |} ]).

(** Every wallet has one winning and one losing position on record. *)
Definition twoPositions (_ : string) (_ : nat) : list UserPosition :=
  [Examples.positionWith 1200; Examples.positionWith (-200)].

End MoreExamples.

(* ===================================================================== *)
(** ** Concrete inputs on doubles                                        *)
(* ===================================================================== *)

Module DoubleExamples.

Local Open Scope string_scope.

(** Stand-ins for [x.toFixed(digits)] and for the conversion of a number to
    a string, on the figures of the examples. *)
Definition toFixed (x : F64.number) (digits : nat) : string :=
  match F64.toQ x with
  | Some q => Fmt.toFixed digits q
  | None => "NaN"
  end.

Definition toText (x : F64.number) : string :=
  match F64.toQ x with
  | Some q => Fmt.ofZ (Qfloor q)
  | None => "NaN"
  end.

(** A stand-in for [Math.log10]: [NaN] on [NaN], and otherwise the number
    of decimal digits of the integer part, minus one. *)
Definition log10 (x : F64.number) : F64.number :=
  match F64.toQ x with
  | Some q => F64.ofNat (String.length (Fmt.ofZ (Qfloor q)) - 1)
  | None => x
  end.

(** A stand-in for [parseFloat] and [parseInt]: a number is returned as it
    is (as both do on an integer below [1e21]) and anything else, such as a
    string that does not start with a number, gives [NaN]. *)
Definition parseNumber (v : Double.Json) : F64.number :=
  match v with
  | Double.JNum x => x
  | _ => F64.NaN
  end.

(** A scored wallet holding [size] dollars of [position], with total score
    [score]. *)
Definition scored (addr : string) (position : Position) (size score : Z)
  : Double.ScoredHolder :=
  {| Double.holder :=
       {| Double.address := addr;
          Double.username := None;
          Double.totalProfit := F64.ofZ 100000;
          Double.totalVolume := F64.zero;
          Double.totalMarkets := F64.ofZ 40;
          Double.winRate := F64.ofZ 40;
          Double.positionsSampled := 40;
          Double.lastTradeDate := Some 0%Z;
          Double.avgPositionSize := F64.ofZ (10 * size);
          Double.currentPosition := position;
          Double.currentPositionSize := F64.ofZ size;
          Double.shares := F64.ofZ (2 * size) |};
     Double.credibilityScore :=
       {| Double.total := F64.ofZ score;
          Double.breakdown :=
            {| Double.profit := F64.ofZ 26;
               Double.winRateScore := F64.ofZ 10;
               Double.volume := F64.ofZ 15;
               Double.recency := F64.zero;
               Double.conviction := F64.ofZ (score - 51) |} |} |}.

(** Five wallets of score 55 whose first holds exactly 40% of the combined
    weight (exact weights 220, 110, 82.5, 82.5 and 55 of 550). *)
Definition fortyPercent : list Double.ScoredHolder :=
  [ scored "0xc1" YES 400 55; scored "0xc2" YES 200 55;
    scored "0xc3" YES 150 55; scored "0xc4" NO 150 55;
    scored "0xc5" NO 100 55 ].

(** The same sizes at score 50: every product and sum is exact. *)
Definition fortyPercentExact : list Double.ScoredHolder :=
  [ scored "0xc1" YES 400 50; scored "0xc2" YES 200 50;
    scored "0xc3" YES 150 50; scored "0xc4" NO 150 50;
    scored "0xc5" NO 100 50 ].

(** Three wallets of score 55 whose exact YES share is 35%. *)
Definition thirtyFivePercent : list Double.ScoredHolder :=
  [ scored "0xd1" YES 350 55; scored "0xd2" NO 300 55;
    scored "0xd3" NO 350 55 ].

(** Three wallets of score 55 whose exact YES share is 70%. *)
Definition seventyPercent : list Double.ScoredHolder :=
  [ scored "0xe1" YES 350 55; scored "0xe2" YES 700 55;
    scored "0xe3" NO 450 55 ].

(** Three wallets of score 55 whose exact YES share is 80%. *)
Definition eightyPercent : list Double.ScoredHolder :=
  [ scored "0xf1" YES 800 55; scored "0xf2" NO 150 55;
    scored "0xf3" NO 50 55 ].

(** Collaborators of the enricher: nothing cached, no leaderboard reply, no
    activity. *)
Definition noCache (_ : string) : option Double.LeaderboardStats := None.
Definition noLeaderboard (_ : string) : option Double.LeaderboardData := None.
Definition noActivity (_ : string) : list Double.Activity := [].
Definition noPositions (_ : string) (_ : nat) : list Double.UserPosition := [].
Definition noDates (_ : string) : Date := None.
Definition noon (_ : string) : Z := (20000 * Scoring.msPerDay)%Z.

Definition positionWith (pnl : Z) : Double.UserPosition :=
  {| Double.size := Some (F64.ofZ 100);
     Double.initialValue := Some (F64.ofZ 80);
     Double.cashPnl := Some (F64.ofZ pnl) |}.

Definition partialOf (addr : string) : Double.PartialHolder :=
  {| Double.p_address := addr; Double.p_username := None;
     Double.p_currentPosition := YES;
     Double.p_currentPositionSize := F64.ofZ 50;
     Double.p_shares := F64.ofZ 100 |}.

(** A record with a position of $150, above the $100 floor of the
    pipeline. *)
Definition largePartialOf (addr : string) : Double.PartialHolder :=
  {| Double.p_address := addr; Double.p_username := None;
     Double.p_currentPosition := YES;
     Double.p_currentPositionSize := F64.ofZ 150;
     Double.p_shares := F64.ofZ 300 |}.

(** A leaderboard entry without a wallet field ... *)
Definition anonymousEntry : Double.LeaderboardEntry :=
  {| Double.e_proxyWallet := Double.JAbsent;
     Double.e_pnl := Double.JNum (F64.ofZ 2000000);
     Double.e_profit := Double.JAbsent;
     Double.e_vol := Double.JAbsent;
     Double.e_volume := Double.JNum (F64.ofZ 9000000);
     Double.e_marketsTraded := Double.JNum (F64.ofZ 300);
     Double.e_markets := Double.JAbsent |}.

(** ... and one for the wallet [0xa1] whose [pnl] is the string "n/a". *)
Definition unparsedEntry : Double.LeaderboardEntry :=
  {| Double.e_proxyWallet := Double.JStr "0xA1";
     Double.e_pnl := Double.JStr "n/a";
     Double.e_profit := Double.JAbsent;
     Double.e_vol := Double.JNum (F64.ofZ 9000000);
     Double.e_volume := Double.JAbsent;
     Double.e_marketsTraded := Double.JNum (F64.ofZ 300);
     Double.e_markets := Double.JAbsent |}.

Definition unparsedLeaderboard (_ : string)
  : option Double.LeaderboardData :=
  Some (Double.LBArray [unparsedEntry]).

(** A two-outcome market at 60/40 whose token map is the one [parseMarket]
    builds from its outcomes and token ids. *)
Definition yesNoMarket : Double.MarketInfo :=
  {| Double.m_id := "512";
     Double.question := "Will it rain tomorrow?";
     Double.m_volume := F64.ofZ 125000;
     Double.liquidity := F64.ofZ 8000;
     Double.active := true;
     Double.closed := false;
     Double.endDate := "2026-12-31T00:00:00Z";
     Double.conditionId := "0xc0ffee";
     Double.slug := "will-it-rain";
     Double.outcomes := ["Yes"; "No"];
     Double.outcomePrices := [F64.lit 6 10; F64.lit 4 10];
     Double.clobTokenIds := ["tokYes"; "tokNo"];
     Double.outcomeForToken :=
       Double.Gamma.buildOutcomeForToken ["Yes"; "No"] ["tokYes"; "tokNo"] ∅ |}.

Definition rawHolder (addr : string) (shareCount : Z) : Double.RawHolder :=
  {| Double.proxyWallet := addr; Double.amount := Some (F64.ofZ shareCount);
     Double.rh_username := None |}.

(** Listings in which one wallet shows up under both tokens, spelled with
    different letter case. *)
Definition mixedCaseListings : list Double.HolderResponse :=
  [ {| Double.token := "tokYes"; Double.holders := [rawHolder "0xABCDEF" 10] |};
    {| Double.token := "tokNo"; Double.holders := [rawHolder "0xabcdef" 30] |} ].

(** Listings in which one wallet shows up under both tokens, spelled the
    same. *)
Definition repeatedListings : list Double.HolderResponse :=
  [ {| Double.token := "tokYes";
       Double.holders := [rawHolder "0xabcdef" 10; rawHolder "0x123456" 2000] |};
    {| Double.token := "tokNo"; Double.holders := [rawHolder "0xabcdef" 30] |} ].

(** Listings whose second token is named like a member of
    [Object.prototype]. *)
Definition constructorListings : list Double.HolderResponse :=
  [ {| Double.token := "tokYes"; Double.holders := [rawHolder "0xabcdef" 10] |};
    {| Double.token := "constructor"; Double.holders := [] |} ].

End DoubleExamples.

(* ===================================================================== *)
(** * Properties                                                         *)
(* ===================================================================== *)

(** ** Facts about the JavaScript primitives *)

Module JSFacts.

Local Open Scope Q_scope.

Lemma leb_true x y : JS.leb x y = true <-> x <= y.
Proof. unfold JS.leb. apply Qle_bool_iff. Qed.

Lemma leb_false x y : JS.leb x y = false <-> y < x.
Proof.
  unfold JS.leb. split; intros H.
  - apply Qnot_le_lt. intros Hle. apply Qle_bool_iff in Hle. congruence.
  - destruct (Qle_bool x y) eqn:E; [|reflexivity].
    apply Qle_bool_iff in E. exfalso. lra.
Qed.

Lemma ltb_true x y : JS.ltb x y = true <-> x < y.
Proof.
  unfold JS.ltb. rewrite negb_true_iff. apply (leb_false y x).
Qed.

Lemma ltb_false x y : JS.ltb x y = false <-> y <= x.
Proof.
  unfold JS.ltb. rewrite negb_false_iff. apply (leb_true y x).
Qed.

Lemma eqb_true x y : JS.eqb x y = true <-> x == y.
Proof. unfold JS.eqb. apply Qeq_bool_iff. Qed.

Lemma eqb_false x y : JS.eqb x y = false <-> ~ x == y.
Proof.
  unfold JS.eqb. split; intros H.
  - intros E. apply Qeq_bool_iff in E. congruence.
  - destruct (Qeq_bool x y) eqn:E; [|reflexivity].
    apply Qeq_bool_iff in E. contradiction.
Qed.

Lemma min_le_l x y : JS.min x y <= x.
Proof.
  unfold JS.min. destruct (JS.leb x y) eqn:E; [lra|].
  apply leb_false in E. lra.
Qed.

Lemma min_glb x y z : z <= x -> z <= y -> z <= JS.min x y.
Proof. unfold JS.min. destruct (JS.leb x y); auto. Qed.

Lemma max_le_l x y : x <= JS.max x y.
Proof.
  unfold JS.max. destruct (JS.leb x y) eqn:E; [|lra].
  apply leb_true in E. exact E.
Qed.

Lemma max_lub x y z : x <= z -> y <= z -> JS.max x y <= z.
Proof. unfold JS.max. destruct (JS.leb x y); auto. Qed.

(** [Math.round] never leaves an interval with integer end points. *)
Lemma round_bounds (lo hi : Z) (x : Q) :
  inject_Z lo <= x -> x <= inject_Z hi ->
  (lo <= JS.round x <= hi)%Z.
Proof.
  intros Hlo Hhi. unfold JS.round. split.
  - rewrite <- (Qfloor_Z lo). apply Qfloor_resp_le. lra.
  - assert (H : inject_Z (Qfloor (x + (1 # 2))) < inject_Z (hi + 1)).
    { eapply Qle_lt_trans; [apply Qfloor_le|].
      rewrite inject_Z_plus. change (inject_Z 1) with 1. lra. }
    rewrite <- Zlt_Qlt in H. lia.
Qed.

(** [Math.round] is the identity on integers. *)
Lemma round_inject (z : Z) : JS.round (inject_Z z) = z.
Proof.
  destruct (round_bounds z z (inject_Z z)) as [H1 H2];
    try apply Qle_refl.
  lia.
Qed.

(** The idiom [Math.round(x * 100) / 100] keeps a value between [0] and
    an integer maximum. *)
Lemma round2_bounds (hi : Z) (x : Q) :
  0 <= x -> x <= inject_Z hi ->
  0 <= inject_Z (JS.round (x * 100)) / 100 <= inject_Z hi.
Proof.
  intros Hlo Hhi.
  destruct (round_bounds 0 (hi * 100) (x * 100)) as [H1 H2].
  - change (inject_Z 0) with 0. lra.
  - rewrite inject_Z_mult. change (inject_Z 100) with 100. lra.
  - rewrite Zle_Qle in H1, H2. rewrite inject_Z_mult in H2.
    change (inject_Z 100) with 100 in H2. change (inject_Z 0) with 0 in H1.
    split.
    + apply Qle_shift_div_l; lra.
    + apply Qle_shift_div_r; lra.
Qed.

(** ... and is the identity on hundredths. *)
Lemma round2_hundredths (x : Q) (z : Z) :
  x == inject_Z z / 100 ->
  inject_Z (JS.round (x * 100)) / 100 == x.
Proof.
  intros Hx.
  assert (E : x * 100 == inject_Z z) by (rewrite Hx; field).
  unfold JS.round. rewrite E. fold (JS.round (inject_Z z)).
  rewrite round_inject. symmetry. exact Hx.
Qed.

End JSFacts.

(** ** Facts about doubles *)

Module F64Facts.

Lemma compare_cont_Eq (p q : positive) :
  Pos.compare_cont Eq p q = Pos.compare p q.
Proof. reflexivity. Qed.

Ltac order_cases :=
  rewrite ?compare_cont_Eq in *;
  repeat match goal with
  | H : context [Z.compare ?a ?b] |- _ =>
      destruct (Z.compare_spec a b); cbn in H
  | H : context [Pos.compare ?a ?b] |- _ =>
      destruct (Pos.compare_spec a b); cbn in H
  end;
  try discriminate;
  repeat match goal with
  | |- context [Z.compare ?a ?b] => destruct (Z.compare_spec a b); cbn
  | |- context [Pos.compare ?a ?b] => destruct (Pos.compare_spec a b); cbn
  end;
  try reflexivity; try discriminate; try lia.

Lemma compare_trans (x y z : F64.number) (c1 c2 : comparison) :
  SFcompare x y = Some c1 -> SFcompare y z = Some c2 ->
  c1 <> Gt -> c2 <> Gt ->
  SFcompare x z = Some (match c1 with Eq => c2 | _ => Lt end).
Proof.
  intros H1 H2 N1 N2.
  destruct c1, c2; try contradiction;
  destruct x as [sx|sx| |sx mx ex], y as [sy|sy| |sy my ey],
           z as [sz|sz| |sz mz ez];
    try discriminate;
    try destruct sx; try destruct sy; try destruct sz;
    cbn in *; try discriminate; try reflexivity;
    injection H1 as H1; injection H2 as H2; f_equal; order_cases.
Qed.

Lemma ltb_spec (x y : F64.number) :
  F64.ltb x y = true <-> SFcompare x y = Some Lt.
Proof.
  unfold F64.ltb, SFltb. destruct (SFcompare x y) as [[]|]; split;
    congruence.
Qed.

Lemma leb_spec (x y : F64.number) :
  F64.leb x y = true <->
  SFcompare x y = Some Lt \/ SFcompare x y = Some Eq.
Proof.
  unfold F64.leb, SFleb. destruct (SFcompare x y) as [[]|]; split;
    try congruence; try tauto; intros [H|H]; congruence.
Qed.

Lemma ltb_trans x y z :
  F64.ltb x y = true -> F64.ltb y z = true -> F64.ltb x z = true.
Proof.
  rewrite !ltb_spec. intros H1 H2.
  apply (compare_trans x y z Lt Lt H1 H2); discriminate.
Qed.

Lemma ltb_leb_trans x y z :
  F64.ltb x y = true -> F64.leb y z = true -> F64.ltb x z = true.
Proof.
  rewrite !ltb_spec, leb_spec. intros H1 [H2|H2].
  - apply (compare_trans x y z Lt Lt H1 H2); discriminate.
  - apply (compare_trans x y z Lt Eq H1 H2); discriminate.
Qed.

Lemma leb_ltb_trans x y z :
  F64.leb x y = true -> F64.ltb y z = true -> F64.ltb x z = true.
Proof.
  rewrite !ltb_spec, leb_spec. intros [H1|H1] H2.
  - apply (compare_trans x y z Lt Lt H1 H2); discriminate.
  - apply (compare_trans x y z Eq Lt H1 H2); discriminate.
Qed.

Lemma leb_trans x y z :
  F64.leb x y = true -> F64.leb y z = true -> F64.leb x z = true.
Proof.
  rewrite !leb_spec. intros [H1|H1] [H2|H2].
  - left. apply (compare_trans x y z Lt Lt H1 H2); discriminate.
  - left. apply (compare_trans x y z Lt Eq H1 H2); discriminate.
  - left. apply (compare_trans x y z Eq Lt H1 H2); discriminate.
  - right. apply (compare_trans x y z Eq Eq H1 H2); discriminate.
Qed.

(** An operand of a comparison that holds is not [NaN]. *)
Lemma compare_not_nan (x y : F64.number) (c : comparison) :
  SFcompare x y = Some c -> F64.isNaN x = false /\ F64.isNaN y = false.
Proof.
  destruct x, y; cbn; try discriminate; auto.
Qed.

Lemma leb_not_nan x y :
  F64.leb x y = true -> F64.isNaN x = false /\ F64.isNaN y = false.
Proof.
  rewrite leb_spec. intros [H|H]; eapply compare_not_nan; exact H.
Qed.

Lemma ltb_not_nan x y :
  F64.ltb x y = true -> F64.isNaN x = false /\ F64.isNaN y = false.
Proof. rewrite ltb_spec. apply compare_not_nan. Qed.

(** [Math.max] is above a bound as soon as its first argument is,
    provided the second is a number. *)
Lemma ltb_max_l (c x y : F64.number) :
  F64.ltb c x = true -> F64.isNaN y = false ->
  F64.ltb c (F64.max x y) = true.
Proof.
  intros Hc Hy. destruct (ltb_not_nan _ _ Hc) as [_ Hx].
  unfold F64.max. rewrite Hx, Hy. cbn [orb].
  destruct (F64.ltb x y) eqn:E1.
  - apply (ltb_trans c x y Hc E1).
  - destruct (F64.ltb y x) eqn:E2; [exact Hc|].
    destruct x as [[]| | |]; try exact Hc.
    (* x = -0, y equal to it *)
    destruct y as [sy|sy| |sy my ey]; try discriminate Hy;
      try destruct sy; cbn in E1, E2; try discriminate;
      destruct c as [sc|sc| |sc mc ec]; try destruct sc; cbn in *; 
      try discriminate; try reflexivity.
Qed.

(** *** Results that are not [NaN] *)

Lemma shr_1_nonneg (mrs : shr_record) :
  (0 <= shr_m mrs)%Z -> (0 <= shr_m (shr_1 mrs))%Z.
Proof.
  destruct mrs as [m r s]. cbn. intros H.
  destruct m as [|[p|p|]|p]; cbn; lia.
Qed.

Lemma iter_pos_invariant {A} (P : A -> Prop) (f : A -> A) :
  (forall x, P x -> P (f x)) ->
  forall (n : positive) (x : A), P x -> P (SpecFloat.iter_pos f n x).
Proof.
  intros Hf n. induction n as [n IH|n IH|]; intros x Hx; cbn; auto.
Qed.

Lemma shr_nonneg (mrs : shr_record) (e n : Z) :
  (0 <= shr_m mrs)%Z -> (0 <= shr_m (fst (shr mrs e n)))%Z.
Proof.
  intros H. unfold shr. destruct n as [|p|p]; cbn [fst]; try exact H.
  apply (iter_pos_invariant (fun r => (0 <= shr_m r)%Z)); [|exact H].
  apply shr_1_nonneg.
Qed.

Lemma shr_record_of_loc_m (m : Z) (l : location) :
  shr_m (shr_record_of_loc m l) = m.
Proof. destruct l as [|[]]; reflexivity. Qed.

Lemma shr_fexp_nonneg (m e : Z) (l : location) :
  (0 <= m)%Z ->
  (0 <= shr_m (fst (shr_fexp F64.prec F64.emax m e l)))%Z.
Proof.
  intros H. unfold shr_fexp. apply shr_nonneg.
  rewrite shr_record_of_loc_m. exact H.
Qed.

Lemma round_nearest_even_nonneg (m : Z) (l : location) :
  (0 <= m)%Z -> (0 <= round_nearest_even m l)%Z.
Proof.
  intros H. unfold round_nearest_even.
  destruct l as [|[]]; try exact H; [destruct (Z.even m)|]; lia.
Qed.

(** Rounding a non-negative mantissa never gives [NaN]. *)
Lemma binary_round_aux_number (sx : bool) (m e : Z) (l : location) :
  (0 <= m)%Z ->
  F64.isNaN (binary_round_aux F64.prec F64.emax sx m e l) = false.
Proof.
  intros H. unfold binary_round_aux.
  pose proof (shr_fexp_nonneg m e l H) as H1.
  destruct (shr_fexp F64.prec F64.emax m e l) as [mrs' e'].
  cbn [fst] in H1.
  pose proof (shr_fexp_nonneg _ e' loc_Exact
                (round_nearest_even_nonneg _ (loc_of_shr_record mrs') H1))
    as H2.
  destruct (shr_fexp F64.prec F64.emax
              (round_nearest_even (shr_m mrs') (loc_of_shr_record mrs')) e'
              loc_Exact) as [mrs'' e''].
  cbn [fst] in H2.
  destruct (shr_m mrs'') as [|p|p]; [reflexivity| |lia].
  destruct (Z.leb e'' (F64.emax - F64.prec)); reflexivity.
Qed.

Lemma binary_normalize_number (m e : Z) (szero : bool) :
  F64.isNaN (binary_normalize F64.prec F64.emax m e szero) = false.
Proof.
  unfold binary_normalize. destruct m as [|p|p]; [reflexivity| |];
    unfold binary_round;
    match goal with
    | |- context [shl_align ?a ?b ?c] => destruct (shl_align a b c) as [mz ez]
    end;
    apply binary_round_aux_number; lia.
Qed.

(** [1 - x] is a number as soon as [x] is. *)
Lemma one_minus_number (x : F64.number) :
  F64.isNaN x = false -> F64.isNaN (F64.sub (F64.ofZ 1) x) = false.
Proof.
  intros H. destruct x as [s|s| |s m e]; try discriminate H;
    try reflexivity.
  unfold F64.sub, F64.ofZ. 
  change (binary_normalize F64.prec F64.emax 1 0 false)
    with (S754_finite false 4503599627370496 (-52)).
  cbn [SFsub]. apply binary_normalize_number.
Qed.

(** *** [NaN] propagates *)

Lemma add_nan_l (y : F64.number) : F64.add F64.NaN y = F64.NaN.
Proof. destruct y; reflexivity. Qed.

Lemma mul_nan_l (y : F64.number) : F64.mul F64.NaN y = F64.NaN.
Proof. destruct y; reflexivity. Qed.

Lemma div_nan_l (y : F64.number) : F64.div F64.NaN y = F64.NaN.
Proof. destruct y; reflexivity. Qed.

End F64Facts.

(** ** The credibility scorer *)

Module ScoringFacts.

Import Scoring.
Local Open Scope Q_scope.

Lemma hundredth_round2 x : hundredth (inject_Z (JS.round (x * 100)) / 100).
Proof. exists (JS.round (x * 100)). reflexivity. Qed.

Lemma hundredth_Z (z : Z) : hundredth (inject_Z z).
Proof.
  exists (z * 100)%Z. rewrite inject_Z_mult. change (inject_Z 100) with 100.
  field.
Qed.

Lemma hundredth_plus a b : hundredth a -> hundredth b -> hundredth (a + b).
Proof.
  intros [x Hx] [y Hy]. exists (x + y)%Z.
  rewrite Hx, Hy, inject_Z_plus. field.
Qed.

Section Components.

Variable log10 : Q -> Q.
Variable now : Z.

Lemma calcProfitScore_bounds p : 0 <= calcProfitScore log10 p <= 40.
Proof.
  unfold calcProfitScore. destruct (JS.leb p 0); [lra|].
  apply (JSFacts.round2_bounds 40).
  - apply JSFacts.min_glb; [lra|]. apply JSFacts.max_le_l.
  - apply JSFacts.min_le_l.
Qed.

Lemma calcWinRateScore_bounds w m :
  0 <= w <= 100 -> 0 <= calcWinRateScore w m <= 25.
Proof.
  intros [Hw0 Hw1]. unfold calcWinRateScore.
  destruct (JS.eqb m 0); [lra|].
  apply (JSFacts.round2_bounds 25).
  - apply JSFacts.max_le_l.
  - apply JSFacts.max_lub; [change (inject_Z 25) with 25; lra|].
    change (inject_Z 25) with 25.
    pose proof (JSFacts.min_le_l 1 (m / 20)) as Hs.
    set (s := JS.min 1 (m / 20)) in *.
    assert (Ha : 0 <= w / 100 * 25 <= 25).
    { assert (E : w / 100 * 25 == w * (1 # 4)) by field. rewrite E. lra. }
    set (a := w / 100 * 25) in *.
    destruct (Qlt_le_dec s 0) as [Hneg|Hpos]; nra.
Qed.

Lemma calcVolumeScore_bounds m : 0 <= calcVolumeScore m <= 15.
Proof.
  unfold calcVolumeScore.
  destruct (JS.leb m 0) eqn:E0; [lra|].
  destruct (JS.leb 20 m && JS.leb m 200); [lra|].
  destruct (JS.ltb m 20) eqn:E1; [|lra].
  apply JSFacts.leb_false in E0. apply JSFacts.ltb_true in E1.
  assert (E : m / 20 * 15 == m * (3 # 4)) by field.
  apply (JSFacts.round2_bounds 15); change (inject_Z 15) with 15;
    rewrite E; lra.
Qed.

Lemma calcRecencyScore_cases d :
  calcRecencyScore now d = 10 \/ calcRecencyScore now d = 7 \/
  calcRecencyScore now d = 4 \/ calcRecencyScore now d = 0.
Proof.
  unfold calcRecencyScore. destruct d as [last|]; [|auto].
  repeat match goal with |- context [if ?c then _ else _] => destruct c end;
    auto.
Qed.

Lemma calcRecencyScore_bounds d : 0 <= calcRecencyScore now d <= 10.
Proof.
  destruct (calcRecencyScore_cases d) as [E|[E|[E|E]]]; rewrite E; lra.
Qed.

Lemma calcConvictionScore_bounds c a : 0 <= calcConvictionScore c a <= 10.
Proof.
  unfold calcConvictionScore.
  destruct (JS.leb a 0) eqn:Ea; [simpl; lra|].
  destruct (JS.leb c 0) eqn:Ec; [simpl; lra|]. simpl.
  apply JSFacts.leb_false in Ea. apply JSFacts.leb_false in Ec.
  apply (JSFacts.round2_bounds 10).
  - apply JSFacts.min_glb; [lra|].
    assert (0 <= c / a) by (apply Qle_shift_div_l; lra). lra.
  - apply JSFacts.min_le_l.
Qed.

Lemma calcProfitScore_hundredth p : hundredth (calcProfitScore log10 p).
Proof.
  unfold calcProfitScore. destruct (JS.leb p 0).
  - apply (hundredth_Z 0).
  - apply hundredth_round2.
Qed.

Lemma calcWinRateScore_hundredth w m : hundredth (calcWinRateScore w m).
Proof.
  unfold calcWinRateScore. destruct (JS.eqb m 0).
  - apply (hundredth_Z 0).
  - apply hundredth_round2.
Qed.

Lemma calcVolumeScore_hundredth m : hundredth (calcVolumeScore m).
Proof.
  unfold calcVolumeScore.
  destruct (JS.leb m 0); [apply (hundredth_Z 0)|].
  destruct (JS.leb 20 m && JS.leb m 200); [apply (hundredth_Z 15)|].
  destruct (JS.ltb m 20); [apply hundredth_round2 | apply (hundredth_Z 12)].
Qed.

Lemma calcRecencyScore_hundredth d : hundredth (calcRecencyScore now d).
Proof.
  destruct (calcRecencyScore_cases d) as [E|[E|[E|E]]]; rewrite E.
  - apply (hundredth_Z 10).
  - apply (hundredth_Z 7).
  - apply (hundredth_Z 4).
  - apply (hundredth_Z 0).
Qed.

Lemma calcConvictionScore_hundredth c a : hundredth (calcConvictionScore c a).
Proof.
  unfold calcConvictionScore.
  destruct (JS.leb a 0 || JS.leb c 0).
  - apply (hundredth_Z 0).
  - apply hundredth_round2.
Qed.

(** In exact arithmetic the final rounding changes nothing: the total is
    the plain sum of the five components. *)
Lemma total_is_sum h :
  let s := calculateCredibilityScore log10 now h in
  let b := breakdown s in
  total s == profit b + winRateScore b + volume b + recency b + conviction b.
Proof.
  cbv zeta. unfold calculateCredibilityScore. cbn [total breakdown profit
    winRateScore volume recency conviction].
  destruct (hundredth_plus _ _
    (hundredth_plus _ _
      (hundredth_plus _ _
        (hundredth_plus _ _ (calcProfitScore_hundredth (totalProfit h))
                            (calcWinRateScore_hundredth (winRate h) (totalMarkets h)))
        (calcVolumeScore_hundredth (totalMarkets h)))
      (calcRecencyScore_hundredth (lastTradeDate h)))
    (calcConvictionScore_hundredth (currentPositionSize h) (avgPositionSize h)))
    as [z Hz].
  apply (JSFacts.round2_hundredths _ z). exact Hz.
Qed.

End Components.

(** X9.  For every profile whose figures are finite numbers and whose win
    rate lies in [0,100], and whatever [Math.log10] and the clock return,
    the five components of the score lie in [0,40], [0,25], [0,15], [0,10]
    and [0,10]; the total is the sum of the five components rounded to two
    decimals, and it lies in [0,100]. *)
Theorem calculateCredibilityScore_bounds (log10 : Q -> Q) (now : Z)
    (h : Holder) :
  0 <= winRate h <= 100 ->
  let s := calculateCredibilityScore log10 now h in
  let b := breakdown s in
  0 <= profit b <= 40 /\
  0 <= winRateScore b <= 25 /\
  0 <= volume b <= 15 /\
  0 <= recency b <= 10 /\
  0 <= conviction b <= 10 /\
  total s = JS.round2 (profit b + winRateScore b + volume b + recency b +
                       conviction b) /\
  0 <= total s <= 100.
Proof.
  intros Hw s b.
  pose proof (calcProfitScore_bounds log10 (totalProfit h)) as Hp.
  pose proof (calcWinRateScore_bounds (winRate h) (totalMarkets h) Hw) as Hwr.
  pose proof (calcVolumeScore_bounds (totalMarkets h)) as Hv.
  pose proof (calcRecencyScore_bounds now (lastTradeDate h)) as Hr.
  pose proof (calcConvictionScore_bounds (currentPositionSize h)
                (avgPositionSize h)) as Hc.
  pose proof (total_is_sum log10 now h) as Hsum.
  fold s in Hsum. cbv zeta in Hsum. fold b in Hsum.
  assert (Eb : b = {| profit := calcProfitScore log10 (totalProfit h);
                      winRateScore := calcWinRateScore (winRate h) (totalMarkets h);
                      volume := calcVolumeScore (totalMarkets h);
                      recency := calcRecencyScore now (lastTradeDate h);
                      conviction := calcConvictionScore (currentPositionSize h)
                                      (avgPositionSize h) |}) by reflexivity.
  assert (Hp' : 0 <= profit b <= 40) by (rewrite Eb; exact Hp).
  assert (Hwr' : 0 <= winRateScore b <= 25) by (rewrite Eb; exact Hwr).
  assert (Hv' : 0 <= volume b <= 15) by (rewrite Eb; exact Hv).
  assert (Hr' : 0 <= recency b <= 10) by (rewrite Eb; exact Hr).
  assert (Hc' : 0 <= conviction b <= 10) by (rewrite Eb; exact Hc).
  repeat split; try tauto; try reflexivity.
  - rewrite Hsum. lra.
  - rewrite Hsum. lra.
Qed.

Lemma calculateCredibilityScore_bounds_witness :
  let s := calculateCredibilityScore Examples.floorLog10 (7 * Examples.day)
             Examples.trader in
  0 <= winRate Examples.trader <= 100 /\
  0 <= profit (breakdown s) <= 40 /\ 0 <= total s <= 100.
Proof.
  assert (Hw : 0 <= winRate Examples.trader <= 100)
    by (split; vm_compute; discriminate).
  pose proof (calculateCredibilityScore_bounds Examples.floorLog10
                (7 * Examples.day) Examples.trader Hw) as H.
  cbv zeta in *. tauto.
Defined.

End ScoringFacts.

(** ** Determinism of the scorer *)

Module ScoringClock.

Import Scoring.
Local Open Scope Q_scope.

(** C9, as the code has it.  The scorer reads the clock: whatever
    [Math.log10] is, the profit, win-rate, volume and conviction components
    are the same at any two clock readings, and two invocations on the same
    profile return the same score exactly when they compute the same recency
    component. *)
Theorem calculateCredibilityScore_clock (log10 : Q -> Q) (now1 now2 : Z)
    (h : Holder) :
  let s1 := calculateCredibilityScore log10 now1 h in
  let s2 := calculateCredibilityScore log10 now2 h in
  profit (breakdown s1) = profit (breakdown s2) /\
  winRateScore (breakdown s1) = winRateScore (breakdown s2) /\
  volume (breakdown s1) = volume (breakdown s2) /\
  conviction (breakdown s1) = conviction (breakdown s2) /\
  (s1 = s2 <->
   calcRecencyScore now1 (lastTradeDate h) =
   calcRecencyScore now2 (lastTradeDate h)).
Proof.
  cbv zeta. repeat split; try reflexivity.
  - intros E. apply (f_equal (fun s => recency (breakdown s))) in E.
    exact E.
  - intros E. unfold calculateCredibilityScore.
    cbn [profit winRateScore volume recency conviction]. rewrite E.
    reflexivity.
Qed.

(** C9 fails as stated: the same profile scored seven days and eight days
    after its last trade gets recency 10, then 7, and totals 43 and 40. *)
Lemma calculateCredibilityScore_not_pure :
  let s1 := calculateCredibilityScore Examples.floorLog10
              (7 * Examples.day) Examples.trader in
  let s2 := calculateCredibilityScore Examples.floorLog10
              (8 * Examples.day) Examples.trader in
  recency (breakdown s1) = 10 /\ recency (breakdown s2) = 7 /\
  Qred (total s1) = 43 /\ Qred (total s2) = 40 /\
  s1 <> s2.
Proof.
  cbv zeta. repeat split; try (vm_compute; reflexivity).
  intros E. apply (f_equal (fun s => recency (breakdown s))) in E.
  vm_compute in E. discriminate E.
Qed.

End ScoringClock.

(** ** The scorer on a profile that is not a number *)

Module DoubleScoringFacts.

Import Double.

Section WithHost.

Variable log10 : F64.number -> F64.number.
Variable now : Z.

(** C1.  On a profile whose total profit is [NaN] the bounds of the claim
    fail: with a [Math.log10] that maps [NaN] to [NaN], as the host's does,
    the profit component and the total of [calculateCredibilityScore] are
    [NaN], whatever the other fields and the clock are, so neither lies
    between 0 and its maximum (every comparison with [NaN] is false). *)
Theorem calculateCredibilityScore_not_a_number (h : Holder) :
  log10 F64.NaN = F64.NaN ->
  totalProfit h = F64.NaN ->
  let s := Scoring.calculateCredibilityScore log10 now h in
  profit (breakdown s) = F64.NaN /\
  total s = F64.NaN /\
  F64.leb F64.zero (profit (breakdown s)) = false /\
  F64.leb (profit (breakdown s)) (F64.ofZ 40) = false /\
  F64.leb F64.zero (total s) = false /\
  F64.leb (total s) (F64.ofZ 100) = false.
Proof.
  intros Hlog Hp s.
  assert (Ep : profit (breakdown s) = F64.NaN).
  { subst s. unfold Scoring.calculateCredibilityScore. cbn [breakdown profit].
    unfold Scoring.calcProfitScore. rewrite Hp.
    change (F64.leb F64.NaN F64.zero) with false. cbv iota.
    rewrite F64Facts.div_nan_l, Hlog, F64Facts.mul_nan_l.
    reflexivity. }
  assert (Et : total s = F64.NaN).
  { subst s. unfold Scoring.calculateCredibilityScore in *.
    cbn [breakdown profit winRateScore volume recency conviction total] in *.
    rewrite Ep, !F64Facts.add_nan_l, F64Facts.mul_nan_l. reflexivity. }
  rewrite Ep, Et. repeat split; reflexivity.
Qed.

End WithHost.

(** The pipeline builds such a profile: the leaderboard entry of the wallet
    carries the string "n/a" as its [pnl], [parseFloat] makes it [NaN], and
    the enricher takes the figure as the total profit.  The win rate of the
    profile is 0 and its position of $150 is above the floor of the
    pipeline's filter, so the profile is scored. *)
Lemma calculateCredibilityScore_not_a_number_witness :
  let h :=
    Analyze.enrichSingleHolder DoubleExamples.parseNumber
      DoubleExamples.parseNumber DoubleExamples.noCache
      DoubleExamples.unparsedLeaderboard DoubleExamples.noPositions
      DoubleExamples.noActivity DoubleExamples.noDates DoubleExamples.noon
      (DoubleExamples.largePartialOf "0xa1") in
  let s :=
    Scoring.calculateCredibilityScore DoubleExamples.log10
      (DoubleExamples.noon "0xa1") h in
  F64.leb F64.zero (winRate h) = true /\
  F64.leb (winRate h) (F64.ofZ 100) = true /\
  F64.leb (F64.ofZ 100) (currentPositionSize h) = true /\
  totalProfit h = F64.NaN /\
  profit (breakdown s) = F64.NaN /\
  total s = F64.NaN.
Proof.
  cbv zeta.
  split; [vm_compute; reflexivity|].
  split; [vm_compute; reflexivity|].
  split; [vm_compute; reflexivity|].
  assert (Hp : totalProfit
                 (Analyze.enrichSingleHolder DoubleExamples.parseNumber
                    DoubleExamples.parseNumber DoubleExamples.noCache
                    DoubleExamples.unparsedLeaderboard
                    DoubleExamples.noPositions DoubleExamples.noActivity
                    DoubleExamples.noDates DoubleExamples.noon
                    (DoubleExamples.largePartialOf "0xa1")) = F64.NaN)
    by (vm_compute; reflexivity).
  split; [exact Hp|].
  destruct (calculateCredibilityScore_not_a_number DoubleExamples.log10
              (DoubleExamples.noon "0xa1") _ eq_refl Hp) as (H1 & H2 & _).
  split; [exact H1 | exact H2].
Defined.

End DoubleScoringFacts.

(** ** The signal generator *)

Module SignalFacts.

Import SignalGen.
Local Open Scope Q_scope.

(** Past the two guards, the generator returns the computed record. *)
Lemma generateTradingSignal_main (l : list ScoredHolder) :
  (3 <= List.length l)%nat -> ~ totalValue l == 0 ->
  generateTradingSignal l =
  {| signal := decideSignal (yesPercentageOf l) (finalConfidence l);
     confidence := finalConfidence l;
     reasoning :=
       reasoningText l (decideSignal (yesPercentageOf l) (finalConfidence l));
     data := Some
       {| yesHolders := List.length (yesList l);
          noHolders := List.length (noList l);
          yesValue := inject_Z (JS.round (yesValueRaw l * 100)) / 100;
          noValue := inject_Z (JS.round (noValueRaw l * 100)) / 100;
          yesPercentage :=
            inject_Z (JS.round (yesPercentageOf l * 1000)) / 1000;
          whaleDetected :=
            match whale l with Some _ => true | None => false end;
          topHolders := List.map summary l |} |}.
Proof.
  intros Hlen Htot. unfold generateTradingSignal.
  assert (E1 : (List.length l <? 3)%nat = false) by (apply Nat.ltb_ge; lia).
  rewrite E1.
  assert (E2 : JS.eqb (totalValue l) 0 = false)
    by (apply JSFacts.eqb_false; exact Htot).
  rewrite E2. reflexivity.
Qed.

(** The decision step, as a characterisation of each outcome. *)
Lemma decide_BUY_YES (p : Q) (c : Z) :
  decideSignal p c = BUY_YES <-> (65 # 100) <= p /\ (5 <= c)%Z.
Proof.
  unfold decideSignal.
  destruct (JS.leb (65 # 100) p) eqn:E1; destruct (5 <=? c)%Z eqn:E2; cbn.
  - apply JSFacts.leb_true in E1. apply Z.leb_le in E2. tauto.
  - apply Z.leb_gt in E2. rewrite andb_false_r.
    split; [discriminate | lia].
  - apply JSFacts.leb_false in E1.
    destruct (JS.leb p (35 # 100)); cbn;
      (split; [discriminate | intros [H _]; exfalso; lra]).
  - apply Z.leb_gt in E2. rewrite andb_false_r.
    split; [discriminate | lia].
Qed.

Lemma decide_BUY_NO (p : Q) (c : Z) :
  decideSignal p c = BUY_NO <-> p <= (35 # 100) /\ (5 <= c)%Z.
Proof.
  unfold decideSignal.
  destruct (JS.leb (65 # 100) p) eqn:E1; destruct (5 <=? c)%Z eqn:E2; cbn.
  - apply JSFacts.leb_true in E1.
    split; [discriminate | intros [H _]; exfalso; lra].
  - apply Z.leb_gt in E2. rewrite andb_false_r.
    split; [discriminate | lia].
  - apply Z.leb_le in E2. rewrite andb_true_r.
    destruct (JS.leb p (35 # 100)) eqn:E3.
    + apply JSFacts.leb_true in E3. tauto.
    + apply JSFacts.leb_false in E3.
      split; [discriminate | intros [H _]; exfalso; lra].
  - apply Z.leb_gt in E2. rewrite andb_false_r.
    split; [discriminate | lia].
Qed.

Lemma decide_cases (p : Q) (c : Z) :
  decideSignal p c = BUY_YES \/ decideSignal p c = BUY_NO \/
  decideSignal p c = INCONCLUSIVE.
Proof.
  unfold decideSignal.
  destruct (JS.leb (65 # 100) p && (5 <=? c)%Z); [auto|].
  destruct (JS.leb p (35 # 100) && (5 <=? c)%Z); auto.
Qed.

Lemma decide_INCONCLUSIVE (p : Q) (c : Z) :
  decideSignal p c = INCONCLUSIVE <->
  ~ ((65 # 100) <= p /\ (5 <= c)%Z) /\ ~ (p <= (35 # 100) /\ (5 <= c)%Z).
Proof.
  rewrite <- decide_BUY_YES, <- decide_BUY_NO.
  destruct (decide_cases p c) as [E|[E|E]]; rewrite E;
    split; try discriminate; try tauto; try (split; discriminate).
Qed.

(** The whale, when there is one, is a wallet above the threshold, and
    there is one as soon as some wallet is above it. *)
Lemma whale_Some (l : list ScoredHolder) :
  (exists w, whale l = Some w) <->
  (exists h, In h l /\ totalValue l * (4 # 10) < weightedValue h).
Proof.
  unfold whale, whaleThreshold. split.
  - intros [w Hw]. apply List.find_some in Hw. destruct Hw as [Hin Hlt].
    exists w. split; [exact Hin|]. apply JSFacts.ltb_true. exact Hlt.
  - intros [h [Hin Hlt]].
    destruct (List.find
      (fun h0 => JS.ltb (totalValue l * (4 # 10)) (weightedValue h0)) l)
      as [w|] eqn:E.
    + exists w. reflexivity.
    + apply JSFacts.ltb_true in Hlt.
      rewrite (List.find_none _ _ E h Hin) in Hlt. discriminate Hlt.
Qed.

Lemma baseConfidence_cases (l : list ScoredHolder) :
  baseConfidence l = 9%Z \/ baseConfidence l = 7%Z \/
  baseConfidence l = 5%Z \/ baseConfidence l = 3%Z.
Proof.
  unfold baseConfidence.
  repeat match goal with |- context [if ?c then _ else _] => destruct c end;
    auto.
Qed.

(** The figures of the five-wallet example. *)
Section FiveWallets.

Variables h1 h2 h3 h4 h5 : ScoredHolder.
Hypothesis P1 : currentPosition (holder h1) = YES.
Hypothesis P2 : currentPosition (holder h2) = YES.
Hypothesis P3 : currentPosition (holder h3) = YES.
Hypothesis P4 : currentPosition (holder h4) = NO.
Hypothesis P5 : currentPosition (holder h5) = NO.
Hypothesis W1 : weightedValue h1 == 400.
Hypothesis W2 : weightedValue h2 == 200.
Hypothesis W3 : weightedValue h3 == 150.
Hypothesis W4 : weightedValue h4 == 150.
Hypothesis W5 : weightedValue h5 == 100.

Local Abbreviation l := [h1; h2; h3; h4; h5].

Lemma five_yesList : yesList l = [h1; h2; h3].
Proof.
  unfold yesList, holdsPosition. cbn [List.filter].
  rewrite P1, P2, P3, P4, P5. reflexivity.
Qed.

Lemma five_noList : noList l = [h4; h5].
Proof.
  unfold noList, holdsPosition. cbn [List.filter].
  rewrite P1, P2, P3, P4, P5. reflexivity.
Qed.

Lemma five_yesValue : yesValueW l == 750.
Proof.
  unfold yesValueW, sumBy. rewrite five_yesList. cbn [fold_left].
  rewrite W1, W2, W3. reflexivity.
Qed.

Lemma five_noValue : noValueW l == 250.
Proof.
  unfold noValueW, sumBy. rewrite five_noList. cbn [fold_left].
  rewrite W4, W5. reflexivity.
Qed.

Lemma five_totalValue : totalValue l == 1000.
Proof.
  unfold totalValue. rewrite five_yesValue, five_noValue. reflexivity.
Qed.

Lemma five_yesPercentage : yesPercentageOf l == (75 # 100).
Proof.
  unfold yesPercentageOf. rewrite five_yesValue, five_totalValue.
  reflexivity.
Qed.

Lemma five_dominance : dominance l = yesPercentageOf l.
Proof.
  pose proof five_yesPercentage as Hs. unfold dominance, JS.max.
  destruct (JS.leb (yesPercentageOf l) (1 - yesPercentageOf l)) eqn:E;
    [|reflexivity].
  apply JSFacts.leb_true in E. exfalso. lra.
Qed.

Lemma five_baseConfidence : baseConfidence l = 7%Z.
Proof.
  pose proof five_yesPercentage as Hs.
  unfold baseConfidence. rewrite five_dominance.
  assert (E1 : JS.ltb (80 # 100) (yesPercentageOf l) = false)
    by (apply JSFacts.ltb_false; lra).
  assert (E2 : JS.ltb (70 # 100) (yesPercentageOf l) = true)
    by (apply JSFacts.ltb_true; lra).
  rewrite E1, E2. reflexivity.
Qed.

Lemma five_no_whale : whale l = None.
Proof.
  pose proof five_totalValue as Ht.
  destruct (whale l) as [w|] eqn:E; [|reflexivity]. exfalso.
  destruct (proj1 (whale_Some l)) as [h [Hin Hlt]]; [exists w; exact E|].
  cbn [In] in Hin.
  destruct Hin as [<-|[<-|[<-|[<-|[<-|[]]]]]]; lra.
Qed.

Lemma five_no_boost : countBoost l = false.
Proof.
  unfold countBoost, countRatio, dominantCount.
  rewrite five_yesList, five_noList. reflexivity.
Qed.

End FiveWallets.

(** C5, as the code has it.  Five wallets with weighted values 400, 200,
    150, 150 and 100, the first three in YES and the last two in NO, give
    weighted YES 750, weighted NO 250, total 1000, a YES share and a
    dominance of 0.75, and, 0.75 being above 0.70, a base confidence of 7;
    no wallet is above the whale threshold and the count boost does not
    apply, so the generator returns BUY YES with confidence 7. *)
Theorem five_wallets_base_confidence (h1 h2 h3 h4 h5 : ScoredHolder) :
  currentPosition (holder h1) = YES ->
  currentPosition (holder h2) = YES ->
  currentPosition (holder h3) = YES ->
  currentPosition (holder h4) = NO ->
  currentPosition (holder h5) = NO ->
  weightedValue h1 == 400 -> weightedValue h2 == 200 ->
  weightedValue h3 == 150 -> weightedValue h4 == 150 ->
  weightedValue h5 == 100 ->
  let l := [h1; h2; h3; h4; h5] in
  yesValueW l == 750 /\ noValueW l == 250 /\ totalValue l == 1000 /\
  yesPercentageOf l == (75 # 100) /\ dominance l == (75 # 100) /\
  baseConfidence l = 7%Z /\
  whale l = None /\
  confidence (generateTradingSignal l) = 7%Z /\
  signal (generateTradingSignal l) = BUY_YES.
Proof.
  intros P1 P2 P3 P4 P5 W1 W2 W3 W4 W5 l.
  pose proof (five_yesValue h1 h2 h3 h4 h5 P1 P2 P3 P4 P5 W1 W2 W3) as Hy.
  pose proof (five_noValue h1 h2 h3 h4 h5 P1 P2 P3 P4 P5 W4 W5) as Hn.
  pose proof (five_totalValue h1 h2 h3 h4 h5 P1 P2 P3 P4 P5 W1 W2 W3 W4 W5)
    as Ht.
  pose proof (five_yesPercentage h1 h2 h3 h4 h5 P1 P2 P3 P4 P5 W1 W2 W3 W4 W5)
    as Hs.
  pose proof (five_dominance h1 h2 h3 h4 h5 P1 P2 P3 P4 P5 W1 W2 W3 W4 W5)
    as Hd.
  pose proof (five_baseConfidence h1 h2 h3 h4 h5 P1 P2 P3 P4 P5 W1 W2 W3 W4 W5)
    as Hb.
  pose proof (five_no_whale h1 h2 h3 h4 h5 P1 P2 P3 P4 P5 W1 W2 W3 W4 W5)
    as Hw.
  pose proof (five_no_boost h1 h2 h3 h4 h5 P1 P2 P3 P4 P5) as Hc.
  fold l in Hy, Hn, Ht, Hs, Hd, Hb, Hw, Hc.
  assert (Hf : finalConfidence l = 7%Z).
  { unfold finalConfidence, whaleConfidence. rewrite Hc, Hw. exact Hb. }
  assert (Hlen : (3 <= List.length l)%nat) by (cbn; lia).
  assert (Htot : ~ totalValue l == 0) by (rewrite Ht; discriminate).
  rewrite (generateTradingSignal_main l Hlen Htot). cbn [signal confidence].
  repeat split; try assumption.
  - rewrite Hd. exact Hs.
  - rewrite Hf. apply decide_BUY_YES. split; [lra | lia].
Qed.

Lemma five_wallets_base_confidence_witness :
  baseConfidence Examples.fiveWallets = 7%Z /\
  signal (generateTradingSignal Examples.fiveWallets) = BUY_YES.
Proof.
  pose proof (five_wallets_base_confidence
    (Examples.scored "0xa1" YES 800) (Examples.scored "0xa2" YES 400)
    (Examples.scored "0xa3" YES 300) (Examples.scored "0xa4" NO 300)
    (Examples.scored "0xa5" NO 200)
    eq_refl eq_refl eq_refl eq_refl eq_refl
    eq_refl eq_refl eq_refl eq_refl eq_refl) as H.
  cbv zeta in H. unfold Examples.fiveWallets. tauto.
Defined.

(** C5 fails as stated: on such an input the base confidence is not 5. *)
Lemma five_wallets_base_confidence_not_5 :
  List.map (fun h => Qred (weightedValue h)) Examples.fiveWallets =
    [400; 200; 150; 150; 100] /\
  List.map (fun h => currentPosition (holder h)) Examples.fiveWallets =
    [YES; YES; YES; NO; NO] /\
  Qred (dominance Examples.fiveWallets) = (3 # 4) /\
  baseConfidence Examples.fiveWallets = 7%Z /\
  baseConfidence Examples.fiveWallets <> 5%Z.
Proof.
  repeat split; try (vm_compute; reflexivity).
  vm_compute. discriminate.
Qed.

End SignalFacts.

(** ** The signal generator on doubles *)

Module DoubleSignalFacts.

Import Double Double.SignalGen.

Lemma whale_found (l : list ScoredHolder) :
  (exists w, whale l = Some w) <->
  (exists h, In h l /\ F64.ltb (whaleThreshold l) (weightedValue h) = true).
Proof.
  unfold whale. split.
  - intros [w Hw]. apply List.find_some in Hw. exists w. exact Hw.
  - intros [h [Hin Hlt]].
    destruct (List.find (fun h0 => F64.ltb (whaleThreshold l) (weightedValue h0)) l)
      as [w|] eqn:E.
    + exists w. reflexivity.
    + rewrite (List.find_none _ _ E h Hin) in Hlt. discriminate Hlt.
Qed.

Lemma whale_flag (l : list ScoredHolder) :
  match whale l with Some _ => true | None => false end = true <->
  exists h, In h l /\ F64.ltb (whaleThreshold l) (weightedValue h) = true.
Proof.
  rewrite <- whale_found. destruct (whale l) as [w|].
  - split; [intros _; exists w; reflexivity | reflexivity].
  - split; [discriminate | intros [w E]; discriminate E].
Qed.

Lemma baseConfidence_values (l : list ScoredHolder) :
  baseConfidence l = 9%Z \/ baseConfidence l = 7%Z \/
  baseConfidence l = 5%Z \/ baseConfidence l = 3%Z.
Proof.
  unfold baseConfidence.
  repeat match goal with |- context [if ?c then _ else _] => destruct c end;
    auto.
Qed.

(** The confidence gate is open right after the brackets exactly when the
    dominance is above 0.60. *)
Lemma baseConfidence_gate (l : list ScoredHolder) :
  (5 <= baseConfidence l)%Z <->
  F64.ltb (F64.lit 60 100) (dominance l) = true.
Proof.
  unfold baseConfidence.
  destruct (F64.ltb (F64.lit 80 100) (dominance l)) eqn:E80.
  - assert (Hlt : F64.ltb (F64.lit 60 100) (F64.lit 80 100) = true)
      by (vm_compute; reflexivity).
    rewrite (F64Facts.ltb_trans _ _ _ Hlt E80). split; [reflexivity | lia].
  - destruct (F64.ltb (F64.lit 70 100) (dominance l)) eqn:E70.
    + assert (Hlt : F64.ltb (F64.lit 60 100) (F64.lit 70 100) = true)
        by (vm_compute; reflexivity).
      rewrite (F64Facts.ltb_trans _ _ _ Hlt E70). split; [reflexivity | lia].
    + destruct (F64.ltb (F64.lit 60 100) (dominance l));
        split; try reflexivity; try lia; discriminate.
Qed.

(** No number is both at least 0.65 and at most 0.35. *)
Lemma thresholds_apart (p : F64.number) :
  F64.leb (F64.lit 65 100) p = true -> F64.leb p (F64.lit 35 100) = false.
Proof.
  intros H. destruct (F64.leb p (F64.lit 35 100)) eqn:E; [|reflexivity].
  pose proof (F64Facts.leb_trans _ _ _ H E) as Hc.
  vm_compute in Hc. discriminate Hc.
Qed.

Lemma decideSignal_BUY_YES (p : F64.number) (c : Z) :
  decideSignal p c = BUY_YES <->
  F64.leb (F64.lit 65 100) p = true /\ (5 <= c)%Z.
Proof.
  unfold decideSignal.
  destruct (F64.leb (F64.lit 65 100) p) eqn:E1;
    destruct (5 <=? c)%Z eqn:E2; cbn [andb].
  - apply Z.leb_le in E2. tauto.
  - apply Z.leb_gt in E2. rewrite andb_false_r.
    split; [discriminate | lia].
  - destruct (F64.leb p (F64.lit 35 100)); cbn [andb];
      (split; [discriminate | intros [H _]; discriminate H]).
  - rewrite andb_false_r. split; [discriminate | intros [H _]; discriminate H].
Qed.

Lemma decideSignal_BUY_NO (p : F64.number) (c : Z) :
  decideSignal p c = BUY_NO <->
  F64.leb p (F64.lit 35 100) = true /\ (5 <= c)%Z.
Proof.
  unfold decideSignal.
  destruct (F64.leb (F64.lit 65 100) p) eqn:E1.
  - rewrite (thresholds_apart p E1). cbn [andb].
    destruct (5 <=? c)%Z; (split; [discriminate | intros [H _]; discriminate H]).
  - cbn [andb]. destruct (F64.leb p (F64.lit 35 100)) eqn:E3; cbn [andb].
    + destruct (5 <=? c)%Z eqn:E2.
      * apply Z.leb_le in E2. tauto.
      * apply Z.leb_gt in E2. split; [discriminate | lia].
    + split; [discriminate | intros [H _]; discriminate H].
Qed.

Lemma decideSignal_values (p : F64.number) (c : Z) :
  decideSignal p c = BUY_YES \/ decideSignal p c = BUY_NO \/
  decideSignal p c = INCONCLUSIVE.
Proof.
  unfold decideSignal.
  destruct (F64.leb (F64.lit 65 100) p && (5 <=? c)%Z); [auto|].
  destruct (F64.leb p (F64.lit 35 100) && (5 <=? c)%Z); auto.
Qed.

Lemma decideSignal_INCONCLUSIVE (p : F64.number) (c : Z) :
  decideSignal p c = INCONCLUSIVE <->
  ~ (F64.leb (F64.lit 65 100) p = true /\ (5 <= c)%Z) /\
  ~ (F64.leb p (F64.lit 35 100) = true /\ (5 <= c)%Z).
Proof.
  rewrite <- decideSignal_BUY_YES, <- decideSignal_BUY_NO.
  destruct (decideSignal_values p c) as [E|[E|E]]; rewrite E;
    split; try discriminate; try tauto; try (split; discriminate).
Qed.

Section WithHost.

Variable toFixed : F64.number -> nat -> string.
Variable toText : F64.number -> string.

Local Abbreviation generate := (generateTradingSignal toFixed toText).

(** Past the two guards, the generator returns the computed record. *)
Lemma generateTradingSignal_past_guards (l : list ScoredHolder) :
  (3 <= List.length l)%nat -> F64.eqb (totalValue l) F64.zero = false ->
  generate l =
  {| signal := decideSignal (yesPercentageOf l) (finalConfidence l);
     confidence := finalConfidence l;
     reasoning :=
       reasoningText toFixed toText l
         (decideSignal (yesPercentageOf l) (finalConfidence l));
     data := Some
       {| yesHolders := List.length (yesList l);
          noHolders := List.length (noList l);
          yesValue := F64.round2 (yesValueRaw l);
          noValue := F64.round2 (noValueRaw l);
          yesPercentage :=
            F64.div (F64.round (F64.mul (yesPercentageOf l) (F64.ofZ 1000)))
                    (F64.ofZ 1000);
          whaleDetected :=
            match whale l with Some _ => true | None => false end;
          topHolders := List.map summary l |} |}.
Proof.
  intros Hlen Htot. unfold generateTradingSignal.
  assert (E1 : (List.length l <? 3)%nat = false) by (apply Nat.ltb_ge; lia).
  rewrite E1, Htot. reflexivity.
Qed.

(** C2.  The decision, on the share the generator computes.  For at least
    three wallets whose combined weighted value is not zero, let the weight
    of a wallet be the double product [size * (score / 100)], the YES and NO
    values the running double sums of the weights, and the YES share the
    double quotient of the YES value by their sum.  Then the signal is BUY
    YES exactly when [0.65 <= share] and the returned confidence is at least
    5, BUY NO exactly when [share <= 0.35] and the returned confidence is at
    least 5, and INCONCLUSIVE exactly when neither holds; in particular it
    is INCONCLUSIVE whenever the returned confidence is below 5, whatever
    the share. *)
Theorem generateTradingSignal_rounded_share (l : list ScoredHolder) :
  (3 <= List.length l)%nat ->
  let weightedValue := fun h : ScoredHolder =>
    F64.mul (currentPositionSize (holder h))
            (F64.div (total (credibilityScore h)) (F64.ofZ 100)) in
  let valueOf := fun p : Position =>
    fold_left (fun sum h => F64.add sum (weightedValue h))
      (List.filter (fun h => Position_eqb (currentPosition (holder h)) p) l)
      F64.zero in
  let totalValue := F64.add (valueOf YES) (valueOf NO) in
  let yesPercentage := F64.div (valueOf YES) totalValue in
  F64.eqb totalValue F64.zero = false ->
  let r := generate l in
  (signal r = BUY_YES <->
     F64.leb (F64.lit 65 100) yesPercentage = true /\ (5 <= confidence r)%Z) /\
  (signal r = BUY_NO <->
     F64.leb yesPercentage (F64.lit 35 100) = true /\ (5 <= confidence r)%Z) /\
  (signal r = INCONCLUSIVE <->
     ~ (F64.leb (F64.lit 65 100) yesPercentage = true /\
        (5 <= confidence r)%Z) /\
     ~ (F64.leb yesPercentage (F64.lit 35 100) = true /\
        (5 <= confidence r)%Z)) /\
  ((confidence r < 5)%Z -> signal r = INCONCLUSIVE).
Proof.
  intros Hlen weight valueOf total share Htot r. subst r.
  rewrite (generateTradingSignal_past_guards l Hlen Htot).
  cbn [signal confidence].
  change share with (yesPercentageOf l).
  split; [apply decideSignal_BUY_YES|].
  split; [apply decideSignal_BUY_NO|].
  split; [apply decideSignal_INCONCLUSIVE|].
  intros Hc. apply decideSignal_INCONCLUSIVE. split; intros [_ H]; lia.
Qed.

(** C4.  The whale flag, on the figures the generator computes.  With the
    weight of a wallet the double product [size * (score / 100)], the total
    value the double sum of the running YES and NO sums and the threshold
    the double product [totalValue * 0.4], the flag is set exactly when the
    weight of some wallet is above the threshold, and so is not set when
    every weight is at or below it.  When it is set, the returned confidence
    is the bracket value lowered by 3, but not below 1, plus 1 if the
    count boost applies; when it is not set, the bracket value raised by the
    count boost, if it applies, to at most 10. *)
Theorem generateTradingSignal_whale_rounded (l : list ScoredHolder) :
  (3 <= List.length l)%nat ->
  let weightedValue := fun h : ScoredHolder =>
    F64.mul (currentPositionSize (holder h))
            (F64.div (total (credibilityScore h)) (F64.ofZ 100)) in
  let listOf := fun p : Position =>
    List.filter (fun h => Position_eqb (currentPosition (holder h)) p) l in
  let valueOf := fun p : Position =>
    fold_left (fun sum h => F64.add sum (weightedValue h)) (listOf p)
      F64.zero in
  let totalValue := F64.add (valueOf YES) (valueOf NO) in
  let whaleThreshold := F64.mul totalValue (F64.lit 4 10) in
  let yesPercentage := F64.div (valueOf YES) totalValue in
  let dominance :=
    F64.max yesPercentage (F64.sub (F64.ofZ 1) yesPercentage) in
  let bracket :=
    if F64.ltb (F64.lit 80 100) dominance then 9%Z
    else if F64.ltb (F64.lit 70 100) dominance then 7%Z
    else if F64.ltb (F64.lit 60 100) dominance then 5%Z
    else 3%Z in
  let countRatio :=
    F64.div
      (F64.ofNat (Nat.max (List.length (listOf YES)) (List.length (listOf NO))))
      (F64.ofNat (List.length l)) in
  let boost :=
    F64.leb (F64.lit 80 100) countRatio && (5 <=? List.length l)%nat in
  F64.eqb totalValue F64.zero = false ->
  let r := generate l in
  exists d, data r = Some d /\
  (whaleDetected d = true <->
   exists h, In h l /\ F64.ltb whaleThreshold (weightedValue h) = true) /\
  ((forall h, In h l -> F64.ltb whaleThreshold (weightedValue h) = false) ->
   whaleDetected d = false) /\
  (whaleDetected d = true ->
   confidence r = (Z.max 1 (bracket - 3) + if boost then 1 else 0)%Z) /\
  (whaleDetected d = false ->
   confidence r = if boost then Z.min 10 (bracket + 1) else bracket).
Proof.
  intros Hlen weight listOf valueOf total threshold share dom bracket ratio
    boost Htot r.
  subst r. rewrite (generateTradingSignal_past_guards l Hlen Htot).
  cbn [data confidence].
  eexists. split; [reflexivity|]. cbn [whaleDetected].
  pose proof (whale_flag l) as Hflag.
  change (SignalGen.whaleThreshold l) with threshold in Hflag.
  change SignalGen.weightedValue with weight in Hflag.
  split; [exact Hflag|].
  split.
  { intros Hall. destruct (whale l) as [w|]; [|reflexivity].
    destruct Hflag as [Hflag _]. destruct (Hflag eq_refl) as [h [Hin Hlt]].
    rewrite (Hall h Hin) in Hlt. discriminate Hlt. }
  unfold finalConfidence, whaleConfidence.
  change (baseConfidence l) with bracket.
  change (countBoost l) with boost.
  assert (Hb : bracket = 9%Z \/ bracket = 7%Z \/ bracket = 5%Z \/
               bracket = 3%Z) by apply (baseConfidence_values l).
  destruct (whale l) as [w|]; split; try discriminate; intros _.
  - destruct Hb as [E|[E|[E|E]]]; rewrite E; destruct boost; reflexivity.
  - reflexivity.
Qed.

(** X8.  A wallet above the whale threshold blocks a moderate lean.  For
    at least three wallets whose combined weighted value is not zero, with
    the weights, sums, share and dominance as the generator computes them
    in doubles: if some wallet's weight is above [totalValue * 0.4] and the
    dominance is not above 0.70, or it is not above 0.80 and the count
    boost does not apply, then the signal is INCONCLUSIVE and the
    confidence lies between 1 and 4. *)
Theorem whale_blocks_lean_rounded (l : list ScoredHolder) :
  (3 <= List.length l)%nat ->
  let weightedValue := fun h : ScoredHolder =>
    F64.mul (currentPositionSize (holder h))
            (F64.div (total (credibilityScore h)) (F64.ofZ 100)) in
  let listOf := fun p : Position =>
    List.filter (fun h => Position_eqb (currentPosition (holder h)) p) l in
  let valueOf := fun p : Position =>
    fold_left (fun sum h => F64.add sum (weightedValue h)) (listOf p)
      F64.zero in
  let totalValue := F64.add (valueOf YES) (valueOf NO) in
  let yesPercentage := F64.div (valueOf YES) totalValue in
  let dominance :=
    F64.max yesPercentage (F64.sub (F64.ofZ 1) yesPercentage) in
  let countRatio :=
    F64.div
      (F64.ofNat (Nat.max (List.length (listOf YES)) (List.length (listOf NO))))
      (F64.ofNat (List.length l)) in
  let boost :=
    F64.leb (F64.lit 80 100) countRatio && (5 <=? List.length l)%nat in
  F64.eqb totalValue F64.zero = false ->
  (exists h, In h l /\
     F64.ltb (F64.mul totalValue (F64.lit 4 10)) (weightedValue h) = true) ->
  F64.ltb (F64.lit 70 100) dominance = false \/
  (F64.ltb (F64.lit 80 100) dominance = false /\ boost = false) ->
  let r := generate l in
  signal r = INCONCLUSIVE /\ (1 <= confidence r <= 4)%Z.
Proof.
  intros Hlen weight listOf valueOf total share dom ratio boost Htot Hwhale
    Hdom r.
  subst r. rewrite (generateTradingSignal_past_guards l Hlen Htot).
  cbn [signal confidence].
  assert (Hw : exists w, whale l = Some w) by (apply whale_found; exact Hwhale).
  destruct Hw as [w Hw].
  assert (Hc : (1 <= finalConfidence l <= 4)%Z).
  { unfold finalConfidence, whaleConfidence. rewrite Hw.
    change (countBoost l) with boost.
    unfold baseConfidence. change (SignalGen.dominance l) with dom.
    destruct Hdom as [H70 | [H80 Hboost]].
    - assert (H80 : F64.ltb (F64.lit 80 100) dom = false).
      { destruct (F64.ltb (F64.lit 80 100) dom) eqn:E; [|reflexivity].
        assert (Hlt : F64.ltb (F64.lit 70 100) (F64.lit 80 100) = true)
          by (vm_compute; reflexivity).
        rewrite (F64Facts.ltb_trans _ _ _ Hlt E) in H70. discriminate H70. }
      rewrite H80, H70.
      destruct (F64.ltb (F64.lit 60 100) dom); destruct boost; lia.
    - rewrite H80, Hboost.
      destruct (F64.ltb (F64.lit 70 100) dom);
        [|destruct (F64.ltb (F64.lit 60 100) dom)]; lia. }
  split; [|exact Hc].
  apply decideSignal_INCONCLUSIVE. split; intros [_ H]; lia.
Qed.

(** X10.  Without a whale the confidence gate does not hold back a YES
    lean.  For at least three wallets whose combined weighted value is not
    zero, with the weights, sums, share and dominance as the generator
    computes them in doubles: if no wallet's weight is above
    [totalValue * 0.4], the signal is BUY YES exactly when
    [0.65 <= share], and BUY NO exactly when [share <= 0.35] and the
    dominance is above 0.60. *)
Theorem no_whale_share_decides_rounded (l : list ScoredHolder) :
  (3 <= List.length l)%nat ->
  let weightedValue := fun h : ScoredHolder =>
    F64.mul (currentPositionSize (holder h))
            (F64.div (total (credibilityScore h)) (F64.ofZ 100)) in
  let valueOf := fun p : Position =>
    fold_left (fun sum h => F64.add sum (weightedValue h))
      (List.filter (fun h => Position_eqb (currentPosition (holder h)) p) l)
      F64.zero in
  let totalValue := F64.add (valueOf YES) (valueOf NO) in
  let yesPercentage := F64.div (valueOf YES) totalValue in
  let dominance :=
    F64.max yesPercentage (F64.sub (F64.ofZ 1) yesPercentage) in
  F64.eqb totalValue F64.zero = false ->
  (forall h, In h l ->
     F64.ltb (F64.mul totalValue (F64.lit 4 10)) (weightedValue h) = false) ->
  let r := generate l in
  (signal r = BUY_YES <-> F64.leb (F64.lit 65 100) yesPercentage = true) /\
  (signal r = BUY_NO <->
     F64.leb yesPercentage (F64.lit 35 100) = true /\
     F64.ltb (F64.lit 60 100) dominance = true).
Proof.
  intros Hlen weight valueOf total share dom Htot Hnone r. subst r.
  rewrite (generateTradingSignal_past_guards l Hlen Htot).
  cbn [signal].
  assert (Hw : whale l = None).
  { destruct (whale l) as [w|] eqn:E; [|reflexivity]. exfalso.
    destruct (proj1 (whale_found l)) as [h [Hin Hlt]];
      [exists w; exact E|].
    change (whaleThreshold l) with (F64.mul total (F64.lit 4 10)) in Hlt.
    change (SignalGen.weightedValue h) with (weight h) in Hlt.
    rewrite (Hnone h Hin) in Hlt. discriminate Hlt. }
  assert (Hc : (5 <= finalConfidence l)%Z <->
               F64.ltb (F64.lit 60 100) (SignalGen.dominance l) = true).
  { rewrite <- (baseConfidence_gate l).
    unfold finalConfidence, whaleConfidence. rewrite Hw.
    destruct (baseConfidence_values l) as [E|[E|[E|E]]]; rewrite E;
      destruct (countBoost l); lia. }
  change (SignalGen.dominance l) with dom in Hc.
  change (yesPercentageOf l) with share.
  rewrite decideSignal_BUY_YES, decideSignal_BUY_NO, Hc.
  split; [|reflexivity].
  split; [tauto|]. intros Hs. split; [exact Hs|].
  assert (Hlt : F64.ltb (F64.lit 60 100) (F64.lit 65 100) = true)
    by (vm_compute; reflexivity).
  apply F64Facts.ltb_max_l.
  - apply (F64Facts.ltb_leb_trans _ _ _ Hlt Hs).
  - apply F64Facts.one_minus_number.
    apply (F64Facts.leb_not_nan _ _ Hs).
Qed.

End WithHost.

(** Three wallets whose exact YES share is 0.70: the generator flags the
    second as a whale, the confidence comes out as 4 and the signal as
    INCONCLUSIVE. *)
Lemma generateTradingSignal_rounded_share_witness :
  let l := DoubleExamples.seventyPercent in
  let r := generateTradingSignal DoubleExamples.toFixed DoubleExamples.toText l in
  (3 <= List.length l)%nat /\
  option_map Qred (realShare l) = Some (7 # 10)%Q /\
  confidence r = 4%Z /\ signal r = INCONCLUSIVE.
Proof.
  cbv zeta.
  assert (H1 : (3 <= List.length DoubleExamples.seventyPercent)%nat)
    by (vm_compute; lia).
  destruct (generateTradingSignal_rounded_share
              DoubleExamples.toFixed DoubleExamples.toText
              DoubleExamples.seventyPercent H1)
    as (_ & _ & _ & Hlow); [vm_compute; reflexivity|].
  split; [exact H1|]. split; [vm_compute; reflexivity|].
  split; [vm_compute; reflexivity|].
  apply Hlow. vm_compute. reflexivity.
Defined.

(** C2, as worded, fails.  Three wallets of score 55 with $350 in YES and
    $300 and $350 in NO have an exact YES share of 0.35 and a returned
    confidence of 5, but the share the generator computes is
    0.35000000000000003, so the signal is INCONCLUSIVE and not BUY NO. *)
Lemma generateTradingSignal_share_035 :
  let l := DoubleExamples.thirtyFivePercent in
  let r := generateTradingSignal DoubleExamples.toFixed DoubleExamples.toText l in
  (3 <= List.length l)%nat /\
  (exists share, realShare l = Some share /\ (share == 35 # 100)%Q) /\
  F64.eqb (SignalGen.totalValue l) F64.zero = false /\
  confidence r = 5%Z /\
  signal r = INCONCLUSIVE /\ signal r <> BUY_NO.
Proof.
  cbv zeta. split; [vm_compute; lia|]. split.
  { eexists. split; [vm_compute; reflexivity|]. reflexivity. }
  split; [vm_compute; reflexivity|].
  split; [vm_compute; reflexivity|].
  split; [vm_compute; reflexivity|].
  vm_compute. discriminate.
Qed.

Lemma generateTradingSignal_whale_rounded_witness :
  let l := DoubleExamples.seventyPercent in
  let r := generateTradingSignal DoubleExamples.toFixed DoubleExamples.toText l in
  (3 <= List.length l)%nat /\
  exists d, data r = Some d /\ whaleDetected d = true /\ confidence r = 4%Z.
Proof.
  cbv zeta.
  assert (H1 : (3 <= List.length DoubleExamples.seventyPercent)%nat)
    by (vm_compute; lia).
  split; [exact H1|].
  destruct (generateTradingSignal_whale_rounded
              DoubleExamples.toFixed DoubleExamples.toText
              DoubleExamples.seventyPercent H1)
    as (d & Hd & _ & _ & Hc & _); [vm_compute; reflexivity|].
  exists d. split; [exact Hd|].
  assert (Hf : whaleDetected d = true).
  { vm_compute in Hd. injection Hd as <-. reflexivity. }
  split; [exact Hf|]. rewrite (Hc Hf). vm_compute. reflexivity.
Defined.

(** C4, as worded, fails.  Of five wallets of score 55 holding $400, $200
    and $150 in YES and $150 and $100 in NO, the first has exactly 40% of
    the combined weight (220 of 550) and none has more; yet its weight is
    computed as 220.00000000000003 and the threshold as 220, so the flag is
    set and the confidence drops from 7 to 4. *)
Lemma generateTradingSignal_whale_at_40_percent :
  let l := DoubleExamples.fortyPercent in
  let r := generateTradingSignal DoubleExamples.toFixed DoubleExamples.toText l in
  (exists first total,
     option_map realWeight (List.hd_error l) = Some (Some first) /\
     realSum l = Some total /\
     (first == total * (40 # 100))%Q /\
     forall h w, In h l -> realWeight h = Some w ->
                 (w <= total * (40 # 100))%Q) /\
  option_map whaleDetected (data r) = Some true /\
  SignalGen.baseConfidence l = 7%Z /\
  confidence r = 4%Z /\
  signal r = INCONCLUSIVE.
Proof.
  cbv zeta. split.
  { eexists. eexists. split; [vm_compute; reflexivity|].
    split; [vm_compute; reflexivity|]. split; [reflexivity|].
    intros h w Hin Hw. cbn [In DoubleExamples.fortyPercent] in Hin.
    destruct Hin as [<-|[<-|[<-|[<-|[<-|[]]]]]];
      vm_compute in Hw; injection Hw as <-; vm_compute; discriminate. }
  repeat split; vm_compute; reflexivity.
Qed.

Lemma whale_blocks_lean_rounded_witness :
  let l := DoubleExamples.fortyPercent in
  let r := generateTradingSignal DoubleExamples.toFixed DoubleExamples.toText l in
  signal r = INCONCLUSIVE /\ (1 <= confidence r <= 4)%Z.
Proof.
  cbv zeta.
  apply (whale_blocks_lean_rounded DoubleExamples.toFixed
           DoubleExamples.toText DoubleExamples.fortyPercent).
  - vm_compute. lia.
  - vm_compute. reflexivity.
  - exists (DoubleExamples.scored "0xc1" YES 400 55).
    split; [left; reflexivity | vm_compute; reflexivity].
  - right. split; vm_compute; reflexivity.
Defined.

(** At score 50 the same five sizes give exact weights: the first is at the
    threshold and not above it, no whale is flagged, and the 75% share
    decides: BUY YES. *)
Lemma no_whale_share_decides_rounded_witness :
  let l := DoubleExamples.fortyPercentExact in
  let r := generateTradingSignal DoubleExamples.toFixed DoubleExamples.toText l in
  (3 <= List.length l)%nat /\ signal r = BUY_YES.
Proof.
  cbv zeta.
  assert (H1 : (3 <= List.length DoubleExamples.fortyPercentExact)%nat)
    by (vm_compute; lia).
  split; [exact H1|].
  destruct (no_whale_share_decides_rounded DoubleExamples.toFixed
              DoubleExamples.toText DoubleExamples.fortyPercentExact H1)
    as [[_ Hyes] _].
  - vm_compute. reflexivity.
  - intros h Hin. cbn [In DoubleExamples.fortyPercentExact] in Hin.
    destruct Hin as [<-|[<-|[<-|[<-|[<-|[]]]]]]; vm_compute; reflexivity.
  - apply Hyes. vm_compute. reflexivity.
Defined.

(** Rounding can also open a bracket.  With $800 in YES against $150 and
    $50 in NO at score 55 the exact dominance is 0.80, not above 0.80, but
    it is computed as 0.8000000000000002: the bracket value is 9, the whale
    lowers the confidence to 6, and the signal is BUY YES. *)
Example generateTradingSignal_share_080 :
  let l := DoubleExamples.eightyPercent in
  let r := generateTradingSignal DoubleExamples.toFixed DoubleExamples.toText l in
  option_map Qred (realShare l) = Some (4 # 5)%Q /\
  F64.ltb (F64.lit 80 100) (SignalGen.dominance l) = true /\
  option_map whaleDetected (data r) = Some true /\
  confidence r = 6%Z /\
  signal r = BUY_YES.
Proof. cbv zeta. repeat split; vm_compute; reflexivity. Qed.

End DoubleSignalFacts.

(** ** Truthiness of strings *)

Module ApiFacts.

Local Open Scope Q_scope.

Lemma truthy_false (s : string) : Str.truthy s = false <-> s = ""%string.
Proof.
  unfold Str.truthy. rewrite negb_false_iff. apply String.eqb_eq.
Qed.

End ApiFacts.

(** ** The profile enricher *)

Module EnrichFacts.

Import Analyze.
Local Open Scope Q_scope.

Lemma enrichBatches_all
    (leaderboardCache : string -> option LeaderboardStats)
    (leaderboardApi : string -> option LeaderboardData)
    (fetchUserPositions : string -> nat -> list UserPosition)
    (fetchUserActivity : string -> list Activity)
    (parseDate : string -> Date) (clock : string -> Z)
    (fuel : nat) (rest : list PartialHolder) (results : list Holder)
    (incomplete : nat) :
  (List.length rest <= fuel)%nat ->
  fst (enrichBatches leaderboardCache leaderboardApi fetchUserPositions
         fetchUserActivity parseDate clock fuel rest results incomplete) =
  results ++
  List.map (enrichSingleHolder leaderboardCache leaderboardApi
              fetchUserPositions fetchUserActivity parseDate clock) rest.
Proof.
  revert rest results incomplete.
  induction fuel as [|fuel IH]; intros rest results incomplete Hlen.
  - destruct rest; [|cbn in Hlen; lia]. cbn. rewrite List.app_nil_r.
    reflexivity.
  - destruct rest as [|p rest'].
    + cbn. rewrite List.app_nil_r. reflexivity.
    + cbn [enrichBatches]. rewrite IH.
      * rewrite <- List.app_assoc, <- List.map_app, List.firstn_skipn.
        reflexivity.
      * rewrite List.length_skipn. unfold CONCURRENCY. cbn in Hlen |- *. lia.
Qed.

(** The batches run to the end: every wallet is enriched, in input order. *)
Lemma enrichHolders_all
    (leaderboardCache : string -> option LeaderboardStats)
    (leaderboardApi : string -> option LeaderboardData)
    (fetchUserPositions : string -> nat -> list UserPosition)
    (fetchUserActivity : string -> list Activity)
    (parseDate : string -> Date) (clock : string -> Z)
    (partialHolders : list PartialHolder) :
  fst (enrichHolders leaderboardCache leaderboardApi fetchUserPositions
         fetchUserActivity parseDate clock partialHolders) =
  List.map (enrichSingleHolder leaderboardCache leaderboardApi
              fetchUserPositions fetchUserActivity parseDate clock)
           partialHolders.
Proof.
  unfold enrichHolders.
  pose proof (enrichBatches_all leaderboardCache leaderboardApi
                fetchUserPositions fetchUserActivity parseDate clock
                (List.length partialHolders) partialHolders [] 0
                (Nat.le_refl _)) as H.
  destruct (enrichBatches leaderboardCache leaderboardApi fetchUserPositions
              fetchUserActivity parseDate clock (List.length partialHolders)
              partialHolders [] 0) as [results incompleteProfiles].
  cbn in H |- *. exact H.
Qed.

End EnrichFacts.

(** ** The profit of a wallet the leaderboard does not know *)

Module DoubleEnrichFacts.

Import Double Double.Analyze.

Section Enrich.

Variable parseFloat : Json -> F64.number.
Variable parseInt : Json -> F64.number.
Variable leaderboardCache : string -> option LeaderboardStats.
Variable leaderboardApi : string -> option LeaderboardData.
Variable fetchUserPositions : string -> nat -> list UserPosition.
Variable fetchUserActivity : string -> list Activity.
Variable parseDate : string -> Date.
Variable clock : string -> Z.

Local Abbreviation enrich :=
  (enrichSingleHolder parseFloat parseInt leaderboardCache leaderboardApi
     fetchUserPositions fetchUserActivity parseDate clock).

(** C8.  When the leaderboard lookup yields nothing and at least one
    position is sampled, let [rawPnl] be the running double sum, from 0 and
    in the order of the positions, of their realized profits, a profit that
    is missing, zero or [NaN] counting as 0.  The total profit is [rawPnl]
    when [|rawPnl| < 50,000,000], and 0 otherwise: at the ceiling, above
    it, and when [rawPnl] is [NaN]. *)
Theorem enrichSingleHolder_totalProfit_rounded (partial : PartialHolder) :
  let a := p_address partial in
  let positions := fetchUserPositions a 50%nat in
  fst (Api.fetchUserLeaderboard parseFloat parseInt
         (leaderboardCache a) (leaderboardApi a) a) = None ->
  positions <> [] ->
  let rawPnl :=
    fold_left
      (fun sum p =>
         F64.add sum
           match cashPnl p with
           | Some x => if F64.truthy x then x else F64.zero
           | None => F64.zero
           end)
      positions F64.zero in
  let h := enrich partial in
  (F64.ltb (F64.abs rawPnl) (F64.ofZ 50000000) = true ->
   totalProfit h = rawPnl) /\
  (F64.ltb (F64.abs rawPnl) (F64.ofZ 50000000) = false ->
   totalProfit h = F64.zero) /\
  (F64.leb (F64.ofZ 50000000) (F64.abs rawPnl) = true ->
   totalProfit h = F64.zero) /\
  (F64.isNaN rawPnl = true -> totalProfit h = F64.zero).
Proof.
  intros a positions Hlb Hpos rawPnl h.
  assert (Hlen : (0 <? List.length positions)%nat = true).
  { apply Nat.ltb_lt. destruct positions; [contradiction|cbn; lia]. }
  assert (Eh : totalProfit h =
               if F64.ltb (F64.abs rawPnl) (F64.ofZ 50000000)
               then rawPnl else F64.zero).
  { subst h. unfold enrichSingleHolder. cbn [totalProfit].
    fold a. rewrite Hlb. fold positions. rewrite Hlen. reflexivity. }
  rewrite Eh. split; [intros ->; reflexivity|].
  split; [intros ->; reflexivity|]. split.
  - intros Hge.
    destruct (F64.ltb (F64.abs rawPnl) (F64.ofZ 50000000)) eqn:E;
      [|reflexivity].
    pose proof (F64Facts.leb_ltb_trans _ _ _ Hge E) as Hc.
    vm_compute in Hc. discriminate Hc.
  - intros Hnan. destruct rawPnl; try discriminate Hnan. reflexivity.
Qed.

End Enrich.

(** Two positions with profits of $1,200 and -$200: the total profit is
    $1,000. *)
Lemma enrichSingleHolder_totalProfit_rounded_witness :
  let h := enrichSingleHolder DoubleExamples.parseNumber
             DoubleExamples.parseNumber
             DoubleExamples.noCache DoubleExamples.noLeaderboard
             (fun _ _ => [DoubleExamples.positionWith 1200;
                          DoubleExamples.positionWith (-200)])
             DoubleExamples.noActivity DoubleExamples.noDates
             DoubleExamples.noon (DoubleExamples.partialOf "0xa1") in
  totalProfit h = F64.ofZ 1000.
Proof.
  cbv zeta.
  destruct (enrichSingleHolder_totalProfit_rounded
              DoubleExamples.parseNumber DoubleExamples.parseNumber
              DoubleExamples.noCache DoubleExamples.noLeaderboard
              (fun _ _ => [DoubleExamples.positionWith 1200;
                           DoubleExamples.positionWith (-200)])
              DoubleExamples.noActivity DoubleExamples.noDates
              DoubleExamples.noon (DoubleExamples.partialOf "0xa1") eq_refl)
    as (Hlt & _).
  - discriminate.
  - rewrite Hlt; vm_compute; reflexivity.
Defined.

(** C8, as worded, fails at the ceiling itself: one position with a profit
    of exactly $50,000,000 sums to $50,000,000, which does not exceed the
    ceiling, and the total profit is 0, not the sum. *)
Lemma enrichSingleHolder_discards_at_the_ceiling :
  let positions := [DoubleExamples.positionWith 50000000] in
  let h := enrichSingleHolder DoubleExamples.parseNumber
             DoubleExamples.parseNumber
             DoubleExamples.noCache DoubleExamples.noLeaderboard
             (fun _ _ => positions)
             DoubleExamples.noActivity DoubleExamples.noDates
             DoubleExamples.noon (DoubleExamples.partialOf "0xa1") in
  rawPnlOf positions = F64.ofZ 50000000 /\
  F64.ltb (F64.ofZ 50000000) (F64.abs (rawPnlOf positions)) = false /\
  totalProfit h = F64.zero /\
  F64.eqb (totalProfit h) (rawPnlOf positions) = false.
Proof. cbv zeta. repeat split; vm_compute; reflexivity. Qed.

(** The sum is rounded at every step, so it need not be the sum of the
    profits: $1e17, $5 and -$1e17 add up to 0, and the total profit is 0
    where the exact sum is $5. *)
Example enrichSingleHolder_sum_is_rounded :
  let positions := [DoubleExamples.positionWith (10 ^ 17);
                    DoubleExamples.positionWith 5;
                    DoubleExamples.positionWith (- 10 ^ 17)] in
  let h := enrichSingleHolder DoubleExamples.parseNumber
             DoubleExamples.parseNumber
             DoubleExamples.noCache DoubleExamples.noLeaderboard
             (fun _ _ => positions)
             DoubleExamples.noActivity DoubleExamples.noDates
             DoubleExamples.noon (DoubleExamples.partialOf "0xa1") in
  rawPnlOf positions = F64.zero /\ totalProfit h = F64.zero.
Proof. cbv zeta. split; vm_compute; reflexivity. Qed.

End DoubleEnrichFacts.

(** ** The validation of a leaderboard entry *)

Module DoubleApiFacts.

Import Double.

Lemma isUpper_spec (n : nat) :
  Str.isUpper n = true <->
  (65 <= n <= 90 \/ (192 <= n <= 222 /\ n <> 215))%nat.
Proof.
  unfold Str.isUpper.
  rewrite orb_true_iff, !andb_true_iff, negb_true_iff, !Nat.leb_le,
    Nat.eqb_neq.
  tauto.
Qed.

Lemma ascii_eqb_nat (x y : ascii) :
  Ascii.eqb x y = (nat_of_ascii x =? nat_of_ascii y)%nat.
Proof.
  destruct (Ascii.eqb x y) eqn:E.
  - apply Ascii.eqb_eq in E. subst y. symmetry. apply Nat.eqb_refl.
  - symmetry. apply Nat.eqb_neq. intros H. apply Ascii.eqb_neq in E.
    apply E. rewrite <- (ascii_nat_embedding x), <- (ascii_nat_embedding y), H.
    reflexivity.
Qed.

Lemma lowerAscii_nat (c : ascii) :
  nat_of_ascii (Str.lowerAscii c) =
  if Str.isUpper (nat_of_ascii c) then (nat_of_ascii c + 32)%nat
  else nat_of_ascii c.
Proof.
  unfold Str.lowerAscii.
  destruct (Str.isUpper (nat_of_ascii c)) eqn:E; [|reflexivity].
  apply isUpper_spec in E. apply nat_ascii_embedding. lia.
Qed.

Lemma sameLetter_isUpper (c d : ascii) :
  sameLetter c d =
  let n := nat_of_ascii c in
  let m := nat_of_ascii d in
  ((n =? m) || Str.isUpper n && (m =? n + 32) ||
   Str.isUpper m && (n =? m + 32))%nat.
Proof. reflexivity. Qed.

(** Lower-casing identifies exactly the code units that are the same
    letter. *)
Lemma lowerAscii_sameLetter (c d : ascii) :
  Ascii.eqb (Str.lowerAscii c) (Str.lowerAscii d) = sameLetter c d.
Proof.
  rewrite ascii_eqb_nat, !lowerAscii_nat, sameLetter_isUpper. cbv zeta.
  set (n := nat_of_ascii c). set (m := nat_of_ascii d).
  destruct (Str.isUpper n) eqn:En; destruct (Str.isUpper m) eqn:Em;
    cbn [andb orb];
    try (apply isUpper_spec in En); try (apply isUpper_spec in Em);
    repeat match goal with
    | |- context [(?a =? ?b)%nat] => destruct (Nat.eqb_spec a b)
    end; cbn [andb orb]; try reflexivity; try lia.
  - exfalso. assert (Hm : Str.isUpper m = true); [|congruence].
    apply isUpper_spec. lia.
  - exfalso. assert (Hm : Str.isUpper n = true); [|congruence].
    apply isUpper_spec. lia.
Qed.

Lemma toLowerCase_sameIgnoringCase (a b : string) :
  String.eqb (Str.toLowerCase a) (Str.toLowerCase b) = sameIgnoringCase a b.
Proof.
  revert b. induction a as [|c a IH]; intros [|d b]; try reflexivity.
  cbn. rewrite lowerAscii_sameLetter, IH.
  destruct (sameLetter c d); reflexivity.
Qed.

Lemma toLowerCase_truthy (s : string) :
  Str.truthy (Str.toLowerCase s) = Str.truthy s.
Proof. destruct s; reflexivity. Qed.

Section Validation.

Variable parseFloat : Json -> F64.number.
Variable parseInt : Json -> F64.number.

(** C10.  On a cache miss, for the first entry of the leaderboard reply:
    the lookup returns [null] exactly when the entry's wallet field is
    truthy and is not a string equal to the requested address up to letter
    case (a truthy field that is not a string has no [toLowerCase]; the
    [TypeError] is caught).  Otherwise it returns, and caches, the figures
    [parseFloat(pnl ?? profit ?? 0)], [parseFloat(vol ?? volume ?? 0)] and
    [parseInt(marketsTraded ?? markets ?? 0, 10)] of the entry.  In
    particular an entry whose wallet field is missing or empty is accepted,
    and [enrichSingleHolder] puts its figures on the requested wallet: the
    profit as it is, the volume unless it is zero or [NaN], and the market
    count unless it is zero or [NaN], in which case the number of sampled
    positions stands in. *)
Theorem fetchUserLeaderboard_validates (data : LeaderboardData)
    (entry : LeaderboardEntry) (userAddress : string) :
  firstEntryOf data = Some entry ->
  let r := Api.fetchUserLeaderboard parseFloat parseInt None (Some data)
             userAddress in
  let first := fun a b : Json =>
    if nullish a then (if nullish b then JNum F64.zero else b) else a in
  let stats :=
    {| pnl := parseFloat (first (e_pnl entry) (e_profit entry));
       lb_volume := parseFloat (first (e_vol entry) (e_volume entry));
       marketsTraded :=
         parseInt (first (e_marketsTraded entry) (e_markets entry)) |} in
  (fst r = None <->
   truthy (e_proxyWallet entry) = true /\
   forall w, e_proxyWallet entry = JStr w ->
             sameIgnoringCase w userAddress = false) /\
  (fst r <> None -> r = (Some stats, Some stats)) /\
  (truthy (e_proxyWallet entry) = false ->
   r = (Some stats, Some stats) /\
   forall leaderboardCache positions activity parseDate clock partial,
     p_address partial = userAddress ->
     leaderboardCache userAddress = None ->
     let h := Analyze.enrichSingleHolder parseFloat parseInt
                leaderboardCache (fun _ => Some data)
                positions activity parseDate clock partial in
     address h = userAddress /\
     totalProfit h = pnl stats /\
     totalVolume h =
       (if F64.truthy (lb_volume stats) then lb_volume stats else F64.zero) /\
     totalMarkets h =
       (if F64.truthy (marketsTraded stats) then marketsTraded stats
        else F64.ofNat (List.length (positions userAddress 50%nat)))).
Proof.
  intros Hfirst r first stats.
  assert (Hr : r =
    match (if truthy (e_proxyWallet entry)
           then e_proxyWallet entry else JStr "") with
    | JStr wallet =>
        if Str.truthy (Str.toLowerCase wallet) &&
           negb (String.eqb (Str.toLowerCase wallet)
                            (Str.toLowerCase userAddress))
        then (None, None)
        else (Some stats, Some stats)
    | _ => (None, None)
    end).
  { subst r. unfold Api.fetchUserLeaderboard.
    destruct data as [[|e es]|[[|e es]|]]; cbn in Hfirst;
      try discriminate Hfirst; injection Hfirst as ->; reflexivity. }
  assert (Hfalsy : truthy (e_proxyWallet entry) = false ->
                   r = (Some stats, Some stats)).
  { intros Hf. rewrite Hr, Hf. reflexivity. }
  split; [|split].
  - rewrite Hr. destruct (e_proxyWallet entry) as [| |b|x|w|] eqn:Ew;
      cbn [truthy].
    + split; [discriminate | intros [H _]; discriminate H].
    + split; [discriminate | intros [H _]; discriminate H].
    + destruct b; cbn [fst].
      * split; [|reflexivity]. intros _. split; [reflexivity|].
        intros w H. discriminate H.
      * split; [discriminate | intros [H _]; discriminate H].
    + destruct (F64.truthy x); cbn [fst].
      * split; [|reflexivity]. intros _. split; [reflexivity|].
        intros w H. discriminate H.
      * split; [discriminate | intros [H _]; discriminate H].
    + destruct (Str.truthy w) eqn:Et.
      * rewrite toLowerCase_truthy, Et, toLowerCase_sameIgnoringCase.
        destruct (sameIgnoringCase w userAddress) eqn:Es;
          cbn [andb negb fst].
        -- split; [discriminate|]. intros [_ H].
           specialize (H w eq_refl). rewrite Es in H. discriminate H.
        -- split; [|reflexivity]. intros _. split; [reflexivity|].
           intros w' H. injection H as <-. exact Es.
      * cbn. split; [discriminate | intros [H _]; discriminate H].
    + cbn [fst]. split; [|reflexivity]. intros _. split; [reflexivity|].
      intros w H. discriminate H.
  - rewrite Hr.
    destruct (if truthy (e_proxyWallet entry) then e_proxyWallet entry
              else JStr "") as [| |b|x|w|]; cbn [fst];
      try (intros H; contradiction).
    destruct (Str.truthy (Str.toLowerCase w) &&
              negb (String.eqb (Str.toLowerCase w)
                               (Str.toLowerCase userAddress)));
      cbn [fst]; [intros H; contradiction | reflexivity].
  - intros Hf. split; [exact (Hfalsy Hf)|].
    intros leaderboardCache positions activity parseDate clock partial
      Hp Hcache h.
    subst h. unfold Analyze.enrichSingleHolder.
    cbn [address totalProfit totalVolume totalMarkets].
    rewrite Hp, Hcache. fold r. rewrite (Hfalsy Hf). cbn [fst].
    repeat split; reflexivity.
Qed.

End Validation.

(** An entry without a wallet field is taken for the wallet [0xa1]. *)
Lemma fetchUserLeaderboard_validates_witness :
  exists stats,
    fst (Api.fetchUserLeaderboard DoubleExamples.parseNumber
           DoubleExamples.parseNumber None
           (Some (LBArray [DoubleExamples.anonymousEntry])) "0xa1")
    = Some stats /\
    pnl stats = F64.ofZ 2000000 /\
    lb_volume stats = F64.ofZ 9000000 /\
    marketsTraded stats = F64.ofZ 300.
Proof.
  destruct (fetchUserLeaderboard_validates
              DoubleExamples.parseNumber DoubleExamples.parseNumber
              (LBArray [DoubleExamples.anonymousEntry])
              DoubleExamples.anonymousEntry "0xa1" eq_refl)
    as (_ & _ & H).
  destruct (H eq_refl) as [E _].
  eexists. rewrite E. cbn [fst]. split; [reflexivity|].
  repeat split; vm_compute; reflexivity.
Defined.

(** An entry for another wallet is discarded, one for the same wallet in
    another letter case is kept. *)
Example fetchUserLeaderboard_other_wallet :
  fst (Api.fetchUserLeaderboard DoubleExamples.parseNumber
         DoubleExamples.parseNumber None
         (Some (LBArray [DoubleExamples.unparsedEntry])) "0xb2") = None /\
  fst (Api.fetchUserLeaderboard DoubleExamples.parseNumber
         DoubleExamples.parseNumber None
         (Some (LBArray [DoubleExamples.unparsedEntry])) "0xa1") <> None.
Proof. split; vm_compute; [reflexivity | discriminate]. Qed.

End DoubleApiFacts.

(** ** The position mapper *)

Module DoubleMapperFacts.

Import Double Double.Analyze Offered.

#[local] Set Warnings "-clear-no-such-hyp".

Lemma addressSet_cons (c : PartialHolder) (l : list PartialHolder) :
  addressSet (c :: l) = {[p_address c]} ∪ addressSet l.
Proof. reflexivity. Qed.

Lemma keepFirst_app (l1 l2 : list PartialHolder) (seen : gset string) :
  keepFirst seen (l1 ++ l2) =
  keepFirst seen l1 ++ keepFirst (addressSet l1 ∪ seen) l2.
Proof.
  revert seen. induction l1 as [|c l1 IH]; intros seen; cbn [keepFirst app].
  - f_equal. unfold addressSet. cbn. set_solver.
  - rewrite addressSet_cons. destruct (bool_decide (p_address c ∈ seen)) eqn:E.
    + rewrite IH. f_equal. f_equal. apply bool_decide_eq_true in E.
      set_solver.
    + cbn [app]. f_equal. rewrite IH. f_equal. f_equal. set_solver.
Qed.

(** The inner loop appends the first occurrences of the unseen addresses
    and records every address it met. *)
Lemma pushHolders_keepFirst (position : Position) (price : F64.number)
    (raws : list RawHolder) (acc : list PartialHolder) (seen : gset string) :
  pushHolders position price raws (acc, seen) =
  (acc ++ keepFirst seen (List.map (toPartial position price) raws),
   addressSet (List.map (toPartial position price) raws) ∪ seen).
Proof.
  revert acc seen. induction raws as [|r raws IH]; intros acc seen.
  - cbn. rewrite List.app_nil_r. f_equal. unfold addressSet. cbn. set_solver.
  - cbn [pushHolders List.map keepFirst]. rewrite addressSet_cons.
    change (p_address (toPartial position price r)) with (proxyWallet r).
    destruct (bool_decide (proxyWallet r ∈ seen)) eqn:E.
    + rewrite IH. f_equal. apply bool_decide_eq_true in E.
      generalize (addressSet (List.map (toPartial position price) raws)).
      clear - E. set_solver.
    + rewrite IH. rewrite <- List.app_assoc. cbn [app]. f_equal.
      generalize (addressSet (List.map (toPartial position price) raws)).
      clear. set_solver.
Qed.

(** Resolution throws exactly on a token that names a member of
    [Object.prototype] the token map does not shadow. *)
Lemma resolveOutcome_throws (market : MarketInfo) (index : nat)
    (resp : HolderResponse) :
  (exists e, resolveOutcome market index resp = Throw e) <->
  Obj.get (outcomeForToken market) (token resp) = Obj.Inherited.
Proof.
  unfold resolveOutcome.
  destruct (Obj.get (outcomeForToken market) (token resp)) as [name| |].
  - destruct (Str.truthy name); split; try discriminate;
      intros [e H]; discriminate H.
  - split; [reflexivity | eauto].
  - split; [intros [e H]; discriminate H | discriminate].
Qed.

Lemma forEachResponse_Ok (market : MarketInfo)
    (responses : list HolderResponse) (index : nat)
    (acc : list PartialHolder) (seen : gset string) (usedFallback : bool)
    (out : list PartialHolder) (seen' : gset string) (fb : bool) :
  forEachResponse market index responses (acc, seen, usedFallback)
    = Ok (out, seen', fb) ->
  out = acc ++ keepFirst seen (candidatesFrom market index responses).
Proof.
  revert index acc seen usedFallback.
  induction responses as [|resp rest IH]; intros index acc seen usedFallback.
  - cbn. intros H. injection H as <- _ _. rewrite List.app_nil_r. reflexivity.
  - cbn [forEachResponse candidatesFrom].
    destruct (resolveOutcome market index resp)
      as [[[position outcomeName] fallback]|e]; [|discriminate].
    rewrite pushHolders_keepFirst. intros H. apply IH in H. rewrite H.
    rewrite keepFirst_app, List.app_assoc. reflexivity.
Qed.

Lemma forEachResponse_returns (market : MarketInfo)
    (responses : list HolderResponse) (index : nat)
    (st : list PartialHolder * gset string * bool) :
  (exists st', forEachResponse market index responses st = Ok st') <->
  (forall resp, List.In resp responses ->
     Obj.get (outcomeForToken market) (token resp) <> Obj.Inherited).
Proof.
  revert index st.
  induction responses as [|resp rest IH]; intros index [[acc seen] fb].
  - cbn. split; [intros _ resp [] | eauto].
  - cbn [forEachResponse].
    pose proof (resolveOutcome_throws market index resp) as Hthrow.
    destruct (resolveOutcome market index resp)
      as [[[position outcomeName] fallback]|e].
    + destruct (pushHolders position (priceOf market outcomeName)
                  (holders resp) (acc, seen)) as [acc' seen'].
      rewrite IH. split.
      * intros Hall r [<-|Hin]; [|apply Hall; exact Hin].
        intros Hi. apply Hthrow in Hi. destruct Hi as [e He]. discriminate He.
      * intros Hall r Hin. apply Hall. right. exact Hin.
    + split; [intros [st' H]; discriminate H|].
      intros Hall. exfalso. apply (Hall resp); [left; reflexivity|].
      apply Hthrow. eauto.
Qed.

Lemma keepFirst_In (l : list PartialHolder) (seen : gset string)
    (r : PartialHolder) :
  List.In r (keepFirst seen l) -> (p_address r ∉ seen) /\ List.In r l.
Proof.
  revert seen. induction l as [|c l IH]; intros seen; cbn [keepFirst].
  - intros [].
  - destruct (bool_decide (p_address c ∈ seen)) eqn:E.
    + intros H. destruct (IH _ H) as [H1 H2]. split; [exact H1|].
      right. exact H2.
    + apply bool_decide_eq_false in E. intros [<-|H].
      * split; [exact E | left; reflexivity].
      * destruct (IH _ H) as [H1 H2]. split; [set_solver | right; exact H2].
Qed.

Lemma keepFirst_NoDup (l : list PartialHolder) (seen : gset string) :
  List.NoDup (List.map p_address (keepFirst seen l)).
Proof.
  revert seen. induction l as [|c l IH]; intros seen; cbn [keepFirst].
  - constructor.
  - destruct (bool_decide (p_address c ∈ seen)); [apply IH|].
    cbn [List.map]. constructor; [|apply IH].
    intros Hin. apply List.in_map_iff in Hin.
    destruct Hin as (r & Hr & Hin).
    apply keepFirst_In in Hin. destruct Hin as [Hnot _]. set_solver.
Qed.

Lemma keepFirst_complete (l : list PartialHolder) (seen : gset string)
    (a : string) :
  List.In a (List.map p_address l) -> a ∉ seen ->
  List.In a (List.map p_address (keepFirst seen l)).
Proof.
  revert seen. induction l as [|c l IH]; intros seen; cbn [keepFirst List.map].
  - intros [].
  - intros Hin Hnot.
    destruct (bool_decide (p_address c ∈ seen)) eqn:E.
    + apply bool_decide_eq_true in E. destruct Hin as [<-|Hin];
        [contradiction | apply IH; assumption].
    + cbn [List.map]. destruct (String.string_dec (p_address c) a) as [Ha|Ha].
      * left. exact Ha.
      * right. destruct Hin as [Hin|Hin]; [contradiction|].
        apply IH; [exact Hin | set_solver].
Qed.

Lemma keepFirst_first (l : list PartialHolder) (seen : gset string)
    (r : PartialHolder) :
  List.In r (keepFirst seen l) ->
  exists before after,
    l = before ++ r :: after /\
    ~ List.In (p_address r) (List.map p_address before).
Proof.
  revert seen. induction l as [|c l IH]; intros seen; cbn [keepFirst].
  - intros [].
  - destruct (bool_decide (p_address c ∈ seen)) eqn:E.
    + apply bool_decide_eq_true in E. intros H.
      destruct (keepFirst_In _ _ _ H) as [Hnot _].
      destruct (IH _ H) as (before & after & -> & Hb).
      exists (c :: before), after. split; [reflexivity|].
      cbn [List.map]. intros [Hc|Hc]; [|contradiction].
      rewrite Hc in E. contradiction.
    + intros [<-|H].
      * exists [], l. split; [reflexivity | intros []].
      * destruct (keepFirst_In _ _ _ H) as [Hnot _].
        destruct (IH _ H) as (before & after & -> & Hb).
        exists (c :: before), after. split; [reflexivity|].
        cbn [List.map]. intros [Hc|Hc]; [|contradiction]. set_solver.
Qed.

(** When no resolution throws, the addresses on offer are the wallets of
    the listings. *)
Lemma candidatesFrom_addresses (market : MarketInfo)
    (responses : list HolderResponse) (index : nat) :
  (forall resp, List.In resp responses ->
     Obj.get (outcomeForToken market) (token resp) <> Obj.Inherited) ->
  List.map p_address (candidatesFrom market index responses) =
  List.flat_map (fun resp => List.map proxyWallet (holders resp)) responses.
Proof.
  revert index. induction responses as [|resp rest IH]; intros index Hall;
    cbn [candidatesFrom List.flat_map]; [reflexivity|].
  pose proof (resolveOutcome_throws market index resp) as Hthrow.
  destruct (resolveOutcome market index resp)
    as [[[position outcomeName] fb]|e].
  - rewrite List.map_app, List.map_map, IH; [reflexivity|].
    intros r Hin. apply Hall. right. exact Hin.
  - exfalso. apply (Hall resp); [left; reflexivity|]. apply Hthrow. eauto.
Qed.

(** The mapper, when it returns, keeps of the offered records the first
    one of each address. *)
Lemma mapHoldersToPositions_Ok (responses : list HolderResponse)
    (market : MarketInfo) (out : list PartialHolder) (ws : list string) :
  mapHoldersToPositions responses market = Ok (out, ws) ->
  out = keepFirst ∅ (candidatesFrom market 0 responses) /\
  (forall resp, List.In resp responses ->
     Obj.get (outcomeForToken market) (token resp) <> Obj.Inherited).
Proof.
  unfold mapHoldersToPositions. intros H.
  destruct (forEachResponse market 0 responses ([], ∅, false))
    as [[[acc seen] fb]|e] eqn:E; [|discriminate H].
  injection H as <- _. split.
  - apply (forEachResponse_Ok _ _ _ _ _ _ _ _ _ E).
  - apply (forEachResponse_returns market responses 0 ([], ∅, false)). eauto.
Qed.

(** A record on offer comes from a raw holder of some listing, with the
    position resolved for that listing and the dollar size [shares *
    price]. *)
Lemma candidatesFrom_In (market : MarketInfo)
    (responses : list HolderResponse) (index : nat) (r : PartialHolder) :
  List.In r (candidatesFrom market index responses) ->
  exists k resp raw position outcomeName fallback,
    List.nth_error responses k = Some resp /\
    List.In raw (holders resp) /\
    resolveOutcome market (index + k) resp =
      Ok (position, outcomeName, fallback) /\
    r = toPartial position (priceOf market outcomeName) raw.
Proof.
  revert index. induction responses as [|resp rest IH]; intros index;
    cbn [candidatesFrom]; [intros []|].
  intros Hin. apply List.in_app_or in Hin. destruct Hin as [Hin|Hin].
  - destruct (resolveOutcome market index resp)
      as [[[position outcomeName] fallback]|e] eqn:E; [|destruct Hin].
    apply List.in_map_iff in Hin. destruct Hin as (raw & <- & Hraw).
    exists 0%nat, resp, raw, position, outcomeName, fallback.
    rewrite Nat.add_0_r. auto.
  - destruct (IH _ Hin) as (k & resp' & raw & p & o & fb & Hk & Hraw & Hr & ->).
    exists (S k), resp', raw, p, o, fb.
    rewrite Nat.add_succ_r. auto.
Qed.

(** X17.  The position mapper returns exactly when no listing's token names
    a member of [Object.prototype] that the token map does not shadow
    (otherwise [toUpperCase] is called on a function and the mapper
    throws).  When it returns, no two records have the same address
    string, the addresses of the records are the wallets of the listings,
    each record is the first one on offer for its address, in listing
    order, and it carries the position resolved for its listing, the share
    count [amount || 0] and the dollar size [shares * price] at the price
    of the resolved outcome. *)
Theorem mapHoldersToPositions_first_listing_wins
    (responses : list HolderResponse) (market : MarketInfo) :
  ((exists result, mapHoldersToPositions responses market = Ok result) <->
   forall resp, List.In resp responses ->
     Obj.get (outcomeForToken market) (token resp) <> Obj.Inherited) /\
  forall out ws,
    mapHoldersToPositions responses market = Ok (out, ws) ->
    List.NoDup (List.map p_address out) /\
    (forall a, List.In a (List.map p_address out) <->
               exists resp raw, List.In resp responses /\
                                List.In raw (holders resp) /\
                                proxyWallet raw = a) /\
    (forall r, List.In r out ->
       exists before after,
         candidatesFrom market 0 responses = before ++ r :: after /\
         ~ List.In (p_address r) (List.map p_address before)) /\
    (forall r, List.In r out ->
       exists index resp raw position outcomeName fallback,
         List.nth_error responses index = Some resp /\
         List.In raw (holders resp) /\
         resolveOutcome market index resp =
           Ok (position, outcomeName, fallback) /\
         p_address r = proxyWallet raw /\
         p_currentPosition r = position /\
         p_shares r =
           match amount raw with
           | Some x => if F64.truthy x then x else F64.zero
           | None => F64.zero
           end /\
         p_currentPositionSize r =
           F64.mul (p_shares r) (priceOf market outcomeName)).
Proof.
  split.
  - unfold mapHoldersToPositions.
    rewrite <- (forEachResponse_returns market responses 0 ([], ∅, false)).
    destruct (forEachResponse market 0 responses ([], ∅, false))
      as [[[acc seen] fb]|e]; split; eauto;
      intros [x H]; discriminate H.
  - intros out ws H. apply mapHoldersToPositions_Ok in H.
    destruct H as [-> Hall].
    split; [apply keepFirst_NoDup|]. split; [|split; [apply keepFirst_first|]].
    + intros a.
      assert (Hoffered : List.In a (List.map p_address
                                      (candidatesFrom market 0 responses)) <->
                         exists resp raw, List.In resp responses /\
                                          List.In raw (holders resp) /\
                                          proxyWallet raw = a).
      { rewrite (candidatesFrom_addresses market responses 0 Hall),
          List.in_flat_map. split.
        - intros (resp & Hresp & Hin). apply List.in_map_iff in Hin.
          destruct Hin as (raw & Hraw & Hin). exists resp, raw. auto.
        - intros (resp & raw & Hresp & Hin & Hraw). exists resp.
          split; [exact Hresp|]. apply List.in_map_iff. exists raw. auto. }
      rewrite <- Hoffered. split.
      * intros Hin. apply List.in_map_iff in Hin.
        destruct Hin as (r & <- & Hin). apply keepFirst_In in Hin.
        apply List.in_map. tauto.
      * intros Hin. apply keepFirst_complete; [exact Hin | set_solver].
    + intros r Hin. apply keepFirst_In in Hin. destruct Hin as [_ Hin].
      apply candidatesFrom_In in Hin.
      destruct Hin as (k & resp & raw & p & o & fb & Hk & Hraw & Hr & ->).
      exists k, resp, raw, p, o, fb. cbn [Nat.add] in Hr.
      repeat split; try assumption; reflexivity.
Qed.

(** C6.  De-duplication compares the addresses as they are spelled.  One
    wallet listed as [0xABCDEF] under the YES token and as [0xabcdef] under
    the NO token, two spellings that are equal up to letter case and that
    lower-case to the same string, gets two records: YES worth $6 and NO
    worth $12. *)
Theorem mapHoldersToPositions_case_sensitive :
  exists out,
    mapHoldersToPositions DoubleExamples.mixedCaseListings
                          DoubleExamples.yesNoMarket = Ok (out, []) /\
    List.map (fun r => (p_address r, p_currentPosition r,
                        option_map Qred (F64.toQ (p_currentPositionSize r))))
             out =
      [("0xABCDEF"%string, YES, Some 6%Q); ("0xabcdef"%string, NO, Some 12%Q)] /\
    sameIgnoringCase "0xABCDEF" "0xabcdef" = true /\
    Str.toLowerCase "0xABCDEF" = Str.toLowerCase "0xabcdef".
Proof.
  eexists. split; [vm_compute; reflexivity|].
  split; [vm_compute; reflexivity|].
  split; vm_compute; reflexivity.
Qed.

(** The same wallet spelled the same under both tokens gets one record,
    from its first listing. *)
Example mapHoldersToPositions_same_spelling :
  exists out,
    mapHoldersToPositions DoubleExamples.repeatedListings
                          DoubleExamples.yesNoMarket = Ok (out, []) /\
    List.map (fun r => (p_address r, p_currentPosition r,
                        option_map Qred (F64.toQ (p_currentPositionSize r))))
             out =
      [("0xabcdef"%string, YES, Some 6%Q);
       ("0x123456"%string, YES, Some 1200%Q)].
Proof. eexists. split; vm_compute; reflexivity. Qed.

(** A listing for a token named [constructor] makes the mapper throw. *)
Example mapHoldersToPositions_constructor_token :
  exists e,
    mapHoldersToPositions DoubleExamples.constructorListings
                          DoubleExamples.yesNoMarket = Throw e.
Proof. eexists. vm_compute. reflexivity. Qed.

Lemma resolveOutcome_fallback (market : MarketInfo) (index : nat)
    (resp : HolderResponse) (p : Position) (name : string) (fb : bool) :
  resolveOutcome market index resp = Ok (p, name, fb) ->
  (fb = true <->
   Obj.get (outcomeForToken market) (token resp) = Obj.Missing \/
   Obj.get (outcomeForToken market) (token resp) = Obj.Own ""%string).
Proof.
  unfold resolveOutcome.
  destruct (Obj.get (outcomeForToken market) (token resp)) as [o| |].
  - destruct (Str.truthy o) eqn:E; intros H; injection H as _ _ <-.
    + split; [discriminate|]. intros [H|H]; [discriminate H|].
      injection H as ->. cbn in E. discriminate E.
    + unfold Str.truthy in E. apply negb_false_iff, String.eqb_eq in E.
      subst o. tauto.
  - discriminate.
  - intros H. injection H as _ _ <-. tauto.
Qed.

Lemma forEachResponse_flag (market : MarketInfo)
    (responses : list HolderResponse) (index : nat)
    (acc : list PartialHolder) (seen : gset string) (usedFallback : bool)
    (out : list PartialHolder) (seen' : gset string) (fb : bool) :
  forEachResponse market index responses (acc, seen, usedFallback)
    = Ok (out, seen', fb) ->
  (fb = true <->
   usedFallback = true \/
   exists resp, List.In resp responses /\
     (Obj.get (outcomeForToken market) (token resp) = Obj.Missing \/
      Obj.get (outcomeForToken market) (token resp) = Obj.Own ""%string)).
Proof.
  revert index acc seen usedFallback.
  induction responses as [|resp rest IH]; intros index acc seen usedFallback.
  - cbn. intros H. injection H as _ _ <-. split; [auto|].
    intros [H|(r & [] & _)]. exact H.
  - cbn [forEachResponse].
    pose proof (resolveOutcome_fallback market index resp) as Hfb.
    destruct (resolveOutcome market index resp)
      as [[[position name] fallback]|e]; [|discriminate].
    specialize (Hfb position name fallback eq_refl).
    destruct (pushHolders position (priceOf market name) (holders resp)
                (acc, seen)) as [acc' seen2].
    intros H. apply IH in H. rewrite H, orb_true_iff, Hfb. split.
    + intros [[Hu|Hf]|(r & Hin & Hr)]; auto.
      * right. exists resp. split; [left; reflexivity | exact Hf].
      * right. exists r. split; [right; exact Hin | exact Hr].
    + intros [Hu|(r & [<-|Hin] & Hr)]; auto.
      right. exists r. auto.
Qed.

(** X20.  The position mapper throws exactly when some listing's token
    names a member of [Object.prototype] that the token map does not
    shadow.  When it returns, it emits its index-fallback warning exactly
    when some listing's token has no outcome, or the empty outcome, in the
    token map, and never more than that one warning. *)
Theorem mapHoldersToPositions_warning (responses : list HolderResponse)
    (market : MarketInfo) :
  ((exists e, mapHoldersToPositions responses market = Throw e) <->
   exists resp, List.In resp responses /\
     Obj.get (outcomeForToken market) (token resp) = Obj.Inherited) /\
  forall out ws,
    mapHoldersToPositions responses market = Ok (out, ws) ->
    (ws <> [] <->
     exists resp, List.In resp responses /\
       (Obj.get (outcomeForToken market) (token resp) = Obj.Missing \/
        Obj.get (outcomeForToken market) (token resp) = Obj.Own ""%string)) /\
    (List.length ws <= 1)%nat.
Proof.
  split.
  - pose proof (forEachResponse_returns market responses 0 ([], ∅, false))
      as Hret.
    unfold mapHoldersToPositions.
    destruct (forEachResponse market 0 responses ([], ∅, false))
      as [[[acc seen] fb]|e].
    + split; [intros [e H]; discriminate H|].
      intros (resp & Hin & Hi). exfalso.
      destruct Hret as [Hret _]. apply (Hret (ex_intro _ _ eq_refl) resp Hin Hi).
    + split; [|eauto]. intros _.
      destruct (List.existsb
                  (fun resp =>
                     match Obj.get (outcomeForToken market) (token resp) with
                     | Obj.Inherited => true
                     | _ => false
                     end) responses) eqn:Ex.
      * apply List.existsb_exists in Ex. destruct Ex as (resp & Hin & Hr).
        exists resp. split; [exact Hin|].
        destruct (Obj.get (outcomeForToken market) (token resp));
          [discriminate Hr | reflexivity | discriminate Hr].
      * exfalso. destruct Hret as [_ Hret].
        destruct Hret as [st' H]; [|discriminate H].
        intros resp Hin Hi.
        assert (Hf : List.existsb
                  (fun resp =>
                     match Obj.get (outcomeForToken market) (token resp) with
                     | Obj.Inherited => true
                     | _ => false
                     end) responses = true).
        { apply List.existsb_exists. exists resp. split; [exact Hin|].
          rewrite Hi. reflexivity. }
        rewrite Hf in Ex. discriminate Ex.
  - intros out ws. unfold mapHoldersToPositions.
    destruct (forEachResponse market 0 responses ([], ∅, false))
      as [[[acc seen] fb]|e] eqn:E; [|discriminate].
    intros H. injection H as _ <-.
    pose proof (forEachResponse_flag _ _ _ _ _ _ _ _ _ E) as Hflag.
    destruct fb; cbn [List.length].
    + split; [|lia]. split; [|discriminate]. intros _.
      destruct Hflag as [Hflag _]. destruct (Hflag eq_refl) as [Hf|Hex];
        [discriminate Hf | exact Hex].
    + split; [|lia]. split; [intros Hn; contradiction|].
      intros Hex. destruct Hflag as [_ Hflag].
      discriminate (Hflag (or_intror Hex)).
Qed.

(** X21.  The position mapper returns without a record exactly when no
    listing's token names a member of [Object.prototype] that the token
    map does not shadow and every listing has an empty holder list. *)
Theorem mapHoldersToPositions_empty (responses : list HolderResponse)
    (market : MarketInfo) :
  (exists ws, mapHoldersToPositions responses market = Ok ([], ws)) <->
  (forall resp, List.In resp responses ->
     Obj.get (outcomeForToken market) (token resp) <> Obj.Inherited) /\
  (forall resp, List.In resp responses -> holders resp = []).
Proof.
  split.
  - intros [ws H]. apply mapHoldersToPositions_Ok in H.
    destruct H as [Hempty Hret]. split; [exact Hret|].
    intros resp Hresp.
    destruct (holders resp) as [|raw raws] eqn:Eh; [reflexivity|]. exfalso.
    assert (Hin : List.In (proxyWallet raw)
                    (List.map p_address (candidatesFrom market 0 responses))).
    { rewrite (candidatesFrom_addresses _ _ _ Hret), List.in_flat_map.
      exists resp. split; [exact Hresp|]. rewrite Eh. left. reflexivity. }
    apply (keepFirst_complete _ ∅) in Hin; [|set_solver].
    rewrite <- Hempty in Hin. destruct Hin.
  - intros [Hret Hall].
    destruct (proj2 (forEachResponse_returns market responses 0
                       ([], ∅, false)) Hret) as [[[acc seen] fb] E].
    assert (Hm : mapHoldersToPositions responses market =
                 Ok (acc,
                     if fb
                     then ["Position mapping used index-based fallback for some tokens — YES/NO detection may be less accurate."%string]
                     else [])).
    { unfold mapHoldersToPositions. rewrite E. reflexivity. }
    destruct (mapHoldersToPositions_Ok _ _ _ _ Hm) as [Hacc _].
    destruct acc as [|r rest]; [eexists; exact Hm|]. exfalso.
    assert (Hin : List.In r (keepFirst ∅ (candidatesFrom market 0 responses)))
      by (rewrite <- Hacc; left; reflexivity).
    apply keepFirst_In in Hin. destruct Hin as [_ Hin].
    apply (List.in_map p_address) in Hin.
    rewrite (candidatesFrom_addresses _ _ _ Hret), List.in_flat_map in Hin.
    destruct Hin as (resp & Hresp & Hraw).
    rewrite (Hall resp Hresp) in Hraw. destruct Hraw.
Qed.

Lemma set_other {A} (o : gmap string A) (key t : string) (v : A) :
  key <> t -> Obj.set o key v !! t = o !! t.
Proof.
  intros Hne. unfold Obj.set.
  destruct (o !! key); [apply lookup_insert_ne; exact Hne|].
  destruct (String.eqb key "__proto__"); [reflexivity|].
  apply lookup_insert_ne. exact Hne.
Qed.

Lemma set_same {A} (o : gmap string A) (key : string) (v : A) :
  key <> "__proto__"%string -> Obj.set o key v !! key = Some v.
Proof.
  intros Hne. unfold Obj.set.
  destruct (o !! key); [apply lookup_insert_eq|].
  apply String.eqb_neq in Hne. rewrite Hne. apply lookup_insert_eq.
Qed.

Lemma set_proto {A} (o : gmap string A) (key : string) (v : A) :
  o !! "__proto__"%string = None ->
  Obj.set o key v !! "__proto__"%string = None.
Proof.
  intros Hnone. destruct (String.eqb key "__proto__") eqn:E.
  - apply String.eqb_eq in E. subst key. unfold Obj.set.
    rewrite Hnone. cbn. exact Hnone.
  - apply String.eqb_neq in E. rewrite set_other by exact E. exact Hnone.
Qed.

Lemma buildOutcomeForToken_other (outcomes tokens : list string)
    (acc : gmap string string) (t : string) :
  ~ List.In t (List.firstn (List.length outcomes) tokens) ->
  Gamma.buildOutcomeForToken outcomes tokens acc !! t = acc !! t.
Proof.
  revert tokens acc. induction outcomes as [|o os IH]; intros tokens acc Hnot.
  - destruct tokens; reflexivity.
  - destruct tokens as [|t' ts]; [reflexivity|].
    cbn [Gamma.buildOutcomeForToken]. cbn in Hnot.
    rewrite IH by tauto.
    apply set_other. intros ->. apply Hnot. left. reflexivity.
Qed.

Lemma buildOutcomeForToken_proto (outcomes tokens : list string)
    (acc : gmap string string) :
  acc !! "__proto__"%string = None ->
  Gamma.buildOutcomeForToken outcomes tokens acc !! "__proto__"%string = None.
Proof.
  revert tokens acc. induction outcomes as [|o os IH]; intros tokens acc Hnone.
  - destruct tokens; exact Hnone.
  - destruct tokens as [|t' ts]; [exact Hnone|].
    cbn [Gamma.buildOutcomeForToken]. apply IH. apply set_proto. exact Hnone.
Qed.

Lemma buildOutcomeForToken_at (outcomes tokens : list string)
    (acc : gmap string string) (i : nat) (t o : string) :
  List.NoDup tokens -> t <> "__proto__"%string ->
  List.nth_error tokens i = Some t -> List.nth_error outcomes i = Some o ->
  Gamma.buildOutcomeForToken outcomes tokens acc !! t = Some o.
Proof.
  revert tokens acc i.
  induction outcomes as [|o' os IH]; intros tokens acc i Hnd Hproto Ht Ho.
  - destruct i; discriminate Ho.
  - destruct tokens as [|t' ts]; [destruct i; discriminate Ht|].
    inversion Hnd as [|? ? Hnotin Hnd']; subst.
    cbn [Gamma.buildOutcomeForToken].
    destruct i as [|i]; cbn in Ht, Ho.
    + injection Ht as ->. injection Ho as ->.
      rewrite buildOutcomeForToken_other.
      * apply set_same. exact Hproto.
      * intros Hin. apply Hnotin.
        rewrite <- (List.firstn_skipn (List.length os) ts).
        apply List.in_or_app. left. exact Hin.
    + apply (IH ts _ i Hnd' Hproto Ht Ho).
Qed.

Lemma buildPrices_other (outcomes : list string) (prices : list F64.number)
    (acc : gmap string F64.number) (o : string) :
  ~ List.In o outcomes -> buildPrices outcomes prices acc !! o = acc !! o.
Proof.
  revert prices acc. induction outcomes as [|o' os IH]; intros prices acc Hnot;
    [reflexivity|].
  cbn [buildPrices]. cbn in Hnot. rewrite IH by tauto.
  apply set_other. intros ->. apply Hnot. left. reflexivity.
Qed.

Lemma buildPrices_at (outcomes : list string) (prices : list F64.number)
    (acc : gmap string F64.number) (i : nat) (o : string) :
  List.NoDup outcomes -> o <> "__proto__"%string ->
  List.nth_error outcomes i = Some o ->
  buildPrices outcomes prices acc !! o =
  Some (default (F64.lit 5 10) (List.nth_error prices i)).
Proof.
  revert prices acc i.
  induction outcomes as [|o' os IH]; intros prices acc i Hnd Hproto Ho.
  - destruct i; discriminate Ho.
  - inversion Hnd as [|? ? Hnotin Hnd']; subst. cbn [buildPrices].
    destruct i as [|i]; cbn in Ho.
    + injection Ho as ->. rewrite (buildPrices_other os _ _ o Hnotin).
      rewrite set_same by exact Hproto. destruct prices; reflexivity.
    + rewrite (IH (List.tl prices) _ i Hnd' Hproto Ho).
      destruct prices; [destruct i|]; reflexivity.
Qed.

(** X19.  Let the token map be the one [parseMarket] builds from the
    market's outcomes and pairwise different token ids, and take a listing
    for the [i]-th token, whose outcome [o] exists, at any place [index] of
    the response.  If the token is [__proto__], the assignment in
    [parseMarket] did nothing and the mapper throws.  Otherwise, if [o] is
    not empty, the listing resolves to [o] without the index fallback (YES
    when [o] upper-cases to "YES", NO otherwise), and with pairwise
    different outcomes and [o] other than [__proto__] its holders are
    priced at the [i]-th price, or 0.5 when there is none.  If [o] is the
    empty string, the index fallback decides: YES for the first listing and
    NO for the others, named after the outcome at [index]. *)
Theorem resolveOutcome_by_token (market : MarketInfo) (index i : nat)
    (resp : HolderResponse) (o : string) :
  outcomeForToken market =
    Gamma.buildOutcomeForToken (outcomes market) (clobTokenIds market) ∅ ->
  List.NoDup (clobTokenIds market) ->
  List.nth_error (clobTokenIds market) i = Some (token resp) ->
  List.nth_error (outcomes market) i = Some o ->
  (token resp = "__proto__"%string ->
   exists e, resolveOutcome market index resp = Throw e) /\
  (token resp <> "__proto__"%string -> o <> ""%string ->
   resolveOutcome market index resp =
     Ok (if String.eqb (Str.toUpperCase o) "YES" then YES else NO, o, false)
   /\
   (List.NoDup (outcomes market) -> o <> "__proto__"%string ->
    priceOf market o =
    default (F64.lit 5 10) (List.nth_error (outcomePrices market) i))) /\
  (token resp <> "__proto__"%string -> o = ""%string ->
   resolveOutcome market index resp =
     Ok (if (index =? 0)%nat then YES else NO,
         default (if (index =? 0)%nat then "Yes" else "No")%string
                 (List.nth_error (outcomes market) index),
         true)).
Proof.
  intros Hmap Hnd Ht Ho. split; [|split].
  - intros Hp. unfold resolveOutcome, Obj.get. rewrite Hmap, Hp.
    rewrite buildOutcomeForToken_proto by apply lookup_empty.
    cbn. eauto.
  - intros Hp Hne. split.
    + unfold resolveOutcome, Obj.get. rewrite Hmap.
      rewrite (buildOutcomeForToken_at _ _ _ i (token resp) o Hnd Hp Ht Ho).
      assert (E : Str.truthy o = true).
      { unfold Str.truthy. apply negb_true_iff. apply String.eqb_neq.
        exact Hne. }
      rewrite E. reflexivity.
    + intros Hndo Hop. unfold priceOf, priceForOutcome, Obj.get.
      rewrite (buildPrices_at _ _ _ i o Hndo Hop Ho). reflexivity.
  - intros Hp ->. unfold resolveOutcome, Obj.get. rewrite Hmap.
    rewrite (buildOutcomeForToken_at _ _ _ i (token resp) "" Hnd Hp Ht Ho).
    reflexivity.
Qed.

Lemma resolveOutcome_by_token_witness :
  resolveOutcome DoubleExamples.yesNoMarket 0
    {| token := "tokNo"; holders := [] |} = Ok (NO, "No"%string, false).
Proof.
  destruct (resolveOutcome_by_token DoubleExamples.yesNoMarket 0 1
              {| token := "tokNo"; holders := [] |} "No")
    as (_ & H & _).
  - reflexivity.
  - repeat constructor; cbn; intros H; intuition discriminate.
  - reflexivity.
  - reflexivity.
  - destruct H as [H _]; [discriminate | discriminate | exact H].
Defined.

End DoubleMapperFacts.

(** ** The pipeline *)

Module PipelineFacts.

Import Analyze.
Local Open Scope Q_scope.

Lemma qualifies_spec (h : Holder) :
  qualifies h = true <->
  100 <= currentPositionSize h \/ 1000 <= totalProfit h.
Proof.
  unfold qualifies, MIN_POSITION_SIZE, MIN_PROFIT_ALT.
  rewrite orb_true_iff, !JSFacts.leb_true. reflexivity.
Qed.

Lemma scoreFrom_holders (log10 : Q -> Q) (scoreClock : nat -> Z)
    (qualified : list Holder) (i : nat) :
  List.map holder (scoreFrom log10 scoreClock i qualified) = qualified.
Proof.
  revert i. induction qualified as [|h rest IH]; intros i; cbn.
  - reflexivity.
  - rewrite IH. reflexivity.
Qed.

Section Pipeline.

Variable log10 : Q -> Q.
Variable extractEventSlug : string -> Result string.
Variable extractMarketSlug : string -> option string.
Variable fetchEventBySlug : string -> Result GammaEvent.
Variable parseMarket : GammaMarket -> MarketInfo.
Variable fetchHolders : string -> Result (option (list HolderResponse)).
Variable leaderboardCache : string -> option LeaderboardStats.
Variable leaderboardApi : string -> option LeaderboardData.
Variable fetchUserPositions : string -> nat -> list UserPosition.
Variable fetchUserActivity : string -> list Activity.
Variable parseDate : string -> Date.
Variable clock : string -> Z.
Variable scoreClock : nat -> Z.

Local Abbreviation run :=
  (analyzeMarket log10 extractEventSlug extractMarketSlug fetchEventBySlug
     parseMarket fetchHolders leaderboardCache leaderboardApi
     fetchUserPositions fetchUserActivity parseDate clock scoreClock).

Local Abbreviation stage :=
  (upToEnrichment extractEventSlug extractMarketSlug fetchEventBySlug
     parseMarket fetchHolders leaderboardCache leaderboardApi
     fetchUserPositions fetchUserActivity parseDate clock).

(** C3.  Once the wallets of a market are enriched, a wallet is kept for
    scoring exactly when its position size is at least $100 or its total
    profit at least $1,000, and the scored wallets are the kept ones; when
    none is kept, the analysis returns (it does not throw) an INCONCLUSIVE
    signal with confidence 0, no data, and a reasoning string that gives the
    number of enriched wallets. *)
Theorem analyzeMarket_qualification (url : string) (m : MarketInfo)
    (ws : list string) (enriched : list Holder) :
  stage url = Ok (inr (m, ws, enriched)) ->
  let qualified := List.filter qualifies enriched in
  (forall h, List.In h qualified <->
             List.In h enriched /\
             (100 <= currentPositionSize h \/ 1000 <= totalProfit h)) /\
  List.map holder (scoreFrom log10 scoreClock 0 qualified) = qualified /\
  (qualified = [] ->
   exists r, run url = Ok r /\
     market r = m /\
     ar_signal r =
       {| signal := INCONCLUSIVE;
          confidence := 0;
          reasoning :=
            ("No holders have sufficient position size or profit in this market. "
             ++ Fmt.ofNat (List.length enriched) ++ " holders were analyzed.")%string;
          data := None |}) /\
  (qualified <> [] ->
   exists r, run url = Ok r /\
     ar_signal r =
       SignalGen.generateTradingSignal
         (List.firstn 20
            (sortByScore (scoreFrom log10 scoreClock 0 qualified)))).
Proof.
  intros Hstage qualified.
  split.
  { intros h. unfold qualified. rewrite List.filter_In, qualifies_spec.
    reflexivity. }
  split; [apply scoreFrom_holders|].
  unfold analyzeMarket. rewrite Hstage.
  unfold analyzeEnriched. fold qualified.
  split; intros Hq.
  - rewrite Hq. cbn [List.length Nat.eqb].
    eexists. split; [reflexivity|]. split; reflexivity.
  - destruct qualified as [|h rest]; [contradiction|].
    cbn [List.length Nat.eqb].
    eexists. split; reflexivity.
Qed.

(** C7, as the code has it.  When the event and its market are found and
    the holder-listing provider returns no value or an empty list, the
    analysis does not throw: it returns the market with an INCONCLUSIVE
    signal of confidence 0, the reasoning "No holder data available for
    this market.", no data, and the single warning "No holder data available
    from the API.". *)
Theorem analyzeMarket_no_listings (url eventSlug : string)
    (first : GammaMarket) (rest : list GammaMarket) :
  extractEventSlug url = Ok eventSlug ->
  (exists event, fetchEventBySlug eventSlug = Ok event /\
                 markets event = Some (first :: rest)) ->
  let market :=
    parseMarket (selectMarket (extractMarketSlug url) first rest) in
  fetchHolders (conditionId market) = Ok None \/
  fetchHolders (conditionId market) = Ok (Some []) ->
  run url =
  Ok {| market := market;
        ar_signal :=
          {| signal := INCONCLUSIVE;
             confidence := 0;
             reasoning := "No holder data available for this market.";
             data := None |};
        warnings := ["No holder data available from the API."%string] |}.
Proof.
  intros Hslug (event & Hevent & Hmarkets) market Hnone.
  unfold analyzeMarket, upToEnrichment.
  rewrite Hslug, Hevent, Hmarkets. fold market.
  destruct Hnone as [-> | ->]; reflexivity.
Qed.

End Pipeline.

Lemma analyzeMarket_qualification_witness :
  exists r,
    analyzeMarket Examples.floorLog10 Examples.eventSlugOf
      Examples.noMarketSlug Examples.rainEvent Examples.parseRain
      Examples.smallListings Examples.noCache Examples.noLeaderboard
      Examples.noPositions Examples.noActivity Examples.noDates
      Examples.noon Examples.scoredAtNoon Examples.rainUrl = Ok r /\
    signal (ar_signal r) = INCONCLUSIVE /\
    reasoning (ar_signal r) =
      "No holders have sufficient position size or profit in this market. 2 holders were analyzed."%string.
Proof.
  edestruct (analyzeMarket_qualification
               Examples.floorLog10 Examples.eventSlugOf
               Examples.noMarketSlug Examples.rainEvent Examples.parseRain
               Examples.smallListings Examples.noCache Examples.noLeaderboard
               Examples.noPositions Examples.noActivity Examples.noDates
               Examples.noon Examples.scoredAtNoon Examples.rainUrl)
    as (_ & _ & Hnone & _); [vm_compute; reflexivity|].
  destruct Hnone as (r & Hr & _ & Hs); [vm_compute; reflexivity|].
  exists r. split; [exact Hr|]. rewrite Hs. split; vm_compute; reflexivity.
Defined.

Lemma analyzeMarket_no_listings_witness :
  exists r,
    analyzeMarket Examples.floorLog10 Examples.eventSlugOf
      Examples.noMarketSlug Examples.rainEvent Examples.parseRain
      Examples.emptyListings Examples.noCache Examples.noLeaderboard
      Examples.noPositions Examples.noActivity Examples.noDates
      Examples.noon Examples.scoredAtNoon Examples.rainUrl = Ok r /\
    signal (ar_signal r) = INCONCLUSIVE.
Proof.
  eexists. split.
  - apply (analyzeMarket_no_listings
             Examples.floorLog10 Examples.eventSlugOf
             Examples.noMarketSlug Examples.rainEvent Examples.parseRain
             Examples.emptyListings Examples.noCache Examples.noLeaderboard
             Examples.noPositions Examples.noActivity Examples.noDates
             Examples.noon Examples.scoredAtNoon Examples.rainUrl
             "rain" Examples.rainMarket []).
    + reflexivity.
    + eexists. split; reflexivity.
    + right. reflexivity.
  - reflexivity.
Defined.

(** C7 fails as stated: with no listings the analysis returns a result,
    and throws nothing. *)
Lemma analyzeMarket_no_listings_returns :
  let outcome :=
    analyzeMarket Examples.floorLog10 Examples.eventSlugOf
      Examples.noMarketSlug Examples.rainEvent Examples.parseRain
      Examples.emptyListings Examples.noCache Examples.noLeaderboard
      Examples.noPositions Examples.noActivity Examples.noDates
      Examples.noon Examples.scoredAtNoon Examples.rainUrl in
  (forall message, outcome <> Throw message) /\
  exists r, outcome = Ok r /\ signal (ar_signal r) = INCONCLUSIVE /\
            confidence (ar_signal r) = 0%Z.
Proof.
  cbv zeta. split.
  - intros message H. vm_compute in H. discriminate H.
  - eexists. split; [vm_compute; reflexivity|]. split; reflexivity.
Qed.

End PipelineFacts.

(** ** Further properties of the scorer *)

Module ScoringMore.

Import Scoring.
Local Open Scope Q_scope.

Lemma round_monotone (x y : Q) : x <= y -> (JS.round x <= JS.round y)%Z.
Proof. intros H. unfold JS.round. apply Qfloor_resp_le. lra. Qed.

Lemma scaled_round_monotone (x y : Q) :
  x <= y ->
  inject_Z (JS.round (x * 100)) / 100 <= inject_Z (JS.round (y * 100)) / 100.
Proof.
  intros H.
  assert (Hr : (JS.round (x * 100) <= JS.round (y * 100))%Z)
    by (apply round_monotone; lra).
  rewrite Zle_Qle in Hr.
  apply Qle_shift_div_l; [reflexivity|].
  assert (E : inject_Z (JS.round (x * 100)) / 100 * 100 ==
              inject_Z (JS.round (x * 100))) by field.
  rewrite E. exact Hr.
Qed.

Lemma min_monotone (c x y : Q) : x <= y -> JS.min c x <= JS.min c y.
Proof.
  intros H. apply JSFacts.min_glb.
  - apply JSFacts.min_le_l.
  - unfold JS.min. destruct (JS.leb c x) eqn:E.
    + apply JSFacts.leb_true in E. lra.
    + exact H.
Qed.

Lemma max_monotone (c x y : Q) : x <= y -> JS.max c x <= JS.max c y.
Proof.
  intros H. apply JSFacts.max_lub.
  - apply JSFacts.max_le_l.
  - unfold JS.max. destruct (JS.leb c y) eqn:E.
    + exact H.
    + apply JSFacts.leb_false in E. lra.
Qed.

(** X1.  The recency score never grows as time passes: for a fixed last
    trade date, a later clock reading gives a score that is at most the
    earlier one. *)
Theorem calcRecencyScore_antitone (now1 now2 : Z) (d : Date) :
  (now1 <= now2)%Z ->
  calcRecencyScore now2 d <= calcRecencyScore now1 d.
Proof.
  intros Hnow. destruct d as [last|]; [|cbn; lra].
  unfold calcRecencyScore.
  destruct (now1 <? last)%Z eqn:E1.
  - repeat match goal with |- context [if ?c then _ else _] => destruct c end;
      lra.
  - apply Z.ltb_ge in E1.
    assert (E2 : (now2 <? last)%Z = false) by (apply Z.ltb_ge; lia).
    rewrite E2.
    assert (Hd : ((now1 - last) / msPerDay <= (now2 - last) / msPerDay)%Z).
    { apply Z.div_le_mono; [reflexivity | lia]. }
    set (d1 := ((now1 - last) / msPerDay)%Z) in *.
    set (d2 := ((now2 - last) / msPerDay)%Z) in *.
    destruct (d1 <=? 7)%Z eqn:A1; destruct (d1 <=? 30)%Z eqn:A2;
      destruct (d1 <=? 90)%Z eqn:A3; destruct (d2 <=? 7)%Z eqn:B1;
      destruct (d2 <=? 30)%Z eqn:B2; destruct (d2 <=? 90)%Z eqn:B3;
      try lra; exfalso;
      rewrite ?Z.leb_le, ?Z.leb_gt in *; lia.
Qed.

Lemma calcRecencyScore_antitone_witness :
  calcRecencyScore (8 * Examples.day) (Some 0%Z) <=
  calcRecencyScore (7 * Examples.day) (Some 0%Z).
Proof.
  apply (calcRecencyScore_antitone (7 * Examples.day) (8 * Examples.day)).
  vm_compute. discriminate.
Defined.

(** X2.  When the host's logarithm is monotone, the profit score is
    monotone in the profit: more profit never scores less. *)
Theorem calcProfitScore_monotone (log10 : Q -> Q) (p1 p2 : Q) :
  (forall x y, x <= y -> log10 x <= log10 y) ->
  p1 <= p2 ->
  calcProfitScore log10 p1 <= calcProfitScore log10 p2.
Proof.
  intros Hlog Hp.
  pose proof (ScoringFacts.calcProfitScore_bounds log10 p2) as Hb2.
  unfold calcProfitScore in *.
  destruct (JS.leb p1 0) eqn:E1; destruct (JS.leb p2 0) eqn:E2.
  - lra.
  - tauto.
  - apply JSFacts.leb_false in E1. apply JSFacts.leb_true in E2.
    exfalso. lra.
  - apply scaled_round_monotone, min_monotone, max_monotone.
    assert (H : log10 (p1 / 1000) <= log10 (p2 / 1000)).
    { apply Hlog. apply Qle_shift_div_l; [reflexivity|].
      assert (E : p1 / 1000 * 1000 == p1) by field. rewrite E. exact Hp. }
    lra.
Qed.

Lemma calcProfitScore_monotone_witness :
  calcProfitScore (fun x => x - 1) 5000 <=
  calcProfitScore (fun x => x - 1) 50000.
Proof.
  apply calcProfitScore_monotone.
  - intros x y H. lra.
  - vm_compute. discriminate.
Defined.

(** X3.  For a non-negative win rate and at least one market, the win-rate
    score is monotone in both the win rate and the number of markets, and the
    number of markets stops mattering from 20 on. *)
Theorem calcWinRateScore_monotone (w1 w2 m1 m2 : Q) :
  0 <= w1 -> w1 <= w2 -> 0 < m1 -> m1 <= m2 ->
  calcWinRateScore w1 m1 <= calcWinRateScore w2 m2 /\
  (20 <= m1 -> calcWinRateScore w1 m1 = calcWinRateScore w1 20).
Proof.
  intros Hw0 Hw Hm0 Hm. unfold calcWinRateScore.
  assert (E1 : JS.eqb m1 0 = false) by (apply JSFacts.eqb_false; lra).
  assert (E2 : JS.eqb m2 0 = false) by (apply JSFacts.eqb_false; lra).
  rewrite E1, E2. split.
  - apply scaled_round_monotone, max_monotone.
    assert (Hs : JS.min 1 (m1 / 20) <= JS.min 1 (m2 / 20)).
    { apply min_monotone. apply Qle_shift_div_l; [reflexivity|].
      assert (E : m1 / 20 * 20 == m1) by field. rewrite E. exact Hm. }
    assert (Hs0 : 0 <= JS.min 1 (m1 / 20)).
    { apply JSFacts.min_glb; [lra|].
      apply Qle_shift_div_l; [reflexivity | lra]. }
    set (s1 := JS.min 1 (m1 / 20)) in *.
    set (s2 := JS.min 1 (m2 / 20)) in *.
    assert (Ea : forall w, w / 100 * 25 == w * (1 # 4)) by (intros w; field).
    rewrite !Ea. nra.
  - intros H20.
    assert (Emin : JS.min 1 (m1 / 20) = 1).
    { unfold JS.min.
      assert (E : JS.leb 1 (m1 / 20) = true).
      { apply JSFacts.leb_true. apply Qle_shift_div_l; [reflexivity | lra]. }
      rewrite E. reflexivity. }
    rewrite Emin. reflexivity.
Qed.

Lemma calcWinRateScore_monotone_witness :
  calcWinRateScore 60 10 <= calcWinRateScore 80 40.
Proof.
  apply (calcWinRateScore_monotone 60 80 10 40); vm_compute;
    first [reflexivity | discriminate].
Defined.

(** X4.  The volume score grows with the number of markets up to 200
    markets, where it is 15, and is 12 for any larger number: wallets with
    more than 200 markets score less than wallets with 20 to 200. *)
Theorem calcVolumeScore_shape (m1 m2 : Q) :
  (m1 <= m2 -> m2 <= 200 -> calcVolumeScore m1 <= calcVolumeScore m2) /\
  (200 < m1 -> calcVolumeScore m1 = 12) /\
  (20 <= m1 -> m1 <= 200 -> calcVolumeScore m1 = 15).
Proof.
  split; [|split].
  - intros Hm H200.
    pose proof (ScoringFacts.calcVolumeScore_bounds m1) as Hb1.
    pose proof (ScoringFacts.calcVolumeScore_bounds m2) as Hb2.
    unfold calcVolumeScore in *.
    destruct (JS.leb m1 0) eqn:A0; [tauto|].
    apply JSFacts.leb_false in A0.
    assert (B0 : JS.leb m2 0 = false) by (apply JSFacts.leb_false; lra).
    rewrite B0 in *.
    destruct (JS.leb 20 m2) eqn:B1.
    + assert (B2 : JS.leb m2 200 = true) by (apply JSFacts.leb_true; lra).
      rewrite B2 in *. cbn [andb] in *. tauto.
    + cbn [andb] in *. apply JSFacts.leb_false in B1.
      assert (A1 : JS.leb 20 m1 = false) by (apply JSFacts.leb_false; lra).
      rewrite A1. cbn [andb].
      assert (A2 : JS.ltb m1 20 = true) by (apply JSFacts.ltb_true; lra).
      assert (B2 : JS.ltb m2 20 = true) by (apply JSFacts.ltb_true; lra).
      rewrite A2, B2. apply scaled_round_monotone.
      assert (Ea : forall m, m / 20 * 15 == m * (3 # 4)) by (intros m; field).
      rewrite !Ea. lra.
  - intros H. unfold calcVolumeScore.
    assert (A0 : JS.leb m1 0 = false) by (apply JSFacts.leb_false; lra).
    assert (A1 : JS.leb m1 200 = false) by (apply JSFacts.leb_false; lra).
    assert (A2 : JS.ltb m1 20 = false) by (apply JSFacts.ltb_false; lra).
    rewrite A0, A1, A2, andb_false_r. reflexivity.
  - intros H20 H200. unfold calcVolumeScore.
    assert (A0 : JS.leb m1 0 = false) by (apply JSFacts.leb_false; lra).
    assert (A1 : JS.leb 20 m1 = true) by (apply JSFacts.leb_true; lra).
    assert (A2 : JS.leb m1 200 = true) by (apply JSFacts.leb_true; lra).
    rewrite A0, A1, A2. reflexivity.
Qed.

(** X5.  For a positive average position size, the conviction score is
    monotone in the current position size and reaches its maximum, 10, as
    soon as the current position is twice the average. *)
Theorem calcConvictionScore_shape (c1 c2 a : Q) :
  0 < a ->
  (c1 <= c2 -> calcConvictionScore c1 a <= calcConvictionScore c2 a) /\
  (2 * a <= c1 -> calcConvictionScore c1 a == 10).
Proof.
  intros Ha.
  assert (Ea : JS.leb a 0 = false) by (apply JSFacts.leb_false; lra).
  split.
  - intros Hc.
    pose proof (ScoringFacts.calcConvictionScore_bounds c2 a) as Hb2.
    unfold calcConvictionScore in *. rewrite Ea in *. cbn [orb] in *.
    destruct (JS.leb c1 0) eqn:E1; [tauto|].
    apply JSFacts.leb_false in E1.
    assert (E2 : JS.leb c2 0 = false) by (apply JSFacts.leb_false; lra).
    rewrite E2. apply scaled_round_monotone, min_monotone.
    assert (H : c1 / a <= c2 / a).
    { apply Qle_shift_div_l; [exact Ha|].
      assert (E : c1 / a * a == c1) by (field; lra). rewrite E. exact Hc. }
    lra.
  - intros Hc. unfold calcConvictionScore. rewrite Ea. cbn [orb].
    assert (E1 : JS.leb c1 0 = false) by (apply JSFacts.leb_false; lra).
    rewrite E1.
    assert (Hr : 2 <= c1 / a) by (apply Qle_shift_div_l; lra).
    assert (Emin : JS.min 10 (c1 / a * 5) = 10).
    { unfold JS.min.
      assert (E : JS.leb 10 (c1 / a * 5) = true)
        by (apply JSFacts.leb_true; lra).
      rewrite E. reflexivity. }
    rewrite Emin. reflexivity.
Qed.

Lemma calcVolumeScore_shape_witness :
  calcVolumeScore 10 <= calcVolumeScore 150 /\ calcVolumeScore 250 = 12.
Proof.
  destruct (calcVolumeScore_shape 10 150) as [H1 _].
  destruct (calcVolumeScore_shape 250 250) as [_ [H2 _]].
  split.
  - apply H1; vm_compute; discriminate.
  - apply H2. vm_compute. reflexivity.
Defined.

Lemma calcConvictionScore_shape_witness :
  calcConvictionScore 900 400 == 10.
Proof.
  destruct (calcConvictionScore_shape 900 900 400) as [_ H].
  - reflexivity.
  - apply H. vm_compute. discriminate.
Defined.

End ScoringMore.

(** ** Further properties of the signal generator *)

Module SignalMore.

Import SignalGen.
Local Open Scope Q_scope.

(** With fewer than three wallets, or with a combined weighted value
    of zero, the generator returns INCONCLUSIVE with confidence 0 and no
    data. *)
Theorem generateTradingSignal_insufficient (l : list ScoredHolder) :
  (List.length l < 3)%nat \/ totalValue l == 0 ->
  let r := generateTradingSignal l in
  signal r = INCONCLUSIVE /\ confidence r = 0%Z /\ data r = None.
Proof.
  intros H. cbv zeta. unfold generateTradingSignal.
  destruct (List.length l <? 3)%nat eqn:E1; [repeat split|].
  apply Nat.ltb_ge in E1.
  destruct H as [H|H]; [lia|].
  apply JSFacts.eqb_true in H. rewrite H. repeat split.
Qed.

Lemma generateTradingSignal_insufficient_witness :
  signal (generateTradingSignal
            [Examples.scored "0xa1" YES 800; Examples.scored "0xa2" NO 10])
  = INCONCLUSIVE.
Proof.
  apply (generateTradingSignal_insufficient
           [Examples.scored "0xa1" YES 800; Examples.scored "0xa2" NO 10]).
  left. cbn. lia.
Defined.

Lemma finalConfidence_range (l : list ScoredHolder) :
  (1 <= finalConfidence l <= 10)%Z.
Proof.
  unfold finalConfidence, whaleConfidence.
  destruct (SignalFacts.baseConfidence_cases l) as [E|[E|[E|E]]]; rewrite E;
    destruct (whale l); destruct (countBoost l); lia.
Qed.

(** X6.  On every input the returned confidence is an integer between 0
    and 10; it is at least 1 whenever data is returned, and a BUY signal
    always comes with data and a confidence of at least 5. *)
Theorem generateTradingSignal_confidence_range (l : list ScoredHolder) :
  let r := generateTradingSignal l in
  (0 <= confidence r <= 10)%Z /\
  (data r <> None -> (1 <= confidence r)%Z) /\
  (signal r <> INCONCLUSIVE -> (5 <= confidence r)%Z /\ data r <> None).
Proof.
  cbv zeta. unfold generateTradingSignal.
  destruct (List.length l <? 3)%nat.
  { cbn. repeat split; try lia; try (intros; contradiction). }
  destruct (JS.eqb (totalValue l) 0).
  { cbn. repeat split; try lia; try (intros; contradiction). }
  cbn [signal confidence data].
  pose proof (finalConfidence_range l) as Hr.
  repeat split; try lia.
  - destruct (decideSignal (yesPercentageOf l) (finalConfidence l)) eqn:E.
    + apply SignalFacts.decide_BUY_YES in E. tauto.
    + apply SignalFacts.decide_BUY_NO in E. tauto.
    + contradiction.
  - discriminate.
Qed.

Lemma yes_no_partition (l : list ScoredHolder) :
  (List.length (yesList l) + List.length (noList l))%nat = List.length l.
Proof.
  unfold yesList, noList, holdsPosition.
  induction l as [|h l IH]; [reflexivity|].
  cbn [List.filter]. destruct (currentPosition (holder h)); cbn; lia.
Qed.

(** X7.  When data is returned, the YES and NO counts add up to the number
    of wallets given, and the wallet summaries are in the order of the
    input, one per wallet, each with its wallet's position and score. *)
Theorem generateTradingSignal_summaries (l : list ScoredHolder)
    (d : SignalData) :
  data (generateTradingSignal l) = Some d ->
  (yesHolders d + noHolders d)%nat = List.length l /\
  List.length (topHolders d) = List.length l /\
  List.map hs_position (topHolders d) =
    List.map (fun h => currentPosition (holder h)) l /\
  List.map hs_score (topHolders d) =
    List.map (fun h => total (credibilityScore h)) l.
Proof.
  unfold generateTradingSignal.
  destruct (List.length l <? 3)%nat; [discriminate|].
  destruct (JS.eqb (totalValue l) 0); [discriminate|].
  cbn [data]. intros H. injection H as <-.
  cbn [yesHolders noHolders topHolders].
  split; [apply yes_no_partition|].
  split; [apply List.length_map|].
  rewrite !List.map_map. split; reflexivity.
Qed.

Lemma generateTradingSignal_summaries_witness :
  exists d, data (generateTradingSignal Examples.fiveWallets) = Some d /\
            (yesHolders d + noHolders d)%nat = 5%nat.
Proof.
  eexists. split; [vm_compute; reflexivity|].
  eapply (generateTradingSignal_summaries Examples.fiveWallets).
  vm_compute. reflexivity.
Defined.

End SignalMore.

(** ** Further properties of the enricher and of the leaderboard lookup *)

Module EnrichMore.

Import Analyze.
Local Open Scope Q_scope.

Lemma natQ_le (a b : nat) : (a <= b)%nat -> natQ a <= natQ b.
Proof. intros H. unfold natQ. rewrite <- Zle_Qle. lia. Qed.

Lemma natQ_pos (a : nat) : (0 < a)%nat -> 0 < natQ a.
Proof.
  intros H. unfold natQ. change 0 with (inject_Z 0). rewrite <- Zlt_Qlt. lia.
Qed.


Section Enrich.

Variable leaderboardCache : string -> option LeaderboardStats.
Variable leaderboardApi : string -> option LeaderboardData.
Variable fetchUserPositions : string -> nat -> list UserPosition.
Variable fetchUserActivity : string -> list Activity.
Variable parseDate : string -> Date.
Variable clock : string -> Z.

Local Abbreviation enrich :=
  (enrichSingleHolder leaderboardCache leaderboardApi fetchUserPositions
     fetchUserActivity parseDate clock).


Lemma enrich_winRate (partial : PartialHolder) :
  0 <= winRate (enrich partial) <= 100.
Proof.
  unfold enrichSingleHolder. cbn [winRate].
  set (positions := fetchUserPositions (p_address partial) 50%nat).
  destruct (0 <? List.length positions)%nat eqn:E; [|lra].
  apply Nat.ltb_lt in E.
  set (wins := List.length
                 (List.filter (fun p => JS.ltb 0 (JS.orZero (cashPnl p)))
                              positions)).
  assert (Hw : (wins <= List.length positions)%nat)
    by apply List.filter_length_le.
  pose proof (natQ_le _ _ Hw) as H1.
  pose proof (natQ_pos _ E) as H2.
  pose proof (natQ_le 0 wins (Nat.le_0_l _)) as H0.
  change (natQ 0) with 0 in H0.
  assert (Ha : 0 <= natQ wins / natQ (List.length positions))
    by (apply Qle_shift_div_l; lra).
  assert (Hb : natQ wins / natQ (List.length positions) <= 1)
    by (apply Qle_shift_div_r; lra).
  split; lra.
Qed.


(** X12.  A numeric activity timestamp may be given in seconds or in
    milliseconds: for an instant between 10^9 and 10^12 seconds after the
    epoch, both encodings give the same last trade date, the instant in
    milliseconds. *)
Theorem lastTradeDateOf_seconds_or_ms (now s : Z)
    (positions : list UserPosition) (rest : list Activity) :
  (1000000000 < s <= 1000000000000)%Z ->
  lastTradeDateOf parseDate now positions
    ({| timestamp := Some (TsNumber s) |} :: rest) = Some (s * 1000)%Z /\
  lastTradeDateOf parseDate now positions
    ({| timestamp := Some (TsNumber (s * 1000)) |} :: rest)
    = Some (s * 1000)%Z.
Proof.
  intros [Hlo Hhi]. unfold lastTradeDateOf, dateOfNumber, maxTime.
  cbn [timestamp].
  assert (E1 : (s =? 0)%Z = false) by (apply Z.eqb_neq; lia).
  assert (E2 : (1000000000000 <? s)%Z = false) by (apply Z.ltb_ge; lia).
  assert (E3 : (s * 1000 =? 0)%Z = false) by (apply Z.eqb_neq; lia).
  assert (E4 : (1000000000000 <? s * 1000)%Z = true)
    by (apply Z.ltb_lt; lia).
  assert (E5 : (Z.abs (s * 1000) <=? 8640000000000000)%Z = true)
    by (apply Z.leb_le; lia).
  rewrite E1, E2, E3, E4, E5. split; reflexivity.
Qed.

End Enrich.


Lemma lastTradeDateOf_seconds_or_ms_witness :
  lastTradeDateOf Examples.noDates 0 []
    [{| timestamp := Some (TsNumber 1700000000) |}]
  = Some 1700000000000%Z.
Proof.
  apply (lastTradeDateOf_seconds_or_ms Examples.noDates 0 1700000000 [] []).
  lia.
Defined.

(** X13.  The leaderboard lookup answers from the cache without looking at
    the response, and writes to the cache only the result it returns on a
    cache miss: a failed request, an empty response or a discarded entry
    leaves the cache alone. *)
Theorem fetchUserLeaderboard_cache (cached : option LeaderboardStats)
    (response : option LeaderboardData) (userAddress : string) :
  let r := Api.fetchUserLeaderboard cached response userAddress in
  (forall c, cached = Some c -> r = (Some c, None)) /\
  (forall x, snd r = Some x -> cached = None /\ fst r = Some x) /\
  (fst r = None -> snd r = None) /\
  (cached = None ->
   response = None \/ (exists data, response = Some data /\
                                    firstEntry data = None) ->
   r = (None, None)).
Proof.
  cbv zeta. unfold Api.fetchUserLeaderboard.
  split; [intros c ->; reflexivity|].
  destruct cached as [c|].
  { cbn [fst snd]. split; [intros x H; discriminate H|].
    split; [intros H; discriminate H|]. intros H. discriminate H. }
  destruct response as [data|].
  2:{ cbn [fst snd]. split; [intros x H; discriminate H|].
      split; [reflexivity|]. intros _ _. reflexivity. }
  assert (Hentries :
    match data with
    | LBArray es => es
    | LBObject (Some es) => es
    | LBObject None => []
    end = match firstEntry data with
          | Some e => e :: match data with
                           | LBArray es | LBObject (Some es) => List.tl es
                           | LBObject None => []
                           end
          | None => []
          end).
  { destruct data as [[|e es]|[[|e es]|]]; reflexivity. }
  rewrite Hentries.
  destruct (firstEntry data) as [entry|] eqn:Ef.
  - destruct (Str.truthy _ && negb _); cbn [fst snd].
    + split; [intros x H; discriminate H|].
      split; [reflexivity|]. intros _ _. reflexivity.
    + split; [intros x H; injection H as <-; split; reflexivity|].
      split; [intros H; discriminate H|].
      intros _ [H|(dt & Hd & Hn)]; [discriminate H|].
      injection Hd as <-. rewrite Ef in Hn. discriminate Hn.
  - cbn [fst snd]. split; [intros x H; discriminate H|].
    split; [reflexivity|]. intros _ _. reflexivity.
Qed.

End EnrichMore.

(** ** Ranking *)

Module RankingFacts.

Import Analyze.
Local Open Scope Q_scope.

Local Abbreviation score h := (total (credibilityScore h)).
Local Abbreviation desc := (fun a b : ScoredHolder => score b <= score a).
Local Abbreviation scoreIs q :=
  (fun h : ScoredHolder => Qeq_bool (score h) q).

Lemma insertByScore_perm (x : ScoredHolder) (l : list ScoredHolder) :
  Permutation (insertByScore x l) (x :: l).
Proof.
  induction l as [|y l IH]; cbn [insertByScore]; [reflexivity|].
  destruct (JS.ltb (score y) (score x)); [reflexivity|].
  rewrite IH. apply perm_swap.
Qed.

Lemma insertByScore_sorted (x : ScoredHolder) (l : list ScoredHolder) :
  StronglySorted desc l -> StronglySorted desc (insertByScore x l).
Proof.
  induction l as [|y l IH]; intros Hs; cbn [insertByScore].
  - constructor; constructor.
  - inversion Hs as [|? ? Hl Hy]; subst.
    destruct (JS.ltb (score y) (score x)) eqn:E.
    + apply JSFacts.ltb_true in E. constructor; [exact Hs|].
      constructor; [lra|].
      eapply List.Forall_impl; [|exact Hy]. cbn. intros z Hz. lra.
    + apply JSFacts.ltb_false in E. constructor; [apply IH; exact Hl|].
      eapply Permutation_Forall;
        [symmetry; apply insertByScore_perm|].
      constructor; assumption.
Qed.

Lemma filter_below (l : list ScoredHolder) (q : Q) :
  List.Forall (fun z => score z < q) l -> List.filter (scoreIs q) l = [].
Proof.
  induction 1 as [|z l Hz Hl IH]; cbn [List.filter]; [reflexivity|].
  destruct (Qeq_bool (score z) q) eqn:E; [|exact IH].
  apply Qeq_bool_iff in E. exfalso. lra.
Qed.

Lemma insertByScore_stable (x : ScoredHolder) (l : list ScoredHolder)
    (q : Q) :
  StronglySorted desc l ->
  List.filter (scoreIs q) (insertByScore x l) =
  List.filter (scoreIs q) l ++ List.filter (scoreIs q) [x].
Proof.
  induction l as [|y l IH]; intros Hs; cbn [insertByScore]; [reflexivity|].
  inversion Hs as [|? ? Hl Hy]; subst.
  destruct (JS.ltb (score y) (score x)) eqn:E.
  - apply JSFacts.ltb_true in E.
    replace (x :: y :: l) with ([x] ++ y :: l) by reflexivity.
    rewrite List.filter_app.
    destruct (Qeq_bool (score x) q) eqn:Ex.
    + apply Qeq_bool_iff in Ex.
      assert (Hnone : List.filter (scoreIs q) (y :: l) = []).
      { apply filter_below. constructor; [lra|].
        eapply List.Forall_impl; [|exact Hy]. cbn. intros z Hz. lra. }
      rewrite Hnone, List.app_nil_r. reflexivity.
    + assert (Hx : List.filter (scoreIs q) [x] = [])
        by (cbn [List.filter]; rewrite Ex; reflexivity).
      rewrite Hx, List.app_nil_r. reflexivity.
  - cbn [List.filter]. rewrite (IH Hl).
    destruct (Qeq_bool (score y) q); reflexivity.
Qed.

Lemma sort_from (l acc : list ScoredHolder) (q : Q) :
  StronglySorted desc acc ->
  let s := fold_left (fun acc x => insertByScore x acc) l acc in
  Permutation s (acc ++ l) /\
  StronglySorted desc s /\
  List.filter (scoreIs q) s =
  List.filter (scoreIs q) acc ++ List.filter (scoreIs q) l.
Proof.
  revert acc. induction l as [|x l IH]; intros acc Hacc; cbn [fold_left].
  - cbv zeta. cbn [List.filter]. rewrite !List.app_nil_r. auto.
  - destruct (IH (insertByScore x acc) (insertByScore_sorted x acc Hacc))
      as (Hp & Hs & Hf).
    cbv zeta in *. split; [|split; [exact Hs|]].
    + etransitivity; [exact Hp|].
      etransitivity; [apply Permutation_app_tail, insertByScore_perm|].
      cbn [app]. apply Permutation_middle.
    + rewrite Hf, (insertByScore_stable x acc q Hacc).
      rewrite <- List.app_assoc. rewrite <- List.filter_app. reflexivity.
Qed.




End RankingFacts.

(** ** Errors and results of the pipeline *)

Module PipelineMore.

Import Analyze.
Local Open Scope Q_scope.

(** [find] returns the first element that passes the test. *)
Lemma find_first {A} (f : A -> bool) (l : list A) (x : A) :
  List.find f l = Some x ->
  exists before after,
    l = before ++ x :: after /\ f x = true /\
    forall y, List.In y before -> f y = false.
Proof.
  induction l as [|y l IH]; cbn [List.find]; [discriminate|].
  destruct (f y) eqn:E.
  - intros H. injection H as <-. exists [], l.
    split; [reflexivity|]. split; [exact E|]. intros z [].
  - intros H. destruct (IH H) as (before & after & -> & Hx & Hb).
    exists (y :: before), after. split; [reflexivity|]. split; [exact Hx|].
    intros z [<-|Hz]; [exact E | apply Hb; exact Hz].
Qed.

(** X16.  The market analysed is always one of the event's markets.  When
    the URL has a market slug and some market of the event has that slug,
    it is the first such market in the event's order: it has the slug and
    no market before it has.  It is the event's first market when the URL
    has no market slug or no market has that slug. *)
Theorem selectMarket_spec (marketSlug : option string)
    (first : GammaMarket) (rest : list GammaMarket) :
  let m := selectMarket marketSlug first rest in
  List.In m (first :: rest) /\
  (forall s, marketSlug = Some s -> s <> ""%string ->
     (exists x, List.In x (first :: rest) /\ gm_slug x = s) ->
     exists before after,
       first :: rest = before ++ m :: after /\
       gm_slug m = s /\
       forall x, List.In x before -> gm_slug x <> s) /\
  (marketSlug = None \/ marketSlug = Some ""%string \/
   (exists s, marketSlug = Some s /\
              forall x, List.In x (first :: rest) -> gm_slug x <> s) ->
   m = first).
Proof.
  cbv zeta. unfold selectMarket.
  destruct marketSlug as [s|].
  2:{ split; [left; reflexivity|]. split; [intros s H; discriminate H|].
      intros _. reflexivity. }
  destruct (Str.truthy s) eqn:Et.
  2:{ apply ApiFacts.truthy_false in Et. subst s.
      split; [left; reflexivity|].
      split; [intros s H Hne; injection H as <-; contradiction|].
      intros _. reflexivity. }
  destruct (List.find (fun m => String.eqb (gm_slug m) s) (first :: rest))
    as [matched|] eqn:Ef.
  - pose proof (find_first _ _ _ Ef) as (before & after & Hl & Hm & Hb).
    apply List.find_some in Ef. destruct Ef as [Hin Heq].
    apply String.eqb_eq in Heq.
    split; [exact Hin|]. split.
    + intros s' H _ _. injection H as <-.
      exists before, after. split; [exact Hl|]. split; [exact Heq|].
      intros x Hx. apply String.eqb_neq. apply Hb. exact Hx.
    + intros [H|[H|(s' & H & Hnone)]]; try discriminate H.
      * injection H as ->. cbn in Et. discriminate Et.
      * injection H as <-. exfalso. apply (Hnone matched Hin). exact Heq.
  - split; [left; reflexivity|]. split; [|intros _; reflexivity].
    intros s' H _ (x & Hx & Hs). injection H as <-.
    pose proof (List.find_none _ _ Ef x Hx) as Hneq. cbn in Hneq.
    apply String.eqb_neq in Hneq. contradiction.
Qed.

Section Pipeline.

Variable log10 : Q -> Q.
Variable extractEventSlug : string -> Result string.
Variable extractMarketSlug : string -> option string.
Variable fetchEventBySlug : string -> Result GammaEvent.
Variable parseMarket : GammaMarket -> MarketInfo.
Variable fetchHolders : string -> Result (option (list HolderResponse)).
Variable leaderboardCache : string -> option LeaderboardStats.
Variable leaderboardApi : string -> option LeaderboardData.
Variable fetchUserPositions : string -> nat -> list UserPosition.
Variable fetchUserActivity : string -> list Activity.
Variable parseDate : string -> Date.
Variable clock : string -> Z.
Variable scoreClock : nat -> Z.

Local Abbreviation run :=
  (analyzeMarket log10 extractEventSlug extractMarketSlug fetchEventBySlug
     parseMarket fetchHolders leaderboardCache leaderboardApi
     fetchUserPositions fetchUserActivity parseDate clock scoreClock).

Local Abbreviation stage :=
  (upToEnrichment extractEventSlug extractMarketSlug fetchEventBySlug
     parseMarket fetchHolders leaderboardCache leaderboardApi
     fetchUserPositions fetchUserActivity parseDate clock).

Local Abbreviation enrich :=
  (enrichSingleHolder leaderboardCache leaderboardApi fetchUserPositions
     fetchUserActivity parseDate clock).

(** What the first six steps can produce. *)
Lemma stage_cases (url : string) :
  (exists e, stage url = Throw e /\
     (extractEventSlug url = Throw e \/
      exists eventSlug, extractEventSlug url = Ok eventSlug /\
        (fetchEventBySlug eventSlug = Throw e \/
         exists event, fetchEventBySlug eventSlug = Ok event /\
           ((markets event = None \/ markets event = Some []) /\
            e = "No markets found for this event."%string \/
            exists first rest, markets event = Some (first :: rest) /\
              fetchHolders
                (conditionId
                   (parseMarket
                      (selectMarket (extractMarketSlug url) first rest)))
              = Throw e)))) \/
  (exists eventSlug event first rest fetched,
     extractEventSlug url = Ok eventSlug /\
     fetchEventBySlug eventSlug = Ok event /\
     markets event = Some (first :: rest) /\
     fetchHolders
       (conditionId
          (parseMarket (selectMarket (extractMarketSlug url) first rest)))
     = Ok fetched /\
     ((exists early, stage url = Ok (inl early) /\
         signal (ar_signal early) = INCONCLUSIVE /\
         confidence (ar_signal early) = 0%Z /\
         data (ar_signal early) = None) \/
      (exists m ws partials, stage url =
         Ok (inr (m, ws, List.map enrich partials))))).
Proof.
  unfold upToEnrichment.
  destruct (extractEventSlug url) as [eventSlug|e] eqn:E1.
  2:{ left. exists e. split; [reflexivity|]. left. reflexivity. }
  destruct (fetchEventBySlug eventSlug) as [event|e] eqn:E2.
  2:{ left. exists e. split; [reflexivity|]. right. exists eventSlug.
      split; [reflexivity|]. left. exact E2. }
  destruct (markets event) as [[|first rest]|] eqn:E3.
  1,3: left; eexists; split; [reflexivity|]; right; exists eventSlug;
       (split; [reflexivity|]); right; exists event;
       (split; [exact E2|]); left; rewrite E3; split; auto.
  destruct (fetchHolders _) as [fetched|e] eqn:E4.
  2:{ left. exists e. split; [reflexivity|]. right. exists eventSlug.
      split; [reflexivity|]. right. exists event. split; [exact E2|].
      right. exists first, rest. split; [exact E3 | exact E4]. }
  right. exists eventSlug, event, first, rest, fetched.
  split; [reflexivity|]. split; [exact E2|]. split; [exact E3|].
  split; [exact E4|].
  destruct fetched as [[|resp responses]|].
  1,3: left; eexists; split; [reflexivity|]; repeat split.
  destruct (mapHoldersToPositions (resp :: responses) _)
    as [partials mappingWarnings].
  destruct (List.length partials =? 0)%nat.
  { left. eexists. split; [reflexivity|]. repeat split. }
  right.
  pose proof (EnrichFacts.enrichHolders_all leaderboardCache leaderboardApi
                fetchUserPositions fetchUserActivity parseDate clock partials)
    as Hall.
  destruct (enrichHolders _ _ _ _ _ _ partials) as [enriched ews].
  cbn [fst] in Hall. subst enriched.
  eexists _, _, partials. reflexivity.
Qed.

Lemma scoreFrom_In (qualified : list Holder) (i : nat) (s : ScoredHolder) :
  List.In s (scoreFrom log10 scoreClock i qualified) ->
  List.In (holder s) qualified /\
  exists j, credibilityScore s =
            Scoring.calculateCredibilityScore log10 (scoreClock j) (holder s).
Proof.
  revert i. induction qualified as [|h rest IH]; intros i; cbn [scoreFrom].
  - intros [].
  - intros [<-|Hin].
    + split; [left; reflexivity|]. exists i. reflexivity.
    + destruct (IH _ Hin) as [H1 H2]. split; [right; exact H1 | exact H2].
Qed.

Lemma score_range (now : Z) (h : Holder) :
  0 <= winRate h <= 100 ->
  let c := Scoring.calculateCredibilityScore log10 now h in
  0 <= total c <= 100 /\
  0 <= profit (breakdown c) <= 40 /\
  0 <= winRateScore (breakdown c) <= 25 /\
  0 <= volume (breakdown c) <= 15 /\
  0 <= recency (breakdown c) <= 10 /\
  0 <= conviction (breakdown c) <= 10.
Proof.
  intros Hw.
  pose proof (ScoringFacts.calcProfitScore_bounds log10 (totalProfit h)).
  pose proof (ScoringFacts.calcWinRateScore_bounds (winRate h)
                (totalMarkets h) Hw).
  pose proof (ScoringFacts.calcVolumeScore_bounds (totalMarkets h)).
  pose proof (ScoringFacts.calcRecencyScore_bounds now (lastTradeDate h)).
  pose proof (ScoringFacts.calcConvictionScore_bounds
                (currentPositionSize h) (avgPositionSize h)).
  pose proof (ScoringFacts.total_is_sum log10 now h) as Hsum.
  cbv zeta in *.
  cbn [breakdown Scoring.calculateCredibilityScore profit winRateScore
       volume recency conviction] in Hsum |- *.
  repeat split; try tauto; rewrite Hsum; lra.
Qed.

Lemma generateTradingSignal_shape (l : list ScoredHolder) :
  let r := SignalGen.generateTradingSignal l in
  (0 <= confidence r <= 10)%Z /\
  (signal r <> INCONCLUSIVE -> (5 <= confidence r)%Z /\ data r <> None) /\
  (forall d, data r = Some d ->
     (3 <= List.length l)%nat /\
     topHolders d = List.map SignalGen.summary l).
Proof.
  cbv zeta. unfold SignalGen.generateTradingSignal.
  destruct (List.length l <? 3)%nat eqn:E.
  { cbn [signal confidence data].
    split; [lia|]. split; [intros H; contradiction|].
    intros d H. discriminate H. }
  destruct (JS.eqb (SignalGen.totalValue l) 0).
  { cbn [signal confidence data].
    split; [lia|]. split; [intros H; contradiction|].
    intros d H. discriminate H. }
  cbn [signal confidence data].
  pose proof (SignalMore.finalConfidence_range l) as Hr.
  split; [lia|]. split.
  - intros Hs. split; [|discriminate].
    destruct (SignalGen.decideSignal (SignalGen.yesPercentageOf l)
                (SignalGen.finalConfidence l)) eqn:Ed.
    + apply SignalFacts.decide_BUY_YES in Ed. tauto.
    + apply SignalFacts.decide_BUY_NO in Ed. tauto.
    + contradiction.
  - intros d H. injection H as <-. cbn [topHolders].
    apply Nat.ltb_ge in E. split; [exact E | reflexivity].
Qed.

(** X18.  When the figures the sources return are finite numbers, every
    result the analysis returns has a confidence between 0 and 10, and a
    BUY signal only with data and a confidence of at least 5.  When it
    carries data, the data lists between 3 and 20 wallets, and each listed
    wallet has a score between 0 and 100 with its five components within
    their maxima. *)
Theorem analyzeMarket_result (url : string) (r : AnalysisResult) :
  run url = Ok r ->
  (0 <= confidence (ar_signal r) <= 10)%Z /\
  (signal (ar_signal r) <> INCONCLUSIVE ->
   (5 <= confidence (ar_signal r))%Z /\ data (ar_signal r) <> None) /\
  (forall d, data (ar_signal r) = Some d ->
     (3 <= List.length (topHolders d) <= 20)%nat /\
     forall s, List.In s (topHolders d) ->
       0 <= hs_score s <= 100 /\
       0 <= profit (hs_scoreBreakdown s) <= 40 /\
       0 <= winRateScore (hs_scoreBreakdown s) <= 25 /\
       0 <= volume (hs_scoreBreakdown s) <= 15 /\
       0 <= recency (hs_scoreBreakdown s) <= 10 /\
       0 <= conviction (hs_scoreBreakdown s) <= 10).
Proof.
  unfold analyzeMarket.
  destruct (stage_cases url) as
    [(e' & -> & _) | (_ & _ & _ & _ & _ & _ & _ & _ & _ & Hres)];
    [discriminate|].
  destruct Hres as [(early & -> & Hs & Hc & Hd)|(m & ws & partials & ->)].
  { intros H. injection H as <-. rewrite Hs, Hc, Hd.
    split; [lia|]. split; [intros H; contradiction|].
    intros d H. discriminate H. }
  intros H. injection H as <-. unfold analyzeEnriched.
  set (qualified := List.filter qualifies (List.map enrich partials)).
  destruct (List.length qualified =? 0)%nat.
  { cbn [ar_signal inconclusive signal confidence data].
    split; [lia|]. split; [intros H; contradiction|].
    intros d H. discriminate H. }
  cbn [ar_signal].
  set (top := List.firstn 20 (sortByScore (scoreFrom log10 scoreClock 0
                                             qualified))).
  destruct (generateTradingSignal_shape top) as (H1 & H2 & H3).
  split; [exact H1|]. split; [exact H2|].
  intros d Hd. destruct (H3 d Hd) as [Hlen ->].
  rewrite List.length_map. split.
  { split; [exact Hlen|]. unfold top. rewrite List.length_firstn. lia. }
  intros s Hin. apply List.in_map_iff in Hin. destruct Hin as (x & <- & Hx).
  assert (Hsorted : List.In x (sortByScore (scoreFrom log10 scoreClock 0
                                              qualified))).
  { rewrite <- (List.firstn_skipn 20). apply List.in_or_app. left. exact Hx. }
  assert (Hscored : List.In x (scoreFrom log10 scoreClock 0 qualified)).
  { destruct (RankingFacts.sort_from
                (scoreFrom log10 scoreClock 0 qualified) [] 0)
      as (Hp & _ & _); [constructor|].
    cbv zeta in Hp. cbn [app] in Hp.
    apply (Permutation_in _ Hp). exact Hsorted. }
  apply scoreFrom_In in Hscored. destruct Hscored as [Hq [j Hj]].
  unfold qualified in Hq. apply List.filter_In in Hq. destruct Hq as [Hq _].
  apply List.in_map_iff in Hq. destruct Hq as (p & Hp & _).
  assert (Hw : 0 <= winRate (holder x) <= 100).
  { rewrite <- Hp. apply EnrichMore.enrich_winRate. }
  pose proof (score_range (scoreClock j) (holder x) Hw) as Hrange.
  cbv zeta in Hrange. rewrite <- Hj in Hrange.
  cbn [SignalGen.summary hs_score hs_scoreBreakdown]. exact Hrange.
Qed.

End Pipeline.

Lemma analyzeMarket_result_witness :
  exists r d,
    analyzeMarket Examples.floorLog10 Url.extractEventSlug
      Url.extractMarketSlug Examples.rainEvent Examples.parseRain
      MoreExamples.bigListings Examples.noCache Examples.noLeaderboard
      MoreExamples.twoPositions Examples.noActivity Examples.noDates
      Examples.noon Examples.scoredAtNoon Examples.rainUrl = Ok r /\
    data (ar_signal r) = Some d /\
    (3 <= List.length (topHolders d) <= 20)%nat.
Proof.
  eexists. eexists. split; [vm_compute; reflexivity|].
  split; [reflexivity|].
  eapply (analyzeMarket_result Examples.floorLog10 Url.extractEventSlug
            Url.extractMarketSlug Examples.rainEvent Examples.parseRain
            MoreExamples.bigListings Examples.noCache Examples.noLeaderboard
            MoreExamples.twoPositions Examples.noActivity Examples.noDates
            Examples.noon Examples.scoredAtNoon Examples.rainUrl).
  - vm_compute. reflexivity.
  - reflexivity.
Defined.

End PipelineMore.

(** ** The TTL cache *)

Module CacheFacts.

Section WithData.

Context {A : Type}.
Implicit Types (store : gmap string (Cache.CacheEntry A)) (key : string).

(** X22.  A value put in the cache is returned by every read of its key up
    to and including its expiry time, reads leaving the store as it is; the
    first read after the expiry time returns nothing and removes the entry.
    A second [put] on the same key replaces the first. *)
Theorem cache_put_get (now now' ttl : Z) key (data : A) store :
  ((now' <= now + ttl)%Z ->
   Cache.get now' key (Cache.put now key data ttl store) =
   (Some data, Cache.put now key data ttl store)) /\
  ((now + ttl < now')%Z ->
   Cache.get now' key (Cache.put now key data ttl store) =
   (None, delete key store)) /\
  (forall data0 now0 ttl0,
     Cache.put now key data ttl (Cache.put now0 key data0 ttl0 store) =
     Cache.put now key data ttl store).
Proof.
  unfold Cache.get, Cache.put. rewrite lookup_insert_eq.
  cbn [Cache.expiresAt Cache.ce_data]. split; [|split].
  - intros H. assert (E : (now + ttl <? now')%Z = false)
      by (apply Z.ltb_ge; exact H).
    rewrite E. reflexivity.
  - intros H. assert (E : (now + ttl <? now')%Z = true)
      by (apply Z.ltb_lt; exact H).
    rewrite E. rewrite delete_insert_eq. reflexivity.
  - intros data0 now0 ttl0. apply insert_insert_eq.
Qed.

(** X23.  Keys do not interfere: reading one key returns the same whether
    or not another key was just put, never touches the entries of other
    keys, and a read that returns data leaves the whole store unchanged. *)
Theorem cache_isolation (now now' ttl : Z) key key' (data : A) store :
  key <> key' ->
  fst (Cache.get now' key' (Cache.put now key data ttl store)) =
  fst (Cache.get now' key' store) /\
  snd (Cache.get now' key' store) !! key = store !! key /\
  (forall d, fst (Cache.get now' key' store) = Some d ->
             snd (Cache.get now' key' store) = store).
Proof.
  intros Hne. unfold Cache.get, Cache.put.
  rewrite lookup_insert_ne by exact Hne.
  destruct (store !! key') as [entry|] eqn:E.
  - destruct (Cache.expiresAt entry <? now')%Z; cbn [fst snd].
    + split; [reflexivity|]. split; [|intros d H; discriminate H].
      apply lookup_delete_ne. intros ->. contradiction.
    + split; [reflexivity|]. split; reflexivity.
  - cbn [fst snd]. split; [reflexivity|]. split; [reflexivity|].
    intros d H. discriminate H.
Qed.

(** X24.  A read never returns an expired value, and expiry is final: data
    comes back only from an entry whose expiry time has not passed, and once
    a read of a key has returned nothing, every later read of that key
    returns nothing, whatever the clock says, until the key is put again. *)
Theorem cache_expiry_final (now : Z) key store :
  let r := Cache.get now key store in
  (forall d, fst r = Some d ->
     exists entry, store !! key = Some entry /\ Cache.ce_data entry = d /\
                   (now <= Cache.expiresAt entry)%Z) /\
  (fst r = None -> forall later, Cache.get later key (snd r) = (None, snd r)).
Proof.
  cbv zeta. unfold Cache.get at 1 2 4 5.
  destruct (store !! key) as [entry|] eqn:E.
  - destruct (Cache.expiresAt entry <? now)%Z eqn:Et; cbn [fst snd].
    + split; [intros d H; discriminate H|]. intros _ later.
      unfold Cache.get. rewrite lookup_delete_eq. reflexivity.
    + split; [|intros H; discriminate H].
      intros d H. injection H as <-. exists entry.
      apply Z.ltb_ge in Et. auto.
  - cbn [fst snd]. split; [intros d H; discriminate H|].
    intros _ later. unfold Cache.get. rewrite E. reflexivity.
Qed.

End WithData.

Lemma cache_put_get_witness :
  Cache.get 1500 "price:tokYes" (Cache.put 1000 "price:tokYes" 7%Z 600 ∅) =
  (Some 7%Z, Cache.put 1000 "price:tokYes" 7%Z 600 ∅).
Proof.
  apply (cache_put_get 1000 1500 600 "price:tokYes" 7%Z ∅). lia.
Defined.

Lemma cache_isolation_witness :
  fst (Cache.get 1500 "price:tokNo"
         (Cache.put 1000 "price:tokYes" 7%Z 600 ∅)) =
  fst (Cache.get 1500 "price:tokNo" (∅ : gmap string (Cache.CacheEntry Z))).
Proof.
  apply (cache_isolation 1000 1500 600 "price:tokYes" "price:tokNo" 7%Z ∅).
  discriminate.
Defined.

End CacheFacts.

(** ** The holder table's bar *)

Module HolderTableFacts.

Local Open Scope Q_scope.

(** For non-negative YES and NO values the two parts of the
    distribution bar are whole percentages between 0 and 100 that add up to
    100, and the bar is split 50/50 when both values are zero. *)
Theorem yesPercent_range (yesValue noValue : Q) :
  0 <= yesValue -> 0 <= noValue ->
  let p := HolderTable.yesPercent yesValue noValue in
  (0 <= p <= 100)%Z /\ (0 <= 100 - p <= 100)%Z /\
  (yesValue + noValue == 0 -> p = 50%Z).
Proof.
  intros Hy Hn. cbv zeta. unfold HolderTable.yesPercent.
  destruct (JS.ltb 0 (yesValue + noValue)) eqn:E.
  - apply JSFacts.ltb_true in E.
    assert (H0 : 0 <= yesValue / (yesValue + noValue))
      by (apply Qle_shift_div_l; lra).
    assert (H1 : yesValue / (yesValue + noValue) <= 1)
      by (apply Qle_shift_div_r; lra).
    set (q := yesValue / (yesValue + noValue)) in *. clearbody q.
    destruct (JSFacts.round_bounds 0 100 (q * 100)) as [Ha Hb].
    + change (inject_Z 0) with 0. lra.
    + change (inject_Z 100) with 100. lra.
    + split; [lia|]. split; [lia|]. intros Hz. exfalso. lra.
  - split; [lia|]. split; [lia|]. reflexivity.
Qed.

Lemma yesPercent_range_witness :
  (0 <= HolderTable.yesPercent 750 250 <= 100)%Z.
Proof.
  apply (yesPercent_range 750 250); vm_compute; discriminate.
Defined.

End HolderTableFacts.

(** ** The URL parser *)

Module UrlFacts.

Import Url.
Local Open Scope string_scope.

#[local] Arguments String.append : simpl nomatch.

Local Abbreviation chars s := (list_ascii_of_string s).
Local Abbreviation literal := "polymarket.com/event/".

(** A string that is empty or starts with one of [/], [?], [#]. *)
Local Abbreviation stops post :=
  (post = "" \/ exists c t, post = String c t /\ notSeparator c = false).

Lemma append_assoc (a b c : string) : (a ++ b) ++ c = a ++ b ++ c.
Proof.
  induction a as [|x a IH]; cbn [String.append]; [reflexivity | f_equal; exact IH].
Qed.

Lemma append_nil_r (a : string) : a ++ "" = a.
Proof.
  induction a as [|x a IH]; cbn [String.append]; [reflexivity | f_equal; exact IH].
Qed.

Lemma stripPrefix_Some (p s r : string) :
  stripPrefix p s = Some r <-> s = p ++ r.
Proof.
  revert s. induction p as [|a p IH]; intros s; cbn.
  - split; [intros H; injection H as ->; reflexivity | intros ->; reflexivity].
  - destruct s as [|b s]; [split; discriminate|].
    destruct (Ascii.eqb a b) eqn:E.
    + apply Ascii.eqb_eq in E. subst b. rewrite IH.
      split; [intros ->; reflexivity | intros H; injection H; auto].
    + apply Ascii.eqb_neq in E.
      split; [discriminate | intros H; injection H; intros; congruence].
Qed.

Lemma includes_unfold (sub s : string) :
  includes sub s =
  match stripPrefix sub s with
  | Some _ => true
  | None => match s with
            | EmptyString => false
            | String _ r => includes sub r
            end
  end.
Proof. destruct s; reflexivity. Qed.

Lemma includes_intro (sub pre post : string) :
  includes sub (pre ++ sub ++ post) = true.
Proof.
  induction pre as [|c pre IH]; rewrite includes_unfold.
  - cbn [String.append].
    rewrite (proj2 (stripPrefix_Some sub (sub ++ post) post) eq_refl).
    reflexivity.
  - destruct (stripPrefix sub (String c pre ++ sub ++ post));
      [reflexivity | exact IH].
Qed.

Lemma includes_elim (sub s : string) :
  includes sub s = true -> exists pre post, s = pre ++ sub ++ post.
Proof.
  induction s as [|c s IH]; rewrite includes_unfold.
  - destruct (stripPrefix sub "") as [r|] eqn:E; [|discriminate].
    intros _. apply stripPrefix_Some in E. exists "", r. exact E.
  - destruct (stripPrefix sub (String c s)) as [r|] eqn:E.
    + intros _. apply stripPrefix_Some in E. exists "", r. exact E.
    + intros H. destruct (IH H) as (pre & post & ->).
      exists (String c pre), post. reflexivity.
Qed.

Lemma takeRun_spec (s run rest : string) :
  takeRun s = (run, rest) ->
  s = run ++ rest /\
  (forall c, List.In c (chars run) -> notSeparator c = true) /\
  stops rest.
Proof.
  revert run rest. induction s as [|c s IH]; intros run rest; cbn.
  - intros H. injection H as <- <-. split; [reflexivity|].
    split; [intros c []|]. left. reflexivity.
  - destruct (notSeparator c) eqn:E.
    + destruct (takeRun s) as [run' rest'].
      intros H. injection H as <- <-.
      destruct (IH run' rest' eq_refl) as (Hs & Hc & Hr).
      split; [cbn; rewrite <- Hs; reflexivity|]. split; [|exact Hr].
      intros x [<-|Hx]; [exact E | apply Hc; exact Hx].
    + intros H. injection H as <- <-. split; [reflexivity|].
      split; [intros x []|]. right. exists c, s. auto.
Qed.

Lemma takeRun_app (run rest : string) :
  (forall c, List.In c (chars run) -> notSeparator c = true) ->
  stops rest ->
  takeRun (run ++ rest) = (run, rest).
Proof.
  intros Hc Hr. induction run as [|c run IH]; cbn.
  - destruct Hr as [->|(c & t & -> & E)]; [reflexivity|].
    cbn. rewrite E. reflexivity.
  - rewrite (Hc c) by (left; reflexivity).
    rewrite IH; [reflexivity|]. intros x Hx. apply Hc. right. exact Hx.
Qed.

Lemma matchEvent_skip (c : ascii) (r : string) :
  stripPrefix literal (String c r) = None ->
  matchEvent (String c r) = matchEvent r.
Proof. intros H. cbn [matchEvent]. rewrite H. reflexivity. Qed.

Lemma matchEvent_here (c d : ascii) (r after run rest : string) :
  stripPrefix literal (String c r) = Some after ->
  takeRun after = (String d run, rest) ->
  matchEvent (String c r) = Some (String d run).
Proof. intros H1 H2. cbn [matchEvent]. rewrite H1, H2. reflexivity. Qed.

Lemma matchMarket_skip (c : ascii) (r : string) :
  stripPrefix literal (String c r) = None ->
  matchMarket (String c r) = matchMarket r.
Proof. intros H. cbn [matchMarket]. rewrite H. reflexivity. Qed.

Lemma matchMarket_here (c d e : ascii)
    (r after run after' run' rest : string) :
  stripPrefix literal (String c r) = Some after ->
  takeRun after = (String d run, String "/" after') ->
  takeRun after' = (String e run', rest) ->
  matchMarket (String c r) = Some (String e run').
Proof.
  intros H1 H2 H3. cbn [matchMarket]. rewrite H1, H2, H3. reflexivity.
Qed.

Lemma matchEvent_Some (s slug : string) :
  matchEvent s = Some slug ->
  slug <> "" /\
  (forall c, List.In c (chars slug) -> notSeparator c = true) /\
  exists pre post, s = pre ++ literal ++ slug ++ post /\ stops post.
Proof.
  induction s as [|c s IH]; [discriminate|].
  assert (Hskip : matchEvent s = Some slug ->
    slug <> "" /\
    (forall c, List.In c (chars slug) -> notSeparator c = true) /\
    exists pre post, String c s = pre ++ literal ++ slug ++ post /\
                     stops post).
  { intros H. destruct (IH H) as (H1 & H2 & pre & post & -> & H3).
    split; [exact H1|]. split; [exact H2|].
    exists (String c pre), post. split; [reflexivity | exact H3]. }
  cbn [matchEvent].
  destruct (stripPrefix literal (String c s)) as [after|] eqn:E;
    [|exact Hskip].
  destruct (takeRun after) as [[|d run] rest] eqn:Et; [exact Hskip|].
  intros H. injection H as <-.
  apply stripPrefix_Some in E.
  destruct (takeRun_spec _ _ _ Et) as (Ha & Hc & Hr).
  split; [discriminate|]. split; [exact Hc|].
  exists "", rest. split; [|exact Hr].
  rewrite E, Ha. reflexivity.
Qed.

Lemma matchMarket_matchEvent (s m : string) :
  matchMarket s = Some m -> exists ev, matchEvent s = Some ev.
Proof.
  induction s as [|c s IH]; [discriminate|].
  cbn [matchMarket matchEvent].
  destruct (stripPrefix literal (String c s)) as [after|]; [|exact IH].
  destruct (takeRun after) as [[|d run] rest]; [exact IH|].
  intros _. eexists. reflexivity.
Qed.

Lemma matchEvent_includes (s slug : string) :
  matchEvent s = Some slug -> includes "polymarket.com" s = true.
Proof.
  intros H. destruct (matchEvent_Some s slug H) as (_ & _ & pre & post & -> & _).
  change (literal ++ slug ++ post)
    with ("polymarket.com" ++ "/event/" ++ slug ++ post).
  apply includes_intro.
Qed.

(** X25.  An extracted event slug is never empty and has no [/], [?] or
    [#]; it is the text that follows "polymarket.com/event/" in the trimmed
    URL, up to the next of those characters or the end.  Failure comes with
    one of two messages: "Invalid URL..." when the trimmed URL does not
    contain "polymarket.com", and "Could not extract..." otherwise. *)
Theorem extractEventSlug_outcomes (url : string) :
  (forall slug, extractEventSlug url = Ok slug ->
     slug <> "" /\
     (forall c, List.In c (chars slug) -> notSeparator c = true) /\
     exists pre post,
       trim url = pre ++ "polymarket.com/event/" ++ slug ++ post /\
       (post = "" \/
        exists c t, post = String c t /\ notSeparator c = false)) /\
  (forall e, extractEventSlug url = Throw e ->
     (includes "polymarket.com" (trim url) = false /\
      e = "Invalid URL: Please enter a valid Polymarket URL (e.g. https://polymarket.com/event/...)") \/
     (includes "polymarket.com" (trim url) = true /\
      matchEvent (trim url) = None /\
      e = "Could not extract event slug from URL. Expected format: https://polymarket.com/event/{slug}")).
Proof.
  unfold extractEventSlug.
  destruct (includes "polymarket.com" (trim url)) eqn:Ei; cbn [negb].
  - destruct (matchEvent (trim url)) as [slug|] eqn:Em; split.
    + intros slug' H. injection H as <-. apply matchEvent_Some. exact Em.
    + intros e H. discriminate H.
    + intros slug H. discriminate H.
    + intros e H. injection H as <-. right. auto.
  - split; [intros slug H; discriminate H|].
    intros e H. injection H as <-. left. auto.
Qed.

(** X26.  A URL of the documented form is parsed as documented: for
    "https://polymarket.com/event/" followed by a slug without [/], [?],
    [#], and then nothing or one of those characters, the event slug is that
    slug; and when a second slug follows after a [/], it is the market
    slug.  The URL is taken without surrounding white space. *)
Theorem extractEventSlug_canonical (slug tail : string) :
  let url := "https://polymarket.com/event/" ++ slug ++ tail in
  trim url = url ->
  slug <> "" ->
  (forall c, List.In c (chars slug) -> notSeparator c = true) ->
  (tail = "" \/ exists c t, tail = String c t /\ notSeparator c = false) ->
  extractEventSlug url = Ok slug /\
  (forall m tail',
     tail = "/" ++ m ++ tail' -> m <> "" ->
     (forall c, List.In c (chars m) -> notSeparator c = true) ->
     (tail' = "" \/ exists c t, tail' = String c t /\ notSeparator c = false) ->
     extractMarketSlug url = Some m).
Proof.
  intros url Htrim Hne Hc Ht.
  destruct slug as [|d run]; [contradiction|].
  assert (Hrun : takeRun (String d run ++ tail) = (String d run, tail))
    by (apply takeRun_app; assumption).
  split.
  - unfold extractEventSlug. rewrite Htrim.
    assert (Ei : includes "polymarket.com" url = true).
    { change url with ("https://" ++ "polymarket.com" ++
                       "/event/" ++ String d run ++ tail).
      apply includes_intro. }
    rewrite Ei. cbn [negb].
    assert (Em : matchEvent url = Some (String d run)).
    { unfold url. cbn [String.append].
      do 8 (rewrite matchEvent_skip by reflexivity).
      eapply matchEvent_here; [reflexivity|]. exact Hrun. }
    rewrite Em. reflexivity.
  - intros m tail' -> Hm Hmc Ht'.
    destruct m as [|e run']; [contradiction|].
    unfold extractMarketSlug. rewrite Htrim. unfold url. cbn [String.append].
    do 8 (rewrite matchMarket_skip by reflexivity).
    eapply matchMarket_here; [reflexivity| |].
    + exact Hrun.
    + apply takeRun_app; assumption.
Qed.

Lemma extractEventSlug_canonical_witness :
  extractEventSlug "https://polymarket.com/event/trump-2028/will-trump-run"
  = Ok "trump-2028".
Proof.
  apply (extractEventSlug_canonical "trump-2028" "/will-trump-run").
  - reflexivity.
  - discriminate.
  - intros c H. cbn in H.
    repeat (destruct H as [<-|H]; [reflexivity|]). destruct H.
  - right. exists "/"%char, "will-trump-run". split; reflexivity.
Defined.

(** X27.  Whenever a market slug is found in a URL, the event slug is found
    too: the pipeline never has a market slug without an event slug. *)
Theorem extractMarketSlug_needs_event (url m : string) :
  extractMarketSlug url = Some m ->
  exists ev, extractEventSlug url = Ok ev.
Proof.
  unfold extractMarketSlug, extractEventSlug. intros H.
  destruct (matchMarket_matchEvent _ _ H) as [ev Hev].
  rewrite (matchEvent_includes _ _ Hev), Hev. cbn [negb].
  exists ev. reflexivity.
Qed.

Lemma extractMarketSlug_needs_event_witness :
  exists ev,
    extractEventSlug "https://polymarket.com/event/trump-2028/will-trump-run"
    = Ok ev.
Proof.
  apply (extractMarketSlug_needs_event _ "will-trump-run"). reflexivity.
Defined.

End UrlFacts.

(** ** The request handler *)

Module RouteFacts.

Import Url.
Local Open Scope string_scope.

#[local] Arguments String.append : simpl nomatch.

Lemma trimStart_keeps (a : ascii) (x pre : string) :
  isSpace a = false ->
  exists pre', trimStart (pre ++ String a x) = pre' ++ String a x.
Proof.
  intros Ha. induction pre as [|c pre IH]; cbn [String.append trimStart].
  - rewrite Ha. exists "". reflexivity.
  - destruct (isSpace c).
    + exact IH.
    + exists (String c pre). reflexivity.
Qed.

Lemma trimEnd_app (x y : string) :
  trimEnd y <> "" -> trimEnd (x ++ y) = x ++ trimEnd y.
Proof.
  intros Hy. induction x as [|c x IH]; cbn [String.append trimEnd];
    [reflexivity|].
  rewrite IH. destruct (x ++ trimEnd y) eqn:E; [|reflexivity].
  exfalso. destruct x; cbn in E; [contradiction | discriminate E].
Qed.

Lemma trimEnd_cons (z : ascii) (post : string) :
  isSpace z = false -> trimEnd (String z post) = String z (trimEnd post).
Proof.
  intros Hz. cbn [trimEnd]. destruct (trimEnd post); [|reflexivity].
  rewrite Hz. reflexivity.
Qed.

(** Trimming does not lose the host name. *)
Lemma includes_trim (s : string) :
  includes "polymarket.com" s = true ->
  includes "polymarket.com" (trim s) = true.
Proof.
  intros H. apply UrlFacts.includes_elim in H.
  destruct H as (pre & post & ->).
  unfold trim.
  destruct (trimStart_keeps "p" ("olymarket.com" ++ post) pre eq_refl)
    as [pre' Hs].
  change (pre ++ "polymarket.com" ++ post)
    with (pre ++ String "p" ("olymarket.com" ++ post)).
  rewrite Hs.
  change (pre' ++ String "p" ("olymarket.com" ++ post))
    with (pre' ++ "polymarket.co" ++ String "m" post).
  rewrite <- UrlFacts.append_assoc.
  rewrite trimEnd_app.
  - rewrite (trimEnd_cons "m" post eq_refl).
    rewrite UrlFacts.append_assoc.
    change ("polymarket.co" ++ String "m" (trimEnd post))
      with ("polymarket.com" ++ trimEnd post).
    apply UrlFacts.includes_intro.
  - rewrite (trimEnd_cons "m" post eq_refl). discriminate.
Qed.

Lemma statusOf_cases (message : string) :
  Route.statusOf message = 404%nat \/ Route.statusOf message = 429%nat \/
  Route.statusOf message = 400%nat \/ Route.statusOf message = 500%nat.
Proof.
  unfold Route.statusOf.
  repeat match goal with |- context [if ?c then _ else _] => destruct c end;
    auto.
Qed.

Lemma includes_truthy (u : string) :
  includes "polymarket.com" u = true -> Str.truthy u = true.
Proof. destruct u; [discriminate | reflexivity]. Qed.

(** X28.  The handler answers 200 exactly when the body is a JSON value
    other than [null] with a [url] string that contains "polymarket.com" and
    the analysis of it returns, and then the body of the answer is the
    analysis; every other answer has status 400, 404, 429 or 500.  A body
    other than [null] without such a [url] is answered with 400 and the
    analysis is not run.  When the body cannot be parsed, or is [null], the
    answer carries the message of the error thrown and the status derived
    from it. *)
Theorem POST_status (analyzeMarket : string -> Result AnalysisResult)
    (request : Route.RequestBody) :
  let r := Route.POST analyzeMarket request in
  (Route.status r = 200%nat <->
   exists u result, request = Route.Body (Some u) /\
                    includes "polymarket.com" u = true /\
                    analyzeMarket u = Ok result /\
                    Route.body r = inl result) /\
  (Route.status r = 200 \/ Route.status r = 400 \/ Route.status r = 404 \/
   Route.status r = 429 \/ Route.status r = 500)%nat /\
  (request = Route.Body None \/
   (exists u, request = Route.Body (Some u) /\
              includes "polymarket.com" u = false) ->
   Route.status r = 400%nat /\
   forall other, Route.POST other request = r) /\
  (forall message,
     request = Route.Unparsed message \/ request = Route.NullBody message ->
     r = {| Route.status := Route.statusOf message;
            Route.body := inr message |}).
Proof.
  cbv zeta. unfold Route.POST.
  destruct request as [message|message|[u|]].
  1,2: pose proof (statusOf_cases message) as Hs;
       cbn [Route.status Route.body]; split; [|split; [|split]];
       [ split;
         [ intros H; exfalso; destruct Hs as [E|[E|[E|E]]]; congruence
         | intros (u & res & H & _); discriminate H ]
       | tauto
       | intros [H|(u & H & _)]; discriminate H
       | intros m [H|H]; try discriminate H; injection H as <-; reflexivity ].
  2:{ cbn [Route.status Route.body]. split; [|split; [|split]].
      - split; [discriminate|]. intros (u & res & H & _). discriminate H.
      - auto.
      - intros _. split; reflexivity.
      - intros m [H|H]; discriminate H. }
  destruct (Str.truthy u) eqn:Et; cbn [negb].
  2:{ apply ApiFacts.truthy_false in Et. subst u.
      cbn [Route.status Route.body]. split; [|split; [|split]].
      - split; [discriminate|].
        intros (u & res & H & Hi & _). injection H as <-. discriminate Hi.
      - auto.
      - intros _. split; reflexivity.
      - intros m [H|H]; discriminate H. }
  destruct (includes "polymarket.com" u) eqn:Ei; cbn [negb].
  2:{ cbn [Route.status Route.body]. split; [|split; [|split]].
      - split; [discriminate|].
        intros (u' & res & H & Hi & _). injection H as <-. congruence.
      - auto.
      - intros _. split; reflexivity.
      - intros m [H|H]; discriminate H. }
  destruct (analyzeMarket u) as [result|message] eqn:Ea;
    cbn [Route.status Route.body].
  - split; [|split; [|split]].
    + split; [|reflexivity]. intros _. exists u, result. auto.
    + auto.
    + intros [H|(u' & H & Hi)]; [discriminate H|].
      injection H as <-. congruence.
    + intros m [H|H]; discriminate H.
  - pose proof (statusOf_cases message) as Hs. split; [|split; [|split]].
    + split.
      * intros H. exfalso. destruct Hs as [E|[E|[E|E]]]; congruence.
      * intros (u' & res & H & _ & Hr & _). injection H as <-. congruence.
    + tauto.
    + intros [H|(u' & H & Hi)]; [discriminate H|].
      injection H as <-. congruence.
    + intros m [H|H]; discriminate H.
Qed.

Section Pipeline.

Variable log10 : Q -> Q.
Variable fetchEventBySlug : string -> Result GammaEvent.
Variable parseMarket : GammaMarket -> MarketInfo.
Variable fetchHolders : string -> Result (option (list HolderResponse)).
Variable leaderboardCache : string -> option LeaderboardStats.
Variable leaderboardApi : string -> option LeaderboardData.
Variable fetchUserPositions : string -> nat -> list UserPosition.
Variable fetchUserActivity : string -> list Activity.
Variable parseDate : string -> Date.
Variable clock : string -> Z.
Variable scoreClock : nat -> Z.

(** The pipeline on top of the URL parser. *)
Local Abbreviation run :=
  (Analyze.analyzeMarket log10 extractEventSlug extractMarketSlug
     fetchEventBySlug parseMarket fetchHolders leaderboardCache
     leaderboardApi fetchUserPositions fetchUserActivity parseDate clock
     scoreClock).

(** X29.  Behind the handler's check the parser's "Invalid URL" error
    cannot occur: a [url] that contains "polymarket.com" never makes the
    parser throw it, and when such a [url] has no event slug the parser
    throws "Could not extract event slug...", which the handler answers
    with status 500. *)
Theorem POST_without_event_slug (u : string) :
  includes "polymarket.com" u = true ->
  (forall e, extractEventSlug u = Throw e ->
     e = "Could not extract event slug from URL. Expected format: https://polymarket.com/event/{slug}") /\
  (matchEvent (trim u) = None ->
   Route.POST run (Route.Body (Some u)) =
   {| Route.status := 500;
      Route.body := inr "Could not extract event slug from URL. Expected format: https://polymarket.com/event/{slug}" |}).
Proof.
  intros Hi. split.
  - intros e. unfold extractEventSlug. rewrite (includes_trim u Hi).
    cbn [negb]. destruct (matchEvent (trim u)); [discriminate|].
    intros H. injection H as <-. reflexivity.
  - intros Hm. unfold Route.POST.
    rewrite (includes_truthy u Hi), Hi. cbn [negb].
    unfold Analyze.analyzeMarket, Analyze.upToEnrichment, extractEventSlug.
    rewrite (includes_trim u Hi), Hm. reflexivity.
Qed.

End Pipeline.

Lemma POST_without_event_slug_witness :
  Route.status
    (Route.POST
       (Analyze.analyzeMarket Examples.floorLog10 extractEventSlug
          extractMarketSlug Examples.rainEvent Examples.parseRain
          Examples.smallListings Examples.noCache Examples.noLeaderboard
          Examples.noPositions Examples.noActivity Examples.noDates
          Examples.noon Examples.scoredAtNoon)
       (Route.Body (Some "https://polymarket.com/markets"))) = 500%nat.
Proof.
  destruct (POST_without_event_slug Examples.floorLog10 Examples.rainEvent
              Examples.parseRain Examples.smallListings Examples.noCache
              Examples.noLeaderboard Examples.noPositions
              Examples.noActivity Examples.noDates Examples.noon
              Examples.scoredAtNoon "https://polymarket.com/markets")
    as [_ H]; [reflexivity|].
  rewrite H; reflexivity.
Defined.

Section Upstream.

Variable log10 : Q -> Q.
Variable extractE : string -> Result string.
Variable extractM : string -> option string.
Variable eventCache : string -> option GammaEvent.
Variable eventReply : string -> HttpReply GammaEvent.
Variable parseMarket : GammaMarket -> MarketInfo.
Variable holdersCache : string -> option (list HolderResponse).
Variable holdersReply : string -> HttpReply (option (list HolderResponse)).
Variable leaderboardCache : string -> option LeaderboardStats.
Variable leaderboardApi : string -> option LeaderboardData.
Variable fetchUserPositions : string -> nat -> list UserPosition.
Variable fetchUserActivity : string -> list Activity.
Variable parseDate : string -> Date.
Variable clock : string -> Z.
Variable scoreClock : nat -> Z.

(** The pipeline on top of [fetchEventBySlug] and [fetchHolders]. *)
Local Abbreviation served :=
  (Analyze.analyzeMarket log10 extractE extractM
     (fun slug =>
        fst (Fetch.fetchEventBySlug (eventCache slug) (eventReply slug) slug))
     parseMarket
     (fun conditionId =>
        Fetch.holdersFor (holdersCache conditionId)
                         (holdersReply conditionId))
     leaderboardCache leaderboardApi fetchUserPositions fetchUserActivity
     parseDate clock scoreClock).

(** X30.  How upstream failures reach the client, for a [url] that passes
    the handler's check and has an event slug not in the cache: a 404 from
    the event request is answered 404 with a message naming the slug; an
    event without markets is answered 500 with "No markets found for this
    event."; a 429 from the holders request, not in the cache either, is
    answered 429 with the rate-limit message. *)
Theorem POST_upstream_errors (u slug : string) :
  includes "polymarket.com" u = true ->
  extractE u = Ok slug ->
  eventCache slug = None ->
  (forall msg, eventReply slug = Failed (Some 404%nat) msg ->
     Route.POST served (Route.Body (Some u)) =
     {| Route.status := 404;
        Route.body := inr (Route.eventNotFound slug) |}) /\
  (forall ev, eventReply slug = Replied ev ->
     markets ev = None \/ markets ev = Some [] ->
     Route.POST served (Route.Body (Some u)) =
     {| Route.status := 500;
        Route.body := inr "No markets found for this event." |}) /\
  (forall ev first rest msg,
     eventReply slug = Replied ev ->
     markets ev = Some (first :: rest) ->
     let conditionId :=
       conditionId (parseMarket
                      (Analyze.selectMarket (extractM u) first rest)) in
     holdersCache conditionId = None ->
     holdersReply conditionId = Failed (Some 429%nat) msg ->
     Route.POST served (Route.Body (Some u)) =
     {| Route.status := 429; Route.body := inr Route.rateLimited |}).
Proof.
  intros Hi He Hc.
  assert (Hpost : forall message,
            served u = Throw message ->
            Route.POST served (Route.Body (Some u)) =
            {| Route.status := Route.statusOf message;
               Route.body := inr message |}).
  { intros message H. unfold Route.POST.
    rewrite (includes_truthy u Hi), Hi. cbn [negb]. rewrite H.
    reflexivity. }
  split; [|split].
  - intros msg Hr. rewrite (Hpost (Route.eventNotFound slug)).
    + reflexivity.
    + unfold Analyze.analyzeMarket, Analyze.upToEnrichment,
        Fetch.fetchEventBySlug.
      rewrite He, Hc, Hr. reflexivity.
  - intros ev Hr Hm. rewrite (Hpost "No markets found for this event.").
    + reflexivity.
    + unfold Analyze.analyzeMarket, Analyze.upToEnrichment,
        Fetch.fetchEventBySlug.
      rewrite He, Hc, Hr. cbn [fst].
      destruct Hm as [-> | ->]; reflexivity.
  - intros ev first rest msg Hr Hm cid Hhc Hhr.
    rewrite (Hpost Route.rateLimited).
    + reflexivity.
    + unfold Analyze.analyzeMarket, Analyze.upToEnrichment,
        Fetch.fetchEventBySlug, Fetch.holdersFor, Fetch.fetchHolders.
      rewrite He, Hc, Hr. cbn [fst]. rewrite Hm. fold cid.
      rewrite Hhc, Hhr. reflexivity.
Qed.

End Upstream.

Lemma POST_upstream_errors_witness :
  Route.status
    (Route.POST
       (Analyze.analyzeMarket Examples.floorLog10 Examples.eventSlugOf
          Examples.noMarketSlug
          (fun slug =>
             fst (Fetch.fetchEventBySlug None
                    (Failed (Some 404%nat) "Request failed") slug))
          Examples.parseRain
          (fun conditionId => Fetch.holdersFor None (Replied None))
          Examples.noCache Examples.noLeaderboard Examples.noPositions
          Examples.noActivity Examples.noDates Examples.noon
          Examples.scoredAtNoon)
       (Route.Body (Some Examples.rainUrl))) = 404%nat.
Proof.
  destruct (POST_upstream_errors Examples.floorLog10 Examples.eventSlugOf
              Examples.noMarketSlug (fun _ => None)
              (fun _ => Failed (Some 404%nat) "Request failed")
              Examples.parseRain (fun _ => None) (fun _ => Replied None)
              Examples.noCache Examples.noLeaderboard Examples.noPositions
              Examples.noActivity Examples.noDates Examples.noon
              Examples.scoredAtNoon Examples.rainUrl "rain")
    as [H _]; [reflexivity | reflexivity | reflexivity |].
  rewrite (H "Request failed" eq_refl). reflexivity.
Defined.

End RouteFacts.
